(** * finance_data_system_elastic: a shallow embedding and its properties

    The development follows [finance_data_system_elastic.py].  Python values
    that travel through the store (documents, search hits) are kept as
    dictionaries of a small JSON-like value type; the effects of the program
    (store calls, page fetches, log lines, clock readings, raised exceptions)
    are threaded through a state-and-exception monad.  Everything the program
    obtains from a library or from the network is read from an environment
    record [Env], so that every statement below is quantified over all
    behaviours of the outside world.

    Strings are [String.string], i.e. sequences of bytes; the Chinese
    literals of the source are their UTF-8 encodings.  UTF-8 is
    self-synchronising, so for well-formed texts the byte-level substring
    test [str_in] agrees with Python's code-point-level [kw in content]. *)

From Stdlib Require Import String Ascii List Bool ZArith QArith Lia.
From Stdlib Require Import DecimalString.
From stdpp Require Import base option list strings gmap.

Open Scope string_scope.
Set Warnings "-register-all".

(** ** Python-level data *)

Module Py.

(** Exceptions deriving from [Exception] (the only ones an
    [except Exception] or bare handler of the source has to deal with in
    this model). *)
Inductive exn : Type :=
| AttributeError (msg : string)
| TypeError (msg : string)
| ValueError (msg : string)
| IndexError (msg : string)
| ConnectionError (msg : string)
| TransportError (msg : string)
| RequestError (msg : string)
| RequestException (msg : string)
| ConflictingIdError (job_id : string)
| SchedulerAlreadyRunningError.

Inductive outcome (A : Type) : Type :=
| Ok (a : A)
| Raise (e : exn).
Arguments Ok {A} a.
Arguments Raise {A} e.

(** Python floats that occur in the program: finite values are kept as
    rationals, [float('inf')], [float('nan')] only ever come out of the
    string parser. *)
Inductive pyfloat : Type :=
| FRat (q : Q)
| FInf (negative : bool)
| FNan.

Definition float_zero : pyfloat := FRat 0.

(** JSON-like values: what a document field or a search hit can hold. *)
Inductive value : Type :=
| VNone
| VBool (b : bool)
| VInt (z : Z)
| VFloat (f : pyfloat)
| VStr (s : string)
| VList (l : list value)
| VDict (d : list (string * value)).

(** A Python [dict] with string keys, in insertion order. *)
Abbreviation dict := (list (string * value)).

(** [d.get(key, default)] *)
Fixpoint dict_get (key : string) (d : dict) (default : value) : value :=
  match d with
  | [] => default
  | (k, v) :: d' => if String.eqb k key then v else dict_get key d' default
  end.

(** [kw in s] for two strings: [kw] occurs in [s] as a contiguous block. *)
Fixpoint str_in (kw s : string) : bool :=
  String.prefix kw s ||
  match s with
  | EmptyString => false
  | String _ s' => str_in kw s'
  end.

(** [s.replace(c, '')] for a one-character [c]. *)
Fixpoint remove_char (c : ascii) (s : string) : string :=
  match s with
  | EmptyString => EmptyString
  | String a s' =>
      if Ascii.eqb a c then remove_char c s' else String a (remove_char c s')
  end.

(** [str(n)] for a natural number, as an f-string prints it. *)
Definition str_of_nat (n : nat) : string :=
  NilZero.string_of_uint (Nat.to_uint n).

End Py.
Export Py.

(** ** Binary64 arithmetic on rationals

    A finite Python float is one of the rationals [m * 2^k] with
    [|m| < 2^53].  [binary64 q] is the float nearest to [q] (ties to even),
    which is what an IEEE operation returns for the exact result [q];
    overflow and subnormal numbers are left out: every quotient and product
    formed by the program lies between [2^-1022] and [2^1024] unless a list
    has more than [2^1000] entries. *)

Module Binary64.

(** The integer nearest to [num / den], ties to even. *)
Definition round_half_even (num : Z) (den : positive) : Z :=
  let q := (num / Z.pos den)%Z in
  let r := (num mod Z.pos den)%Z in
  match (2 * r ?= Z.pos den)%Z with
  | Lt => q
  | Gt => (q + 1)%Z
  | Eq => if Z.even q then q else (q + 1)%Z
  end.

Definition pow2 (z : Z) : Z := (2 ^ Z.max 0 z)%Z.

(** The exponent [e] with [2^e <= a/b < 2^(e+1)]. *)
Definition floor_log2 (a b : positive) : Z :=
  let d := (Z.log2 (Z.pos a) - Z.log2 (Z.pos b))%Z in
  if (Z.pos b * pow2 d <=? Z.pos a * pow2 (- d))%Z then d else (d - 1)%Z.

(** [a/b] rounded to 53 significant bits. *)
Definition binary64_pos (a b : positive) : Q :=
  let e := floor_log2 a b in
  let s := (52 - e)%Z in
  let m := round_half_even (Z.pos a * pow2 s) (b * Z.to_pos (pow2 (- s)))%positive in
  Qred ((m * pow2 (- s))%Z # Z.to_pos (pow2 s)).

Definition binary64 (q : Q) : Q :=
  match Qnum (Qred q) with
  | Z0 => 0
  | Z.pos a => binary64_pos a (Qden (Qred q))
  | Z.neg a => - binary64_pos a (Qden (Qred q))
  end.

(** [a / b] for two [int]s: the float nearest to the quotient. *)
Definition true_div (a b : nat) : Q :=
  binary64 (Z.of_nat a # Pos.of_nat b).

(** [n * 1.5] for an [int] [n]: [n] is converted to float, the product is
    rounded. *)
Definition times_1_5 (n : nat) : Q :=
  binary64 (binary64 (inject_Z (Z.of_nat n)) * (3 # 2)).

(** [round(x, 2)] in hundredths: the exact value of the float [x] is
    rounded to two decimals, ties to even. *)
Definition round2_hundredths (x : Q) : Z :=
  let y := Qred (100 * x) in round_half_even (Qnum y) (Qden y).

(** [round(x, 2)]: the float written with those two decimals. *)
Definition py_round2 (x : Q) : pyfloat :=
  FRat (Qred (round2_hundredths x # 100)).

(** [n > x] for an [int] [n] and a float [x]. *)
Definition int_gt_float (n : nat) (x : Q) : bool :=
  negb (Qle_bool (inject_Z (Z.of_nat n)) x).

End Binary64.
Export Binary64.

(** ** The outside world and the effect monad *)

Module Effects.

(** A parsed page as BeautifulSoup hands it out: every element answers
    [select] with the list of matching descendants, has a stripped text and
    attributes. *)
Inductive element : Type :=
| Element (get_text : string) (attrs : list (string * string))
          (select : string -> list element).

Definition get_text (el : element) : string :=
  match el with Element t _ _ => t end.

Definition select (el : element) (css : string) : list element :=
  match el with Element _ _ sel => sel css end.

(** [el.select_one(css)]: the first match, or [None]. *)
Definition select_one (el : element) (css : string) : option element :=
  head (select el css).

(** [el.get(name, '')] on a tag: attribute lookup with default. *)
Fixpoint attr_get (name : string) (attrs : list (string * string)) : string :=
  match attrs with
  | [] => ""
  | (k, v) :: rest => if String.eqb k name then v else attr_get name rest
  end.

(** Interactions with the network, in the order they happen. *)
Inductive net_call : Type :=
| HttpGet (url : string)
| EsPing
| EsIndicesExists (index : string)
| EsIndicesCreate (index : string)
| EsBulk (index : string) (actions : list dict)
| EsSearch (index : string) (query : dict) (size : nat).

Inductive level : Type := INFO | WARNING | ERROR.

(** What the libraries and the network answer.  [exists_fault] and
    [create_fault] say for which collection the respective store call
    raises; [bulk_reply] is what the store answers to the batch sent by
    [helpers.bulk(es, actions, raise_on_error=False)]: for the action at
    each position nothing when it was accepted and its error item when it
    was refused, or the exception raised when the transport fails;
    [search_reply] gives the [_source] of each hit; [prepare_body body size]
    is what the client does, before it sends anything, to the dictionary
    handed to [es.search(..., body=body, size=size)]: the contents it
    leaves in the dictionary, or the exception it raises without sending
    (clients before 8.12 leave the dictionary as it is; from 8.12 on the
    client writes [size] into it and refuses one that has the key already);
    [fetch_page] is [requests.get] followed by the BeautifulSoup parse;
    [float_of_str] is Python's [float(str)], [None] standing for its
    [ValueError]; [clock n] is the text of the [n]-th reading of
    [datetime.now().isoformat()]. *)
Record Env : Type := {
  ping_reply : bool;
  exists_fault : string -> option exn;
  create_fault : string -> option exn;
  bulk_reply : string -> list dict -> outcome (nat -> option value);
  search_reply : string -> dict -> nat -> outcome (list dict);
  prepare_body : dict -> nat -> outcome dict;
  fetch_page : string -> outcome element;
  float_of_str : string -> option pyfloat;
  clock : nat -> string
}.

(** The state the program acts on: the collections existing in the store
    with their definitions, the network interactions and log records so far
    (oldest first), and the number of clock readings. *)
Record World : Type := {
  indices : gmap string value;
  trace : list net_call;
  logs : list (level * string);
  ticks : nat
}.

Definition M (A : Type) : Type := Env -> World -> outcome A * World.

#[export] Instance M_ret : MRet M := fun A a _ w => (Ok a, w).

#[export] Instance M_bind : MBind M := fun A B f m env w =>
  match m env w with
  | (Ok a, w') => f a env w'
  | (Raise e, w') => (Raise e, w')
  end.

Definition raise {A : Type} (e : exn) : M A := fun _ w => (Raise e, w).

(** [try: body except Exception as e: handler(e)] *)
Definition try_except {A : Type} (body : M A) (handler : exn -> M A) : M A :=
  fun env w =>
    match body env w with
    | (Ok a, w') => (Ok a, w')
    | (Raise e, w') => handler e env w'
    end.

Definition ask : M Env := fun env w => (Ok env, w).

Definition record_call (c : net_call) : M unit := fun _ w =>
  (Ok tt, {| indices := indices w; trace := trace w ++ [c];
             logs := logs w; ticks := ticks w |}).

Definition logger (lvl : level) (msg : string) : M unit := fun _ w =>
  (Ok tt, {| indices := indices w; trace := trace w;
             logs := logs w ++ [(lvl, msg)]; ticks := ticks w |}).

(** [datetime.now().isoformat()] *)
Definition now_isoformat : M string := fun env w =>
  (Ok (clock env (ticks w)),
   {| indices := indices w; trace := trace w;
      logs := logs w; ticks := S (ticks w) |}).

(** [str(e)] of an exception. *)
Definition exn_str (e : exn) : string :=
  match e with
  | AttributeError m | TypeError m | ValueError m | IndexError m
  | ConnectionError m | TransportError m | RequestError m
  | RequestException m => m
  | ConflictingIdError job_id =>
      "Job identifier (" ++ job_id ++ ") conflicts with an existing job"
  | SchedulerAlreadyRunningError => "Scheduler is already running"
  end.

(** A [for] loop that threads the loop's local state [s]. *)
Fixpoint for_each {A S : Type} (xs : list A) (body : S -> A -> M S) (s : S) : M S :=
  match xs with
  | [] => mret s
  | x :: xs' => s' ← body s x; for_each xs' body s'
  end.

(** Store calls of the client library. *)

Definition es_ping : M bool :=
  record_call EsPing;; env ← ask; mret (ping_reply env).

Definition es_indices_exists (index : string) : M bool := fun env w =>
  let w' := {| indices := indices w; trace := trace w ++ [EsIndicesExists index];
               logs := logs w; ticks := ticks w |} in
  match exists_fault env index with
  | Some e => (Raise e, w')
  | None => (Ok (bool_decide (is_Some (indices w !! index))), w')
  end.

(** Creating a collection that exists is refused by the store. *)
Definition es_indices_create (index : string) (body : value) : M unit := fun env w =>
  let tr := (trace w ++ [EsIndicesCreate index])%list in
  match create_fault env index with
  | Some e => (Raise e, {| indices := indices w; trace := tr;
                           logs := logs w; ticks := ticks w |})
  | None =>
      if bool_decide (is_Some (indices w !! index))
      then (Raise (RequestError "resource_already_exists_exception"),
            {| indices := indices w; trace := tr; logs := logs w; ticks := ticks w |})
      else (Ok tt, {| indices := <[index := body]> (indices w); trace := tr;
                      logs := logs w; ticks := ticks w |})
  end.

(** The loop of [helpers.bulk] over the answers of the store, one for each
    action in order: an accepted action is counted as a success, the error
    item of a refused one is appended to the list of errors. *)
Fixpoint tally (items : list (option value)) : nat * list value :=
  match items with
  | [] => (0, [])
  | item :: rest =>
      let '(success, errors) := tally rest in
      match item with
      | None => (S success, errors)
      | Some error => (success, error :: errors)
      end
  end.

Definition bulk_items (item_at : nat -> option value) (actions : list dict)
    : list (option value) :=
  List.map item_at (seq 0 (length actions)).

Definition helpers_bulk (index : string) (actions : list dict) : M (nat * list value) :=
  fun env w =>
    (match bulk_reply env index actions with
     | Ok item_at => Ok (tally (bulk_items item_at actions))
     | Raise e => Raise e
     end,
     {| indices := indices w; trace := trace w ++ [EsBulk index actions];
        logs := logs w; ticks := ticks w |}).

Definition es_search (index : string) (query : dict) (size : nat) : M (list dict) :=
  fun env w =>
    (search_reply env index query size,
     {| indices := indices w; trace := trace w ++ [EsSearch index query size];
        logs := logs w; ticks := ticks w |}).

(** [requests.get(url, ...)] and [BeautifulSoup(response.text, 'lxml')] *)
Definition get_soup (url : string) : M element := fun env w =>
  (fetch_page env url,
   {| indices := indices w; trace := trace w ++ [HttpGet url];
      logs := logs w; ticks := ticks w |}).

End Effects.
Export Effects.

(** ** ElasticsearchClient *)

Module ElasticsearchClient.

Definition field (name type : string) : string * value :=
  (name, VDict [("type", VStr type)]).

Definition mappings (props : list (string * value)) : value :=
  VDict [("mappings", VDict [("properties", VDict props)])].

(** The [indices] dictionary of [_create_indices]. *)
Definition index_definitions : list (string * value) :=
  [ ("sina_live_data",
     mappings [ ("content", VDict [("type", VStr "text"); ("analyzer", VStr "standard")]);
                field "publish_time" "date"; field "source" "keyword";
                field "author" "keyword"; field "create_time" "date";
                field "tags" "keyword" ]);
    ("eastmoney_newstock_data",
     mappings [ field "stock_code" "keyword"; field "stock_name" "text";
                field "issue_price" "float"; field "issue_date" "date";
                field "listing_date" "date"; field "pe_ratio" "float";
                field "industry" "keyword"; field "create_time" "date" ]);
    ("eastmoney_industry_data",
     mappings [ field "title" "text"; field "content" "text";
                field "industry" "keyword"; field "publish_time" "date";
                field "url" "keyword"; field "create_time" "date" ]);
    ("analysis_results",
     mappings [ field "analysis_type" "keyword"; field "content" "text";
                field "data_source" "keyword"; field "metrics" "object";
                field "create_time" "date" ]);
    ("trading_strategies",
     mappings [ field "type" "keyword"; field "strategy" "text";
                field "risk_level" "keyword"; field "target_stocks" "keyword";
                field "confidence" "float"; field "create_time" "date" ]) ].

(** The body of the loop of [_create_indices] for one collection. *)
Definition create_index (index_name : string) (index_body : value) : M unit :=
  try_except
    (present ← es_indices_exists index_name;
     if negb present
     then es_indices_create index_name index_body;;
          logger INFO ("创建索引: " ++ index_name)
     else logger INFO ("索引已存在: " ++ index_name))
    (fun e => logger ERROR ("创建索引 " ++ index_name ++ " 失败: " ++ exn_str e)).

Definition _create_indices : M unit :=
  for_each index_definitions
    (fun _ '(index_name, index_body) => create_index index_name index_body) tt.

(** What [bulk_insert] hands back: nothing, or a pair whose second part is
    the helper's error list on the normal path and a number in the handler. *)
Inductive failed_part : Type :=
| Errors (errs : list value)
| Count (n : nat).

Inductive bulk_return : Type :=
| ReturnNone
| ReturnPair (success : nat) (failed : failed_part).

Definition bulk_actions (index : string) (documents : list dict) : list dict :=
  List.map (fun doc => [("_index", VStr index); ("_source", VDict doc)]) documents.

Definition bulk_insert (index : string) (documents : list dict) : M bulk_return :=
  match documents with
  | [] => mret ReturnNone
  | _ =>
      let actions := bulk_actions index documents in
      try_except
        ('(success, failed) ← helpers_bulk index actions;
         logger INFO ("批量插入 " ++ index ++ ": 成功 " ++ str_of_nat success
                      ++ " 条, 失败 " ++ str_of_nat (length failed) ++ " 条");;
         mret (ReturnPair success (Errors failed)))
        (fun e =>
           logger ERROR ("批量插入失败: " ++ exn_str e);;
           mret (ReturnPair 0 (Count (length documents))))
  end.

Definition search (index : string) (query : dict) (size : nat) : M (list dict) :=
  try_except
    (es_search index query size)
    (fun e => logger ERROR ("搜索失败: " ++ exn_str e);; mret []).

(** The same method called on a dictionary that its caller goes on using.
    [query] is then one object shared by the caller, the method and the
    client, so that what the client writes into it is there for the next
    call: the contents of the dictionary are threaded beside the result,
    and they outlive an exception.  The client first prepares the
    dictionary; when it refuses it, nothing is sent and the dictionary
    stays as it was. *)
Definition es_search_in_place (index : string) (query : dict) (size : nat)
    : Env -> World -> outcome (list dict) * dict * World :=
  fun env w =>
    match prepare_body env query size with
    | Raise e => (Raise e, query, w)
    | Ok query' =>
        let '(response, w') := es_search index query size env w in
        (response, query', w')
    end.

Definition search_in_place (index : string) (query : dict) (size : nat)
    : M (list dict * dict) :=
  fun env w =>
    match es_search_in_place index query size env w with
    | (Ok found, query', w') => (Ok (found, query'), w')
    | (Raise e, query', w') =>
        (logger ERROR ("搜索失败: " ++ exn_str e);; mret ([], query')) env w'
    end.

End ElasticsearchClient.
Export ElasticsearchClient.

(** ** DataCrawler *)

Module DataCrawler.

Definition keywords : list string :=
  ["涨停"; "跌停"; "利好"; "利空"; "重组"; "并购"; "业绩"; "财报"].

(** [[kw for kw in keywords if kw in content]] *)
Definition _extract_tags (content : string) : list string :=
  List.filter (fun kw => str_in kw content) keywords.

(** [el.get_text(strip=True)] on the result of [select_one]: calling it on
    [None] raises [AttributeError]. *)
Definition text_of (found : option element) : M string :=
  match found with
  | Some el => mret (get_text el)
  | None => raise (AttributeError "'NoneType' object has no attribute 'get_text'")
  end.

(** [cols[i]] *)
Definition item_at (cols : list element) (i : nat) : M element :=
  match cols !! i with
  | Some el => mret el
  | None => raise (IndexError "list index out of range")
  end.

(** [float(s)] *)
Definition py_float (s : string) : M pyfloat :=
  env ← ask;
  match float_of_str env s with
  | Some f => mret f
  | None => raise (ValueError ("could not convert string to float: " ++ s))
  end.

(** [value.replace(',', '').replace('%', '')] *)
Definition strip_separators (value : string) : string :=
  remove_char "%" (remove_char "," value).

Definition _parse_float (value : string) : M pyfloat :=
  try_except
    (py_float (strip_separators value))
    (fun _ => mret float_zero).

Definition tags_value (content : string) : value :=
  VList (List.map VStr (_extract_tags content)).

(** The body of the [try] of the loop of [crawl_sina_live]: the document
    built from one feed entry. *)
Definition sina_document (item : element) : M dict :=
  content ← text_of (select_one item ".bd_i_txt_c");
  time_str ← text_of (select_one item ".bd_i_time");
  publish_time ← now_isoformat;
  create_time ← now_isoformat;
  mret [ ("content", VStr content);
         ("publish_time", VStr publish_time);
         ("source", VStr "sina_finance");
         ("author", VStr "新浪财经");
         ("create_time", VStr create_time);
         ("tags", tags_value content) ].

Definition sina_url : string := "https://finance.sina.com.cn/7x24/".

Definition crawl_sina_live : M (list dict) :=
  logger INFO "开始抓取新浪财经直播数据";;
  try_except
    (soup ← get_soup sina_url;
     let items := take 20 (select soup ".bd_i") in
     data_list ← for_each items (fun data_list item =>
       try_except
         (data ← sina_document item;
          mret (data_list ++ [data])%list)
         (fun e =>
            logger WARNING ("解析单条数据失败: " ++ exn_str e);;
            mret data_list)) [];
     match data_list with
     | [] => mret tt
     | _ => bulk_insert "sina_live_data" data_list;; mret tt
     end;;
     logger INFO ("新浪财经直播数据抓取完成，共 "
                  ++ str_of_nat (length data_list) ++ " 条");;
     mret data_list)
    (fun e =>
       logger ERROR ("抓取新浪财经直播数据失败: " ++ exn_str e);;
       mret []).

(** The body of the [try] of the loop of [crawl_eastmoney_newstock];
    [None] is the [continue] taken for a short row. *)
Definition newstock_document (row : element) : M (option dict) :=
  let cols := select row "td" in
  if (length cols <? 6)%nat then mret None
  else
    c0 ← item_at cols 0;
    c1 ← item_at cols 1;
    c2 ← item_at cols 2;
    issue_price ← _parse_float (get_text c2);
    c3 ← item_at cols 3;
    c4 ← item_at cols 4;
    c5 ← item_at cols 5;
    pe_ratio ← _parse_float (get_text c5);
    industry ← (if (6 <? length cols)%nat
                then c6 ← item_at cols 6; mret (get_text c6)
                else mret "");
    create_time ← now_isoformat;
    mret (Some [ ("stock_code", VStr (get_text c0));
                 ("stock_name", VStr (get_text c1));
                 ("issue_price", VFloat issue_price);
                 ("issue_date", VStr (get_text c3));
                 ("listing_date", VStr (get_text c4));
                 ("pe_ratio", VFloat pe_ratio);
                 ("industry", VStr industry);
                 ("create_time", VStr create_time) ]).

Definition newstock_url : string := "http://data.eastmoney.com/xg/xg/default.html".

Definition crawl_eastmoney_newstock : M (list dict) :=
  logger INFO "开始抓取东方财富网新股数据";;
  try_except
    (soup ← get_soup newstock_url;
     let rows := take 10 (select soup "table tbody tr") in
     data_list ← for_each rows (fun data_list row =>
       try_except
         (data ← newstock_document row;
          match data with
          | None => mret data_list
          | Some data => mret (data_list ++ [data])%list
          end)
         (fun e =>
            logger WARNING ("解析新股数据失败: " ++ exn_str e);;
            mret data_list)) [];
     match data_list with
     | [] => mret tt
     | _ => bulk_insert "eastmoney_newstock_data" data_list;; mret tt
     end;;
     logger INFO ("东方财富网新股数据抓取完成，共 "
                  ++ str_of_nat (length data_list) ++ " 条");;
     mret data_list)
    (fun e =>
       logger ERROR ("抓取东方财富网新股数据失败: " ++ exn_str e);;
       mret []).

(** The body of the [try] of the loop of [crawl_eastmoney_industry]. *)
Definition industry_document (industry : string) (article : element) : M dict :=
  let title_elem := select_one article ".title" in
  let title := match title_elem with Some el => get_text el | None => "" end in
  let url_link :=
    match title_elem with
    | Some (Element _ attrs _) => attr_get "href" attrs
    | None => ""
    end in
  publish_time ← now_isoformat;
  create_time ← now_isoformat;
  mret [ ("title", VStr title);
         ("content", VStr "");
         ("industry", VStr industry);
         ("publish_time", VStr publish_time);
         ("url", VStr url_link);
         ("create_time", VStr create_time) ].

Definition industry_url (industry : string) : string :=
  "http://finance.eastmoney.com/a/" ++ industry ++ ".html".

Definition crawl_eastmoney_industry (industry : string) : M (list dict) :=
  logger INFO ("开始抓取东方财富网 " ++ industry ++ " 板块数据");;
  try_except
    (soup ← get_soup (industry_url industry);
     let articles := take 10 (select soup ".news-item") in
     data_list ← for_each articles (fun data_list article =>
       try_except
         (data ← industry_document industry article;
          mret (data_list ++ [data])%list)
         (fun e =>
            logger WARNING ("解析产业板块数据失败: " ++ exn_str e);;
            mret data_list)) [];
     match data_list with
     | [] => mret tt
     | _ => bulk_insert "eastmoney_industry_data" data_list;; mret tt
     end;;
     logger INFO (industry ++ " 板块数据抓取完成，共 "
                  ++ str_of_nat (length data_list) ++ " 条");;
     mret data_list)
    (fun e =>
       logger ERROR ("抓取 " ++ industry ++ " 板块数据失败: " ++ exn_str e);;
       mret []).

End DataCrawler.
Export DataCrawler.

(** ** DataAnalyzer *)

Module DataAnalyzer.

Definition lift {A : Type} (o : outcome A) : M A := fun _ w => (o, w).

Definition not_iterable (type_name : string) : exn :=
  TypeError ("argument of type '" ++ type_name ++ "' is not iterable").

(** [kw in container] for a string [kw]. *)
Definition contains (kw : string) (container : value) : outcome bool :=
  match container with
  | VStr s => Ok (str_in kw s)
  | VList l =>
      Ok (existsb (fun v => match v with VStr s => String.eqb s kw | _ => false end) l)
  | VDict d => Ok (existsb (fun '(k, _) => String.eqb k kw) d)
  | VNone => Raise (not_iterable "NoneType")
  | VBool _ => Raise (not_iterable "bool")
  | VInt _ => Raise (not_iterable "int")
  | VFloat _ => Raise (not_iterable "float")
  end.

(** [any(kw in content for kw in keywords)] *)
Fixpoint any_keyword_in (keywords : list string) (content : value) : outcome bool :=
  match keywords with
  | [] => Ok false
  | kw :: rest =>
      match contains kw content with
      | Ok true => Ok true
      | Ok false => any_keyword_in rest content
      | Raise e => Raise e
      end
  end.

(** [sum(1 for item in data if any(kw in item.get('content', '') for kw in keywords))] *)
Fixpoint count_matching (keywords : list string) (data : list dict) : outcome nat :=
  match data with
  | [] => Ok 0
  | item :: rest =>
      match any_keyword_in keywords (dict_get "content" item (VStr "")) with
      | Ok hit =>
          match count_matching keywords rest with
          | Ok n => Ok ((if hit then 1 else 0) + n)
          | Raise e => Raise e
          end
      | Raise e => Raise e
      end
  end.

Definition bullish : string := "市场情绪偏多，建议适度参与".
Definition bearish : string := "市场情绪偏空，建议谨慎操作".
Definition neutral : string := "市场情绪中性，建议观望".

Definition positive_keywords : list string := ["利好"; "上涨"; "突破"; "创新高"].
Definition negative_keywords : list string := ["利空"; "下跌"; "破位"; "创新低"].

(** The final [if]/[elif]/[else] of [_analyze_market_sentiment]. *)
Definition sentiment_label (positive_count negative_count : nat) : string :=
  if int_gt_float positive_count (times_1_5 negative_count) then bullish
  else if int_gt_float negative_count (times_1_5 positive_count) then bearish
  else neutral.

Definition _analyze_market_sentiment (data : list dict) : M string :=
  match data with
  | [] => mret neutral
  | _ =>
      positive_count ← lift (count_matching positive_keywords data);
      negative_count ← lift (count_matching negative_keywords data);
      mret (sentiment_label positive_count negative_count)
  end.

Definition _identify_hot_stocks (data : list dict) : list string :=
  ["示例股票1"; "示例股票2"].

Definition _summarize_news (data : list dict) : string :=
  match data with
  | [] => "暂无重要新闻"
  | _ => "今日共有 " ++ str_of_nat (length data) ++ " 条重要资讯，市场关注度较高"
  end.

(** The [keywords] dictionary of [_calculate_sentiment_ratio] with
    [keywords.get(sentiment, [])]. *)
Definition ratio_keywords (sentiment : string) : list string :=
  if String.eqb sentiment "positive" then ["利好"; "上涨"; "突破"]
  else if String.eqb sentiment "negative" then ["利空"; "下跌"; "破位"]
  else [].

Definition _calculate_sentiment_ratio (data : list dict) (sentiment : string) : M pyfloat :=
  match data with
  | [] => mret float_zero
  | _ =>
      count ← lift (count_matching (ratio_keywords sentiment) data);
      mret (py_round2 (true_div count (length data)))
  end.

Definition _generate_daily_summary (data : list dict) : string :=
  "今日市场共产生 " ++ str_of_nat (length data) ++ " 条资讯，整体表现稳定".

Definition _extract_key_events (data : list dict) : list string :=
  ["重要事件1"; "重要事件2"; "重要事件3"].

Definition since (window : string) : (string * value) :=
  ("query", VDict [("range", VDict [("create_time", VDict [("gte", VStr window)])])]).

Definition int_value (n : nat) : value := VInt (Z.of_nat n).

Definition generate_pre_market_strategy : M dict :=
  logger INFO "生成盘前策略";;
  let query :=
    [ since "now-24h";
      ("sort", VList [VDict [("create_time", VDict [("order", VStr "desc")])]]) ] in
  '(sina_data, query) ← search_in_place "sina_live_data" query 50;
  '(newstock_data, query) ← search_in_place "eastmoney_newstock_data" query 10;
  sentiment ← _analyze_market_sentiment sina_data;
  create_time ← now_isoformat;
  let strategy :=
    [ ("type", VStr "pre_market_strategy");
      ("strategy", VStr sentiment);
      ("risk_level", VStr "medium");
      ("target_stocks", VList (List.map VStr (_identify_hot_stocks sina_data)));
      ("confidence", VFloat (FRat (3 # 4)));
      ("create_time", VStr create_time);
      ("data_summary", VDict [ ("news_count", int_value (length sina_data));
                               ("newstock_count", int_value (length newstock_data)) ]) ] in
  bulk_insert "trading_strategies" [strategy];;
  mret strategy.

Definition analyze_opening_news : M dict :=
  logger INFO "分析开盘消息面";;
  let query := [ since "now-2h" ] in
  data ← search "sina_live_data" query 100;
  positive_ratio ← _calculate_sentiment_ratio data "positive";
  negative_ratio ← _calculate_sentiment_ratio data "negative";
  create_time ← now_isoformat;
  let analysis :=
    [ ("analysis_type", VStr "opening_news");
      ("content", VStr (_summarize_news data));
      ("data_source", VStr "sina_live_data");
      ("metrics", VDict [ ("total_news", int_value (length data));
                          ("positive_ratio", VFloat positive_ratio);
                          ("negative_ratio", VFloat negative_ratio) ]);
      ("create_time", VStr create_time) ] in
  bulk_insert "analysis_results" [analysis];;
  mret analysis.

Definition analyze_dragon_tiger_list : M dict :=
  logger INFO "分析龙虎榜";;
  create_time ← now_isoformat;
  let analysis :=
    [ ("analysis_type", VStr "dragon_tiger_list");
      ("content", VStr "龙虎榜分析：今日上榜个股主要集中在科技板块...");
      ("data_source", VStr "external_api");
      ("metrics", VDict [ ("hot_stocks_count", VInt 10);
                          ("institutional_buy", VInt 5);
                          ("institutional_sell", VInt 3) ]);
      ("create_time", VStr create_time) ] in
  bulk_insert "analysis_results" [analysis];;
  mret analysis.

Definition analyze_northbound_capital : M dict :=
  logger INFO "分析北向资金";;
  create_time ← now_isoformat;
  let analysis :=
    [ ("analysis_type", VStr "northbound_capital");
      ("content", VStr "北向资金今日净流入，主要流向消费和医药板块...");
      ("data_source", VStr "external_api");
      ("metrics", VDict [ ("net_inflow", VInt 5000000000);
                          ("top_sectors", VList [VStr "消费"; VStr "医药"; VStr "科技"]) ]);
      ("create_time", VStr create_time) ] in
  bulk_insert "analysis_results" [analysis];;
  mret analysis.

Definition analyze_closing_summary : M dict :=
  logger INFO "生成收盘综述";;
  let query := [ since "now-8h" ] in
  all_data ← search "sina_live_data" query 500;
  create_time ← now_isoformat;
  let analysis :=
    [ ("analysis_type", VStr "closing_summary");
      ("content", VStr (_generate_daily_summary all_data));
      ("data_source", VStr "multiple");
      ("metrics", VDict [ ("total_news", int_value (length all_data));
                          ("market_sentiment", VStr "positive");
                          ("key_events", VList (List.map VStr (_extract_key_events all_data))) ]);
      ("create_time", VStr create_time) ] in
  bulk_insert "analysis_results" [analysis];;
  mret analysis.

End DataAnalyzer.
Export DataAnalyzer.

(** ** The job scheduler

    The registry of jobs is the scheduler object of the APScheduler library
    (3.x, [BackgroundScheduler] with its in-memory job store), which is not
    part of the repository.  Its [add_job] is modelled here after the
    library's documented behaviour: while the scheduler is stopped a job is
    only queued; once it runs, a job goes to the store, where an id that is
    taken raises [ConflictingIdError] unless the caller passed
    [replace_existing=True]. *)

Module Scheduler.

Inductive routine : Type :=
| GeneratePreMarketStrategy
| AnalyzeOpeningNews
| AnalyzeDragonTigerList
| AnalyzeNorthboundCapital
| AnalyzeClosingSummary
| CrawlSinaLive.

(** [CronTrigger(hour=..., minute=...)]; [None] is an omitted field. *)
Record CronTrigger : Type := { hour : option nat; minute : option nat }.

Record job : Type := {
  func : routine;
  trigger : CronTrigger;
  job_id : string;
  job_name : string
}.

Record scheduler : Type := {
  running : bool;
  pending : list (job * bool);
  jobstore : gmap string job
}.

Definition new_scheduler : scheduler :=
  {| running := false; pending := []; jobstore := ∅ |}.

Definition real_add_job (j : job) (replace_existing : bool) (s : scheduler)
    : outcome scheduler :=
  match jobstore s !! job_id j with
  | None =>
      Ok {| running := running s; pending := pending s;
            jobstore := <[job_id j := j]> (jobstore s) |}
  | Some _ =>
      if replace_existing
      then Ok {| running := running s; pending := pending s;
                 jobstore := <[job_id j := j]> (jobstore s) |}
      else Raise (ConflictingIdError (job_id j))
  end.

Definition add_job (j : job) (replace_existing : bool) (s : scheduler)
    : outcome scheduler :=
  if running s then real_add_job j replace_existing s
  else Ok {| running := false;
             pending := (pending s ++ [(j, replace_existing)])%list;
             jobstore := jobstore s |}.

Fixpoint add_pending (jobs : list (job * bool)) (s : scheduler) : outcome scheduler :=
  match jobs with
  | [] => Ok s
  | (j, replace_existing) :: rest =>
      match real_add_job j replace_existing s with
      | Ok s' => add_pending rest s'
      | Raise e => Raise e
      end
  end.

(** [scheduler.start()] *)
Definition start (s : scheduler) : outcome scheduler :=
  if running s then Raise SchedulerAlreadyRunningError
  else add_pending (pending s)
         {| running := true; pending := []; jobstore := jobstore s |}.

(** The number of jobs the scheduler holds, queued or stored. *)
Definition job_count (s : scheduler) : nat :=
  length (pending s) + size (jobstore s).

(** The jobs held under a given id, queued or stored. *)
Definition jobs_with_id (wanted : string) (s : scheduler) : list job :=
  (List.filter (fun j => String.eqb (job_id j) wanted) (List.map fst (pending s)) ++
   match jobstore s !! wanted with
   | Some j => [j]
   | None => []
   end)%list.

End Scheduler.
Export Scheduler.

(** ** FinanceDataSystem *)

Module FinanceDataSystem.

(** A Flask response: [jsonify(body)] with its status code. *)
Record response : Type := { status : nat; body : dict }.

Definition jsonify (body : dict) (status : nat) : response :=
  {| status := status; body := body |}.

Definition health_check : M response :=
  timestamp ← now_isoformat;
  connected ← es_ping;
  mret (jsonify
          [ ("status", VStr "healthy");
            ("timestamp", VStr timestamp);
            ("elasticsearch", VStr (if (connected : bool) then "connected" else "disconnected")) ]
          200).

(** The [tasks] dictionary of [execute_task]. *)
Definition tasks : gmap string (M dict) :=
  <["pre_market" := generate_pre_market_strategy]>
  (<["opening_news" := analyze_opening_news]>
  (<["dragon_tiger" := analyze_dragon_tiger_list]>
  (<["northbound" := analyze_northbound_capital]>
  (<["closing" := analyze_closing_summary]> ∅)))).

Definition execute_task (task_name : string) : M response :=
  match tasks !! task_name with
  | None =>
      mret (jsonify [ ("success", VBool false);
                      ("error", VStr ("未知任务: " ++ task_name)) ] 400)
  | Some task =>
      try_except
        (result ← task;
         mret (jsonify [ ("success", VBool true); ("data", VDict result) ] 200))
        (fun e =>
           logger ERROR ("执行任务 " ++ task_name ++ " 失败: " ++ exn_str e);;
           mret (jsonify [ ("success", VBool false); ("error", VStr (exn_str e)) ] 500))
  end.

(** The keys of [tasks]. *)
Definition task_names : list string :=
  ["pre_market"; "opening_news"; "dragon_tiger"; "northbound"; "closing"].

Definition cron (h m : option nat) : CronTrigger := {| hour := h; minute := m |}.

(** The six [add_job] calls of [_setup_scheduled_tasks], none of which
    passes [replace_existing]. *)
Definition scheduled_jobs : list job :=
  [ {| func := GeneratePreMarketStrategy; trigger := cron (Some 8) (Some 0);
       job_id := "pre_market_strategy"; job_name := "盘前策略生成" |};
    {| func := AnalyzeOpeningNews; trigger := cron (Some 9) (Some 30);
       job_id := "opening_news"; job_name := "开盘消息面总结" |};
    {| func := AnalyzeDragonTigerList; trigger := cron (Some 10) (Some 0);
       job_id := "dragon_tiger_list"; job_name := "龙虎榜分析" |};
    {| func := AnalyzeNorthboundCapital; trigger := cron (Some 11) (Some 0);
       job_id := "northbound_capital"; job_name := "北向资金分析" |};
    {| func := AnalyzeClosingSummary; trigger := cron (Some 15) (Some 0);
       job_id := "closing_summary"; job_name := "收盘综述" |};
    {| func := CrawlSinaLive; trigger := cron None (Some 0);
       job_id := "crawl_sina_hourly"; job_name := "新浪财经数据抓取" |} ].

Fixpoint add_jobs (jobs : list job) (s : scheduler) : outcome scheduler :=
  match jobs with
  | [] => Ok s
  | j :: rest =>
      match add_job j false s with
      | Ok s' => add_jobs rest s'
      | Raise e => Raise e
      end
  end.

Definition _setup_scheduled_tasks (s : scheduler) : outcome scheduler :=
  add_jobs scheduled_jobs s.

End FinanceDataSystem.
Export FinanceDataSystem.

(** ** Schema creation: auxiliary notions *)

Module SchemaSpec.

(** Neither store call raises for this collection. *)
Definition creation_ok (env : Env) (name : string) : bool :=
  bool_decide (exists_fault env name = None) && bool_decide (create_fault env name = None).

(** The exception that processing collection [name] runs into, if any:
    the existence check raises, or the collection is absent and its creation
    raises. *)
Definition creation_error (env : Env) (w : World) (name : string) : option exn :=
  match exists_fault env name with
  | Some e => Some e
  | None =>
      if bool_decide (is_Some (indices w !! name)) then None
      else create_fault env name
  end.

(** The world after one turn of the loop. *)
Definition create_step (env : Env) (w : World) (d : string * value) : World :=
  snd (create_index d.1 d.2 env w).

(** The definitions that a run is able to put into the store. *)
Fixpoint created (env : Env) (defs : list (string * value)) : gmap string value :=
  match defs with
  | [] => ∅
  | d :: defs' =>
      (if creation_ok env d.1 then {[d.1 := d.2]} else ∅) ∪ created env defs'
  end.

Definition index_names : list string := List.map fst index_definitions.

(** The record written by the handler of the loop. *)
Definition failure_line (name : string) (e : exn) : level * string :=
  (ERROR, "创建索引 " ++ name ++ " 失败: " ++ exn_str e).

(** The one record that a turn of the loop writes. *)
Definition create_log_line (env : Env) (w : World) (name : string) : level * string :=
  match creation_error env w name with
  | Some e => failure_line name e
  | None =>
      if bool_decide (is_Some (indices w !! name))
      then (INFO, "索引已存在: " ++ name)
      else (INFO, "创建索引: " ++ name)
  end.

End SchemaSpec.
Export SchemaSpec.

(** ** Bulk write: auxiliary notions *)

Module BulkSpec.

(** The number of failed documents that a returned pair stands for. *)
Definition failed_count (f : failed_part) : nat :=
  match f with
  | Errors errs => length errs
  | Count n => n
  end.

(** Of the first [n] positions of a batch, the number that the store
    accepted and the error items of those it refused. *)
Definition accepted (item_at : nat -> option value) (n : nat) : nat :=
  length (List.filter (fun position =>
                         match item_at position with None => true | Some _ => false end)
                      (seq 0 n)).

Definition refused (item_at : nat -> option value) (n : nat) : list value :=
  omap item_at (seq 0 n).

End BulkSpec.
Export BulkSpec.

(** ** Crawls: what a run is expected to produce *)

Module CrawlSpec.

(** The world after [n] further clock readings. *)
Definition advance (n : nat) (w : World) : World :=
  {| indices := indices w; trace := trace w; logs := logs w; ticks := n + ticks w |}.

(** The value [_parse_float] is expected to give. *)
Definition parsed_float (env : Env) (value : string) : pyfloat :=
  match float_of_str env (strip_separators value) with
  | Some f => f
  | None => float_zero
  end.

(** The content of a feed entry that has both of its sub-elements. *)
Definition sina_entry (item : element) : option string :=
  match select_one item ".bd_i_txt_c", select_one item ".bd_i_time" with
  | Some c, Some _ => Some (get_text c)
  | _, _ => None
  end.

Definition sina_doc (env : Env) (t : nat) (content : string) : dict :=
  [ ("content", VStr content);
    ("publish_time", VStr (clock env t));
    ("source", VStr "sina_finance");
    ("author", VStr "新浪财经");
    ("create_time", VStr (clock env (S t)));
    ("tags", tags_value content) ].

(** The documents of the well-formed entries, in page order, the clock
    standing at [t]. *)
Fixpoint sina_docs (env : Env) (t : nat) (items : list element) : list dict :=
  match items with
  | [] => []
  | item :: rest =>
      match sina_entry item with
      | Some content => sina_doc env t content :: sina_docs env (S (S t)) rest
      | None => sina_docs env t rest
      end
  end.

Definition text_at (cols : list element) (i : nat) : string :=
  match cols !! i with
  | Some el => get_text el
  | None => ""
  end.

Definition newstock_doc (env : Env) (t : nat) (row : element) : dict :=
  let cols := select row "td" in
  [ ("stock_code", VStr (text_at cols 0));
    ("stock_name", VStr (text_at cols 1));
    ("issue_price", VFloat (parsed_float env (text_at cols 2)));
    ("issue_date", VStr (text_at cols 3));
    ("listing_date", VStr (text_at cols 4));
    ("pe_ratio", VFloat (parsed_float env (text_at cols 5)));
    ("industry", VStr (text_at cols 6));
    ("create_time", VStr (clock env t)) ].

(** One document per row of at least six columns, in page order. *)
Fixpoint newstock_docs (env : Env) (t : nat) (rows : list element) : list dict :=
  match rows with
  | [] => []
  | row :: rest =>
      if (length (select row "td") <? 6)%nat then newstock_docs env t rest
      else newstock_doc env t row :: newstock_docs env (S t) rest
  end.

Definition industry_doc (env : Env) (t : nat) (industry : string) (article : element) : dict :=
  let title_elem := select_one article ".title" in
  [ ("title", VStr (match title_elem with Some el => get_text el | None => "" end));
    ("content", VStr "");
    ("industry", VStr industry);
    ("publish_time", VStr (clock env t));
    ("url", VStr (match title_elem with
                  | Some (Element _ attrs _) => attr_get "href" attrs
                  | None => ""
                  end));
    ("create_time", VStr (clock env (S t))) ].

Fixpoint industry_docs (env : Env) (t : nat) (industry : string)
    (articles : list element) : list dict :=
  match articles with
  | [] => []
  | article :: rest =>
      industry_doc env t industry article :: industry_docs env (S (S t)) industry rest
  end.

(** The network interactions of a crawl that produced [docs] for [index]:
    the page fetch, then one bulk call unless [docs] is empty. *)
Definition crawl_trace (url index : string) (docs : list dict) : list net_call :=
  HttpGet url ::
  match docs with
  | [] => []
  | _ :: _ => [EsBulk index (bulk_actions index docs)]
  end.

(** A crawl returns normally, leaves the collections alone, and: gives the
    empty list after nothing but the page fetch when the fetch raises;
    otherwise gives [docs_of] of the page, written in at most one batch. *)
Definition crawl_outcome (crawl : M (list dict)) (url index : string)
    (docs_of : Env -> nat -> element -> list dict) (env : Env) (w : World) : Prop :=
  exists docs w',
    crawl env w = (Ok docs, w') /\
    indices w' = indices w /\
    match fetch_page env url with
    | Raise _ => docs = [] /\ trace w' = (trace w ++ [HttpGet url])%list
    | Ok soup =>
        docs = docs_of env (ticks w) soup /\
        trace w' = (trace w ++ crawl_trace url index docs)%list
    end.

End CrawlSpec.
Export CrawlSpec.

(** ** Analyses: auxiliary notions *)

Module AnalysisSpec.

(** A stored news item: its [content], when present, is a text. *)
Definition news_item (item : dict) : Prop :=
  exists s, dict_get "content" item (VStr "") = VStr s.

Definition content_text (item : dict) : string :=
  match dict_get "content" item (VStr "") with
  | VStr s => s
  | _ => ""
  end.

(** The content of the item contains at least one of the keywords. *)
Definition mentions (keywords : list string) (item : dict) : bool :=
  existsb (fun kw => str_in kw (content_text item)) keywords.

(** The number of items containing at least one of the keywords. *)
Definition matching (keywords : list string) (data : list dict) : nat :=
  length (List.filter (mentions keywords) data).

(** [1.5 * n] as a rational. *)
Definition one_and_a_half (n : nat) : Q := (3 # 2) * inject_Z (Z.of_nat n).

End AnalysisSpec.
Export AnalysisSpec.

(** ** Concrete worlds for the examples *)

Module Scenario.

Definition digit_value (c : ascii) : option Z :=
  let n := nat_of_ascii c in
  if ((48 <=? n) && (n <=? 57))%nat then Some (Z.of_nat (n - 48)) else None.

Fixpoint read_digits (s : string) (acc : Z) : option Z :=
  match s with
  | EmptyString => Some acc
  | String c s' =>
      match digit_value c with
      | Some d => read_digits s' (10 * acc + d)%Z
      | None => None
      end
  end.

Fixpoint split_dot (s : string) : string * option string :=
  match s with
  | EmptyString => (EmptyString, None)
  | String c s' =>
      if Ascii.eqb c "." then (EmptyString, Some s')
      else let '(a, b) := split_dot s' in (String c a, b)
  end.

(** A reader of plain decimal literals (sign, digits, optional fraction),
    standing in for [float(str)] in the examples; Python's [float] accepts
    more (exponents, [inf], [nan], underscores, surrounding blanks). *)
Definition read_decimal (s : string) : option pyfloat :=
  let '(negative, body) :=
    match s with
    | String "-" r => (true, r)
    | String "+" r => (false, r)
    | _ => (false, s)
    end in
  let '(ip, fp) := split_dot body in
  let fp := default EmptyString fp in
  if (String.length ip + String.length fp =? 0)%nat then None
  else
    match read_digits ip 0, read_digits fp 0 with
    | Some i, Some f =>
        let scale := (10 ^ Z.of_nat (String.length fp))%Z in
        let n := (i * scale + f)%Z in
        Some (FRat (Qred ((if negative then - n else n)%Z # Z.to_pos scale)))
    | _, _ => None
    end.

Definition empty_world : World :=
  {| indices := ∅; trace := []; logs := []; ticks := 0 |}.

Definition blank_page : element := Element "" [] (fun _ => []).

(** The two ways in which clients treat the [body] dictionary of a search
    that comes with [size]: older ones send [size] beside it and leave it
    alone; from 8.12 on the client writes [size] into the dictionary, and
    refuses to do so when the key is there already. *)
Definition body_untouched (body : dict) (size : nat) : outcome dict := Ok body.

Definition size_into_body (body : dict) (size : nat) : outcome dict :=
  if existsb (fun '(key, _) => String.eqb key "size") body
  then Raise (ValueError ("Received multiple values for 'size', specify parameters "
                          ++ "using either body or parameters, not both."))
  else Ok (body ++ [("size", VInt (Z.of_nat size))])%list.

(** A store and a network without faults: every document of a batch is
    accepted, searches find nothing, pages are empty. *)
Definition healthy_env : Env :=
  {| ping_reply := true;
     exists_fault := fun _ => None;
     create_fault := fun _ => None;
     bulk_reply := fun _ _ => Ok (fun _ => None);
     search_reply := fun _ _ _ => Ok [];
     prepare_body := size_into_body;
     fetch_page := fun _ => Ok blank_page;
     float_of_str := read_decimal;
     clock := fun n => "2024-01-02T08:00:0" ++ str_of_nat n |}.

(** The store rejects the second document of every batch. *)
Definition rejecting_env : Env :=
  {| ping_reply := true;
     exists_fault := fun _ => None;
     create_fault := fun _ => None;
     bulk_reply := fun _ _ =>
       Ok (fun position =>
             if (position =? 1)%nat
             then Some (VDict [("index", VDict [("status", VInt 400)])])
             else None);
     search_reply := fun _ _ _ => Ok [];
     prepare_body := size_into_body;
     fetch_page := fun _ => Ok blank_page;
     float_of_str := read_decimal;
     clock := fun n => "2024-01-02T08:00:0" ++ str_of_nat n |}.

(** The store is unreachable: every call to it raises. *)
Definition store_down_env : Env :=
  {| ping_reply := false;
     exists_fault := fun _ => Some (TransportError "connection refused");
     create_fault := fun _ => Some (TransportError "connection refused");
     bulk_reply := fun _ _ => Raise (TransportError "connection refused");
     search_reply := fun _ _ _ => Raise (TransportError "connection refused");
     prepare_body := size_into_body;
     fetch_page := fun _ => Ok blank_page;
     float_of_str := read_decimal;
     clock := fun n => "2024-01-02T08:00:0" ++ str_of_nat n |}.

(** The pages cannot be fetched. *)
Definition network_down_env : Env :=
  {| ping_reply := true;
     exists_fault := fun _ => None;
     create_fault := fun _ => None;
     bulk_reply := fun _ _ => Ok (fun _ => None);
     search_reply := fun _ _ _ => Ok [];
     prepare_body := size_into_body;
     fetch_page := fun _ => Raise (RequestException "connection timed out");
     float_of_str := read_decimal;
     clock := fun n => "2024-01-02T08:00:0" ++ str_of_nat n |}.

Definition two_documents : list dict :=
  [ [("content", VStr "利好消息")]; [("content", VStr "下跌")] ].

End Scenario.
Export Scenario.

(** ** Concrete pages for the examples *)

Module Pages.

Definition leaf (text : string) : element := Element text [] (fun _ => []).

(** A feed entry with the given text and time. *)
Definition feed_entry (text time : string) : element :=
  Element (text ++ time) []
    (fun css =>
       if String.eqb css ".bd_i_txt_c" then [leaf text]
       else if String.eqb css ".bd_i_time" then [leaf time]
       else []).

(** A feed entry whose text element is missing. *)
Definition broken_entry : element :=
  Element "09:31" []
    (fun css => if String.eqb css ".bd_i_time" then [leaf "09:31"] else []).

Definition table_row (cells : list string) : element :=
  Element "" [] (fun css => if String.eqb css "td" then List.map leaf cells else []).

Definition short_row : element :=
  table_row ["688001"; "华兴源创"; "24.26"; "2019-06-27"; "2019-07-22"].

Definition odd_price_row : element :=
  table_row ["688002"; "睿创微纳"; "待定"; "2019-07-02"; "2019-07-22"; "1,079.5%"].

(** A page with three feed entries, the second one broken, and two
    listings rows, the first one short. *)
Definition feed_page : element :=
  Element "" []
    (fun css =>
       if String.eqb css ".bd_i"
       then [ feed_entry "利好消息：某公司重组获批" "09:30";
              broken_entry;
              feed_entry "大盘下跌" "09:32" ]
       else if String.eqb css "table tbody tr"
       then [ short_row; odd_price_row ]
       else []).

Definition feed_env : Env :=
  {| ping_reply := true;
     exists_fault := fun _ => None;
     create_fault := fun _ => None;
     bulk_reply := fun _ _ => Ok (fun _ => None);
     search_reply := fun _ _ _ => Ok [];
     prepare_body := size_into_body;
     fetch_page := fun _ => Ok feed_page;
     float_of_str := read_decimal;
     clock := fun n => "2024-01-02T08:00:0" ++ str_of_nat n |}.

End Pages.
Export Pages.

(** ** Concrete stores for the examples *)

Module Stores.

(** A store whose live-news collection holds a document with a numeric
    [content]. *)
Definition odd_hit_env : Env :=
  {| ping_reply := true;
     exists_fault := fun _ => None;
     create_fault := fun _ => None;
     bulk_reply := fun _ _ => Ok (fun _ => None);
     search_reply := fun index _ _ =>
       if String.eqb index "sina_live_data" then Ok [[("content", VInt 7)]] else Ok [];
     prepare_body := size_into_body;
     fetch_page := fun _ => Ok blank_page;
     float_of_str := read_decimal;
     clock := fun n => "2024-01-02T08:00:0" ++ str_of_nat n |}.

End Stores.
Export Stores.

(** ** Concrete news lists for the examples *)

Module Feeds.

Definition news (content : string) : dict := [("content", VStr content)].

(** Ten items with good news and four with bad news. *)
Definition ten_up_four_down : list dict :=
  (repeat (news "利好消息：某公司重组获批") 10 ++ repeat (news "大盘下跌") 4)%list.

(** Twenty-three items, seven of them with good news. *)
Definition seven_of_twenty_three : list dict :=
  (repeat (news "指数突破前高") 7 ++ repeat (news "成交清淡") 16)%list.

End Feeds.
Export Feeds.

(** ** Concrete schedulers for the examples *)

Module Registries.

(** The scheduler as [FinanceDataSystem.__init__] leaves it. *)
Definition configured : outcome scheduler := _setup_scheduled_tasks new_scheduler.

(** The scheduler after [FinanceDataSystem.start]. *)
Definition started : outcome scheduler :=
  match configured with
  | Ok s => start s
  | Raise e => Raise e
  end.

(** A job that reuses the id of the opening-news job for another routine. *)
Definition duplicate_job : job :=
  {| func := CrawlSinaLive; trigger := cron None (Some 30);
     job_id := "opening_news"; job_name := "重复任务" |}.

Definition opening_news_job : job :=
  {| func := AnalyzeOpeningNews; trigger := cron (Some 9) (Some 30);
     job_id := "opening_news"; job_name := "开盘消息面总结" |}.

End Registries.
Export Registries.

(** ** Start-up: the constructors *)

Module Startup.

Definition _check_connection : M unit :=
  try_except
    (connected ← es_ping;
     if (connected : bool)
     then logger INFO "成功连接到 Elasticsearch"
     else logger ERROR "无法连接到 Elasticsearch";;
          raise (ConnectionError "Elasticsearch 连接失败"))
    (fun e =>
       logger ERROR ("Elasticsearch 连接错误: " ++ exn_str e);;
       raise e).

(** [ElasticsearchClient.__init__]; building the client object itself
    touches neither the network nor the log. *)
Definition ElasticsearchClient_init : M unit :=
  _check_connection;;
  _create_indices.

(** [FinanceDataSystem.__init__], returning the scheduler of the new
    system: the store client is built first, the crawler, the analyzer, the
    scheduler object, the Flask application and its routes are plain
    objects, and [_setup_scheduled_tasks] ends with its log record. *)
Definition FinanceDataSystem_init : M scheduler :=
  ElasticsearchClient_init;;
  s ← lift (_setup_scheduled_tasks new_scheduler);
  logger INFO "定时任务设置完成";;
  mret s.

(** [FinanceDataSystem.start] up to the call of [app.run]. *)
Definition FinanceDataSystem_start (s : scheduler) : M scheduler :=
  logger INFO "启动金融数据系统";;
  s' ← lift (start s);
  logger INFO "定时任务调度器已启动";;
  mret s'.

End Startup.
Export Startup.

(** ** The remaining routes *)

Module Routes.

Definition get_pre_market_strategy : M response :=
  try_except
    (strategy ← generate_pre_market_strategy;
     mret (jsonify [ ("success", VBool true); ("data", VDict strategy) ] 200))
    (fun e =>
       logger ERROR ("获取盘前策略失败: " ++ exn_str e);;
       mret (jsonify [ ("success", VBool false); ("error", VStr (exn_str e)) ] 500)).

Definition industries : list string :=
  ["tech"; "finance"; "healthcare"; "consumer"; "industrial"; "energy"].

Definition crawl_now : M response :=
  try_except
    (crawl_sina_live;;
     crawl_eastmoney_newstock;;
     for_each industries
       (fun _ industry => crawl_eastmoney_industry industry;; mret tt) tt;;
     mret (jsonify [ ("success", VBool true); ("message", VStr "数据抓取完成") ] 200))
    (fun e =>
       logger ERROR ("数据抓取失败: " ++ exn_str e);;
       mret (jsonify [ ("success", VBool false); ("error", VStr (exn_str e)) ] 500)).

End Routes.
Export Routes.

(** ** start_production.py *)

Module Production.

(** The process environment and Python's [int(str)], [None] standing for
    its [ValueError]. *)
Record Process : Type := {
  environ : string -> option string;
  int_of_str : string -> option Z
}.

(** Code that also prints: the lines written to standard output are
    threaded next to the world. *)
Definition Console (A : Type) : Type :=
  list string -> Env -> World -> outcome A * list string * World.

#[export] Instance Console_ret : MRet Console := fun A a out _ w => (Ok a, out, w).

#[export] Instance Console_bind : MBind Console := fun A B f m out env w =>
  match m out env w with
  | (Ok a, out', w') => f a out' env w'
  | (Raise e, out', w') => (Raise e, out', w')
  end.

Definition print (line : string) : Console unit := fun out _ w =>
  (Ok tt, (out ++ [line])%list, w).

Definition quiet {A : Type} (m : M A) : Console A := fun out env w =>
  let '(r, w') := m env w in (r, out, w').

Definition str_of_int (z : Z) : string :=
  NilZero.string_of_int (Z.to_int z).

(** [int(os.environ.get(name, default))] for an [int] default. *)
Definition int_setting (proc : Process) (name : string) (default : Z) : Console Z :=
  match environ proc name with
  | None => mret default
  | Some text =>
      match int_of_str proc text with
      | Some z => mret z
      | None =>
          quiet (raise (ValueError ("invalid literal for int() with base 10: '"
                                    ++ text ++ "'")))
      end
  end.

(** The arguments of the call of [serve]. *)
Record serve_call : Type := {
  host : string;
  port : Z;
  threads : Z;
  connection_limit : Z;
  backlog : Z;
  outbuf_overflow : Z
}.

(** [main] up to the call of [serve]: the arguments of that call and the
    scheduler of the system whose application is served. *)
Definition main (proc : Process) : Console (serve_call * scheduler) :=
  let host := default "0.0.0.0" (environ proc "FLASK_HOST") in
  port ← int_setting proc "FLASK_PORT" 5000;
  threads ← int_setting proc "WAITRESS_THREADS" 2;
  print "启动金融数据系统生产环境服务器...";;
  print ("监听地址: " ++ host ++ ":" ++ str_of_int port);;
  print ("线程数: " ++ str_of_int threads);;
  system ← quiet FinanceDataSystem_init;
  mret ({| host := host; port := port; threads := threads;
           connection_limit := 100; backlog := 2048;
           outbuf_overflow := 16777216 |}, system).

End Production.
Export Production.

(** ** Start-up: auxiliary notions *)

Module StartupSpec.

(** The store calls made for one collection: the existence check, and the
    creation when the check answers that the collection is absent. *)
Definition schema_calls (env : Env) (w : World) (name : string) : list net_call :=
  EsIndicesExists name ::
  match exists_fault env name with
  | Some _ => []
  | None =>
      if bool_decide (is_Some (indices w !! name)) then []
      else [EsIndicesCreate name]
  end.

(** The value of an integer setting; [None] when its text is not an
    integer. *)
Definition setting (proc : Process) (name : string) (default : Z) : option Z :=
  match environ proc name with
  | None => Some default
  | Some text => int_of_str proc text
  end.

(** The three lines [main] prints. *)
Definition banner (host : string) (port threads : Z) : list string :=
  [ "启动金融数据系统生产环境服务器...";
    "监听地址: " ++ host ++ ":" ++ str_of_int port;
    "线程数: " ++ str_of_int threads ].

(** A process environment without settings, and one with an unusable
    port. *)
Definition bare_process : Process :=
  {| environ := fun _ => None; int_of_str := fun _ => None |}.

Definition bad_port_process : Process :=
  {| environ := fun k => if String.eqb k "FLASK_PORT" then Some "http" else None;
     int_of_str := fun _ => None |}.

End StartupSpec.
Export StartupSpec.

(** ** Analyses and routes: auxiliary notions *)

Module RoutineSpec.

(** What a search hands to its caller: the hits, or nothing when the store
    call raised. *)
Definition hits (env : Env) (index : string) (query : dict) (size : nat) : list dict :=
  match search_reply env index query size with
  | Ok found => found
  | Raise _ => []
  end.

(** The log records of a search: one error record when the store call
    raised. *)
Definition search_records (env : Env) (index : string) (query : dict) (size : nat)
    : list (level * string) :=
  match search_reply env index query size with
  | Ok _ => []
  | Raise e => [(ERROR, "搜索失败: " ++ exn_str e)]
  end.

(** The query of the pre-market routine. *)
Definition day_query : dict :=
  [ since "now-24h";
    ("sort", VList [VDict [("create_time", VDict [("order", VStr "desc")])]]) ].

(** The bulk call that writes one artifact. *)
Definition write_of (index : string) (artifact : dict) : net_call :=
  EsBulk index (bulk_actions index [artifact]).

(** Values on which [kw in value] raises [TypeError]. *)
Definition uniterable (v : value) : bool :=
  match v with
  | VNone | VBool _ | VInt _ | VFloat _ => true
  | VStr _ | VList _ | VDict _ => false
  end.

Definition is_bulk (c : net_call) : bool :=
  match c with EsBulk _ _ => true | _ => false end.

Definition is_fetch (c : net_call) : bool :=
  match c with HttpGet _ => true | _ => false end.

(** The pages that [crawl_now] fetches, in order. *)
Definition crawl_now_urls : list string :=
  sina_url :: newstock_url :: List.map industry_url industries.

(** The label and the ratio that a list of news items gets. *)
Definition news_label (data : list dict) : string :=
  match data with
  | [] => neutral
  | _ :: _ =>
      sentiment_label (matching positive_keywords data)
                      (matching negative_keywords data)
  end.

Definition news_ratio (data : list dict) (sentiment : string) : pyfloat :=
  match data with
  | [] => float_zero
  | _ :: _ =>
      py_round2 (true_div (matching (ratio_keywords sentiment) data) (length data))
  end.

(** The field names that the definition of a collection declares. *)
Definition declared_fields (index : string) : list string :=
  match dict_get index index_definitions VNone with
  | VDict body =>
      match dict_get "mappings" body VNone with
      | VDict mappings =>
          match dict_get "properties" mappings VNone with
          | VDict props => List.map fst props
          | _ => []
          end
      | _ => []
      end
  | _ => []
  end.

Definition field_names (document : dict) : list string := List.map fst document.

(** The failure records of the client constructor. *)
Definition two_connection_errors : list (level * string) :=
  [ (ERROR, "无法连接到 Elasticsearch");
    (ERROR, "Elasticsearch 连接错误: Elasticsearch 连接失败") ].

(** A store whose live-news collection holds ten items with good news and
    four with bad news. *)
Definition lively_env : Env :=
  {| ping_reply := true;
     exists_fault := fun _ => None;
     create_fault := fun _ => None;
     bulk_reply := fun _ _ => Ok (fun _ => None);
     search_reply := fun index _ _ =>
       if String.eqb index "sina_live_data" then Ok ten_up_four_down else Ok [];
     prepare_body := size_into_body;
     fetch_page := fun _ => Ok blank_page;
     float_of_str := read_decimal;
     clock := fun n => "2024-01-02T08:00:0" ++ str_of_nat n |}.

(** A search on a dictionary that is used again: what the client leaves in
    the dictionary, the hits that are handed back, the call that is sent
    and the records that are logged.  A dictionary that the client refuses
    stays as it was; nothing is sent then and nothing found. *)
Definition left_in (env : Env) (query : dict) (size : nat) : dict :=
  match prepare_body env query size with
  | Ok query' => query'
  | Raise _ => query
  end.

Definition hits_in_place (env : Env) (index : string) (query : dict) (size : nat)
    : list dict :=
  match prepare_body env query size with
  | Ok _ => hits env index query size
  | Raise _ => []
  end.

Definition calls_in_place (env : Env) (index : string) (query : dict) (size : nat)
    : list net_call :=
  match prepare_body env query size with
  | Ok _ => [EsSearch index query size]
  | Raise _ => []
  end.

Definition records_in_place (env : Env) (index : string) (query : dict) (size : nat)
    : list (level * string) :=
  match prepare_body env query size with
  | Ok _ => search_records env index query size
  | Raise e => [(ERROR, "搜索失败: " ++ exn_str e)]
  end.

Definition two_listings : list dict :=
  [ [("stock_code", VStr "688001")]; [("stock_code", VStr "301001")] ].

(** The lively store with two listings on record, behind a client that
    treats the body of a search as [prepare] says. *)
Definition listing_env (prepare : dict -> nat -> outcome dict) : Env :=
  {| ping_reply := true;
     exists_fault := fun _ => None;
     create_fault := fun _ => None;
     bulk_reply := fun _ _ => Ok (fun _ => None);
     search_reply := fun index _ _ =>
       if String.eqb index "sina_live_data" then Ok ten_up_four_down
       else if String.eqb index "eastmoney_newstock_data" then Ok two_listings
       else Ok [];
     prepare_body := prepare;
     fetch_page := fun _ => Ok blank_page;
     float_of_str := read_decimal;
     clock := fun n => "2024-01-02T08:00:0" ++ str_of_nat n |}.

End RoutineSpec.
Export RoutineSpec.

(** * Properties *)

(** ** Substring test *)

Lemma append_cons (a : ascii) (s t : string) :
  (String a s ++ t)%string = String a (s ++ t)%string.
Proof. reflexivity. Qed.

Lemma append_nil (t : string) : ("" ++ t)%string = t.
Proof. reflexivity. Qed.

Lemma prefix_app (kw s : string) :
  String.prefix kw s = true <-> exists post, s = (kw ++ post)%string.
Proof.
  revert s; induction kw as [|c kw IH]; intros s; simpl.
  - split; [intros _; exists s; reflexivity | intros _; destruct s; reflexivity].
  - destruct s as [|a s]; simpl.
    + split; [discriminate | intros [post H]; rewrite append_cons in H; discriminate].
    + destruct (ascii_dec c a) as [->|Hne].
      * rewrite IH. split; intros [post H]; exists post;
          rewrite append_cons in *; congruence.
      * split; [discriminate |].
        intros [post H]; rewrite append_cons in H; congruence.
Qed.

Lemma str_in_nil (kw : string) : str_in kw "" = String.prefix kw "" || false.
Proof. reflexivity. Qed.

Lemma str_in_cons (kw : string) (a : ascii) (s : string) :
  str_in kw (String a s) = String.prefix kw (String a s) || str_in kw s.
Proof. reflexivity. Qed.

(** [str_in kw s] holds exactly when [s] can be cut as [pre ++ kw ++ post]. *)
Lemma str_in_spec (kw s : string) :
  str_in kw s = true <-> exists pre post, s = (pre ++ kw ++ post)%string.
Proof.
  induction s as [|a s IH]; [rewrite str_in_nil | rewrite str_in_cons].
  - rewrite orb_false_r, prefix_app. split.
    + intros [post H]. exists "", post. exact H.
    + intros [pre [post H]]. destruct pre as [|b pre].
      * rewrite append_nil in H. eauto.
      * rewrite append_cons in H. discriminate.
  - rewrite orb_true_iff, prefix_app, IH. split.
    + intros [[post H] | [pre [post H]]].
      * exists "", post. exact H.
      * exists (String a pre), post. rewrite append_cons. congruence.
    + intros [pre [post H]]. destruct pre as [|b pre].
      * left. rewrite append_nil in H. eauto.
      * right. exists pre, post. rewrite append_cons in H. congruence.
Qed.

(** ** Tag extraction *)

(** C8: tag extraction returns exactly the vocabulary keywords that occur in
    the content as substrings (in vocabulary order, each at most once); the
    content "利好消息：某公司重组获批" yields exactly 利好 and 重组. *)
Theorem extract_tags_exact :
  (forall (content kw : string),
      In kw (_extract_tags content) <->
      In kw keywords /\
      exists pre post, content = (pre ++ kw ++ post)%string) /\
  (forall content, List.NoDup (_extract_tags content)) /\
  _extract_tags "利好消息：某公司重组获批" = ["利好"; "重组"].
Proof.
  split; [|split].
  - intros content kw. unfold _extract_tags.
    rewrite filter_In, str_in_spec. reflexivity.
  - intros content. unfold _extract_tags.
    apply List.NoDup_filter. unfold keywords.
    repeat (constructor; [simpl; intuition discriminate|]). constructor.
  - vm_compute. reflexivity.
Qed.

(** ** Schema creation *)

Ltac unfold_create_index :=
  unfold create_index, try_except, mbind, M_bind, es_indices_exists,
    es_indices_create, logger.

Section Schema.

Context (env : Env).

Lemma create_index_returns w name body :
  fst (create_index name body env w) = Ok tt.
Proof.
  unfold_create_index.
  destruct (exists_fault env name); simpl; [reflexivity|].
  destruct (bool_decide (is_Some (indices w !! name))) eqn:E; simpl; [reflexivity|].
  destruct (create_fault env name); simpl; [reflexivity|].
  rewrite E. reflexivity.
Qed.

Lemma create_index_indices w name body :
  indices (snd (create_index name body env w)) =
  indices w ∪ (if creation_ok env name then {[name := body]} else ∅).
Proof.
  unfold_create_index. unfold creation_ok.
  destruct (exists_fault env name) eqn:Ee; simpl.
  { by rewrite (right_id ∅ (∪)). }
  destruct (bool_decide (is_Some (indices w !! name))) eqn:E; simpl.
  - apply bool_decide_eq_true_1 in E. destruct E as [v Hv].
    destruct (bool_decide _); [|by rewrite (right_id ∅ (∪))].
    apply map_eq. intros k. rewrite lookup_union.
    destruct (decide (k = name)) as [->|Hne].
    + rewrite Hv, lookup_singleton_eq. reflexivity.
    + rewrite lookup_singleton_ne by congruence. by destruct (indices w !! k).
  - destruct (create_fault env name) eqn:Ec; simpl.
    + by rewrite (right_id ∅ (∪)).
    + rewrite E. simpl.
      apply bool_decide_eq_false_1 in E.
      rewrite insert_union_singleton_r; [reflexivity|].
      destruct (indices w !! name) eqn:El; [exfalso; apply E; eauto | reflexivity].
Qed.

Lemma for_each_create defs w :
  for_each defs (fun _ '(n, b) => create_index n b) tt env w =
  (Ok tt, fold_left (create_step env) defs w).
Proof.
  revert w; induction defs as [|[n b] defs IH]; intros w; [reflexivity|].
  simpl. unfold mbind, M_bind.
  pose proof (create_index_returns w n b) as Hr.
  assert (create_step env w (n, b) = snd (create_index n b env w)) as ->
    by reflexivity.
  destruct (create_index n b env w) as [r w1]. simpl in Hr. subst r.
  apply IH.
Qed.

Lemma fold_create_indices defs w :
  indices (fold_left (create_step env) defs w) = indices w ∪ created env defs.
Proof.
  revert w; induction defs as [|d defs IH]; intros w; simpl.
  - by rewrite (right_id ∅ (∪)).
  - rewrite IH. unfold create_step. rewrite create_index_indices.
    by rewrite (assoc_L (∪)).
Qed.

Lemma created_lookup_None defs name :
  ~ In name (List.map fst defs) -> created env defs !! name = None.
Proof.
  induction defs as [|d defs IH]; simpl; intros Hn; [apply lookup_empty|].
  apply lookup_union_None. split; [|apply IH; tauto].
  destruct (creation_ok env d.1); [|apply lookup_empty].
  apply lookup_singleton_ne. tauto.
Qed.

Lemma created_lookup_ok defs name :
  In name (List.map fst defs) -> creation_ok env name = true ->
  is_Some (created env defs !! name).
Proof.
  induction defs as [|d defs IH]; simpl; intros Hin Hok; [contradiction|].
  apply lookup_union_is_Some.
  destruct (decide (d.1 = name)) as [->|Hne].
  - left. rewrite Hok, lookup_singleton_eq. eauto.
  - right. apply IH; [tauto | assumption].
Qed.

Lemma created_dom defs :
  dom (created env defs) ⊆ list_to_set (List.map fst defs).
Proof.
  induction defs as [|d defs IH]; simpl.
  - by rewrite dom_empty_L.
  - rewrite dom_union_L. destruct (creation_ok env d.1).
    + rewrite dom_singleton_L. apply union_mono; [reflexivity | exact IH].
    + rewrite dom_empty_L. apply union_mono; [apply empty_subseteq | exact IH].
Qed.

Lemma create_index_trace w name body :
  exists rest, trace (snd (create_index name body env w)) =
               (trace w ++ EsIndicesExists name :: rest)%list.
Proof.
  unfold_create_index.
  destruct (exists_fault env name); simpl; [by exists []|].
  destruct (bool_decide (is_Some (indices w !! name))) eqn:E; simpl; [by exists []|].
  destruct (create_fault env name); simpl.
  - exists [EsIndicesCreate name]. by rewrite <- app_assoc.
  - rewrite E. simpl. exists [EsIndicesCreate name]. by rewrite <- app_assoc.
Qed.

Lemma create_index_logs w name body :
  logs (snd (create_index name body env w)) =
  (logs w ++ [create_log_line env w name])%list.
Proof.
  unfold_create_index. unfold create_log_line, creation_error.
  destruct (exists_fault env name); simpl; [reflexivity|].
  destruct (bool_decide (is_Some (indices w !! name))) eqn:E; simpl; [reflexivity|].
  destruct (create_fault env name); simpl; [reflexivity|].
  rewrite E. reflexivity.
Qed.

Lemma fold_create_trace_mono defs w c :
  In c (trace w) -> In c (trace (fold_left (create_step env) defs w)).
Proof.
  revert w; induction defs as [|d defs IH]; intros w Hin; simpl; [assumption|].
  apply IH. unfold create_step.
  destruct (create_index_trace w d.1 d.2) as [rest ->].
  apply in_or_app. by left.
Qed.

Lemma fold_create_logs_mono defs w l :
  In l (logs w) -> In l (logs (fold_left (create_step env) defs w)).
Proof.
  revert w; induction defs as [|d defs IH]; intros w Hin; simpl; [assumption|].
  apply IH. unfold create_step. rewrite create_index_logs.
  apply in_or_app. by left.
Qed.

Lemma fold_create_processed defs w name :
  In name (List.map fst defs) ->
  In (EsIndicesExists name) (trace (fold_left (create_step env) defs w)).
Proof.
  revert w; induction defs as [|d defs IH]; intros w; simpl; [contradiction|].
  intros [<-|Hin]; [|by apply IH].
  apply fold_create_trace_mono. unfold create_step.
  destruct (create_index_trace w d.1 d.2) as [rest ->].
  apply in_or_app. right. by left.
Qed.

Lemma creation_error_ext w1 w2 name :
  indices w1 !! name = indices w2 !! name ->
  creation_error env w1 name = creation_error env w2 name.
Proof. unfold creation_error. by intros ->. Qed.

Lemma fold_create_logged defs w name e :
  List.NoDup (List.map fst defs) -> In name (List.map fst defs) ->
  creation_error env w name = Some e ->
  In (failure_line name e) (logs (fold_left (create_step env) defs w)).
Proof.
  revert w; induction defs as [|d defs IH]; intros w Hnd; simpl; [contradiction|].
  inversion Hnd as [|? ? Hnotin Hnd']; subst.
  intros [<-|Hin] He.
  - apply fold_create_logs_mono. unfold create_step.
    rewrite create_index_logs. unfold create_log_line. rewrite He.
    apply in_or_app. right. by left.
  - apply IH; [assumption..|].
    rewrite <- He. apply creation_error_ext.
    unfold create_step. rewrite create_index_indices, lookup_union.
    assert (d.1 <> name) by (intros Heq; rewrite Heq in Hnotin; contradiction).
    destruct (creation_ok env d.1).
    + rewrite lookup_singleton_ne by assumption. by destruct (indices w !! name).
    + rewrite lookup_empty. by destruct (indices w !! name).
Qed.

Lemma index_names_NoDup : List.NoDup index_names.
Proof.
  unfold index_names, index_definitions; simpl.
  repeat (constructor; [simpl; intuition discriminate|]). constructor.
Qed.

Lemma created_absorbed defs (m : gmap string value) :
  (forall name, In name (List.map fst defs) -> is_Some (m !! name)) ->
  m ∪ created env defs = m.
Proof.
  intros Hall. apply map_eq. intros k. rewrite lookup_union.
  destruct (m !! k) as [v|] eqn:Hk; [by destruct (created env defs !! k)|].
  rewrite created_lookup_None; [reflexivity|].
  intros Hin. apply Hall in Hin. rewrite Hk in Hin. by destruct Hin.
Qed.

End Schema.

(** C2: whatever the store answers, the schema routine returns normally; run
    a second time against the same store it leaves the collections exactly
    as the first run left them, and when the five collections exist it
    changes none; it keeps what existed, creates nothing outside the five
    definitions, issues the existence check for each of the five, and a
    collection whose processing raises has its failure logged while every
    other one ends up existing. *)
Theorem create_indices_idempotent_nonfatal (env : Env) (w : World) :
  let r1 := _create_indices env w in
  let r2 := _create_indices env (snd r1) in
  fst r1 = Ok tt /\ fst r2 = Ok tt /\
  indices (snd r2) = indices (snd r1) /\
  ((forall name, In name index_names -> is_Some (indices w !! name)) ->
   indices (snd r1) = indices w) /\
  indices w ⊆ indices (snd r1) /\
  dom (indices (snd r1)) ⊆ dom (indices w) ∪ list_to_set index_names /\
  forall name, In name index_names ->
    In (EsIndicesExists name) (trace (snd r1)) /\
    match creation_error env w name with
    | Some e => In (failure_line name e) (logs (snd r1))
    | None => is_Some (indices (snd r1) !! name)
    end.
Proof.
  unfold _create_indices. cbv zeta. rewrite !for_each_create. cbn [fst snd].
  rewrite !fold_create_indices.
  split; [reflexivity|]. split; [reflexivity|]. split.
  { by rewrite <- (assoc_L (∪)), (idemp_L (∪)). }
  split; [apply created_absorbed|].
  split; [apply map_union_subseteq_l|]. split.
  { rewrite dom_union_L. apply union_mono; [reflexivity | apply created_dom]. }
  intros name Hin. split; [by apply fold_create_processed|].
  destruct (creation_error env w name) as [e|] eqn:He.
  - apply fold_create_logged; [apply index_names_NoDup | assumption..].
  - apply lookup_union_is_Some.
    unfold creation_error in He.
    destruct (exists_fault env name) eqn:Ee; [discriminate|].
    destruct (bool_decide (is_Some (indices w !! name))) eqn:Ep.
    + left. by apply bool_decide_eq_true_1 in Ep.
    + right. apply created_lookup_ok; [assumption|].
      unfold creation_ok. rewrite Ee, He. reflexivity.
Qed.

Lemma create_indices_idempotent_nonfatal_witness :
  let created_once := snd (_create_indices healthy_env empty_world) in
  size (indices created_once) = 5 /\
  (forall name, In name index_names -> is_Some (indices created_once !! name)) /\
  indices (snd (_create_indices store_down_env created_once)) = indices created_once.
Proof.
  cbv zeta.
  assert (forall name, In name index_names ->
            is_Some (indices (snd (_create_indices healthy_env empty_world)) !! name))
    as Hall
    by (intros name [<-|[<-|[<-|[<-|[<-|[]]]]]]; vm_compute; eauto).
  split; [vm_compute; reflexivity|]. split; [exact Hall|].
  remember (snd (_create_indices healthy_env empty_world)) as w1 eqn:Hw1.
  pose proof (create_indices_idempotent_nonfatal store_down_env w1) as H.
  cbv zeta in H. destruct H as (_ & _ & _ & Hnoop & _).
  exact (Hnoop Hall).
Defined.

(** ** Bulk write *)

Lemma bulk_actions_length index documents :
  length (bulk_actions index documents) = length documents.
Proof. unfold bulk_actions. apply length_map. Qed.

Lemma tally_accounts (items : list (option value)) :
  fst (tally items) =
    length (List.filter (fun item => match item with None => true | Some _ => false end)
                        items) /\
  snd (tally items) = omap id items /\
  fst (tally items) + length (snd (tally items)) = length items.
Proof.
  induction items as [|item items (IHs & IHe & IHn)]; [by repeat split|].
  cbn [tally]. destruct (tally items) as [success errors]. cbn [fst snd] in *.
  destruct item as [error|]; cbn [fst snd List.filter omap list_omap length id];
    repeat split; try congruence; try (cbn; congruence); cbn [length]; lia.
Qed.

Lemma bulk_items_tally (item_at : nat -> option value) (actions : list dict) :
  tally (bulk_items item_at actions) =
    (accepted item_at (length actions), refused item_at (length actions)) /\
  accepted item_at (length actions) + length (refused item_at (length actions)) =
    length actions.
Proof.
  destruct (tally_accounts (bulk_items item_at actions)) as (Hs & He & Hn).
  assert (tally (bulk_items item_at actions) =
            (accepted item_at (length actions), refused item_at (length actions))) as Ht.
  { rewrite (surjective_pairing (tally _)), Hs, He. unfold bulk_items, accepted, refused.
    f_equal.
    - generalize (seq 0 (length actions)). intros positions.
      induction positions as [|position positions IH]; [reflexivity|].
      cbn [List.map List.filter]. destruct (item_at position); cbn [length]; congruence.
    - generalize (seq 0 (length actions)). intros positions.
      induction positions as [|position positions IH]; [reflexivity|].
      cbn [List.map omap list_omap]. destruct (item_at position); cbn [id]; congruence. }
  split; [exact Ht|].
  rewrite Ht in Hn. cbn [fst snd] in Hn.
  unfold bulk_items in Hn. by rewrite length_map, length_seq in Hn.
Qed.

(** C1 (as the code has it): a bulk write of an empty list touches nothing
    and hands back no pair at all; a bulk write of [n > 0] documents issues
    exactly one bulk call and hands back a pair whose successes and
    failures make [n]: [(0, n)] when the transport fails, and otherwise the
    number of documents that the store accepted with the list of the error
    items of those it refused. *)
Theorem bulk_insert_accounting (env : Env) (w : World) (index : string)
    (documents : list dict) :
  match documents with
  | [] => bulk_insert index documents env w = (Ok ReturnNone, w)
  | _ :: _ =>
      exists success failed w',
        bulk_insert index documents env w = (Ok (ReturnPair success failed), w') /\
        success + failed_count failed = length documents /\
        trace w' = (trace w ++ [EsBulk index (bulk_actions index documents)])%list /\
        indices w' = indices w /\
        match bulk_reply env index (bulk_actions index documents) with
        | Raise _ => success = 0 /\ failed = Count (length documents)
        | Ok item_at =>
            success = accepted item_at (length documents) /\
            failed = Errors (refused item_at (length documents))
        end
  end.
Proof.
  destruct documents as [|doc documents]; [reflexivity|].
  unfold bulk_insert, try_except, mbind, M_bind, helpers_bulk, logger, mret, M_ret.
  destruct (bulk_reply env index (bulk_actions index (doc :: documents)))
    as [item_at|e] eqn:E.
  - destruct (bulk_items_tally item_at (bulk_actions index (doc :: documents)))
      as [-> Hsum].
    rewrite bulk_actions_length in Hsum |- *.
    eexists _, _, _. split; [reflexivity|]. cbn [failed_count trace indices]. auto.
  - eexists _, _, _. split; [reflexivity|]. simpl. auto.
Qed.

Lemma bulk_insert_accounting_witness :
  (exists w',
     bulk_insert "sina_live_data" two_documents rejecting_env empty_world =
       (Ok (ReturnPair 1 (Errors [VDict [("index", VDict [("status", VInt 400)])]])), w') /\
     1 + 1 = length two_documents) /\
  (exists w',
     bulk_insert "sina_live_data" two_documents store_down_env empty_world =
       (Ok (ReturnPair 0 (Count 2)), w')) /\
  bulk_insert "sina_live_data" [] store_down_env empty_world = (Ok ReturnNone, empty_world).
Proof.
  split; [|split].
  - destruct (bulk_insert_accounting rejecting_env empty_world "sina_live_data"
                two_documents) as (s & f & w' & Hrun & Hsum & _ & _ & Hs & Hf).
    cbn in Hs, Hf. subst s f. exists w'. split; [exact Hrun | reflexivity].
  - destruct (bulk_insert_accounting store_down_env empty_world "sina_live_data"
                two_documents) as (s & f & w' & Hrun & _ & _ & _ & Hs & Hf).
    simpl in Hs, Hf. subst s f. exists w'. exact Hrun.
  - apply (bulk_insert_accounting store_down_env empty_world "sina_live_data" []).
Defined.

(** C1 (as stated) fails for the empty list: nothing is returned, where the
    claim expects the pair (0,0). *)
Lemma bulk_insert_empty_returns_no_pair :
  fst (bulk_insert "sina_live_data" [] healthy_env empty_world) = Ok ReturnNone /\
  ~ exists success failed,
      fst (bulk_insert "sina_live_data" [] healthy_env empty_world) =
      Ok (ReturnPair success failed).
Proof.
  split; [reflexivity|]. intros (s & f & H). discriminate H.
Qed.

(** ** Running monadic code *)

Lemma bind_run {A B : Type} (m : M A) (f : A -> M B) env w :
  (m ≫= f) env w =
  match m env w with
  | (Ok a, w') => f a env w'
  | (Raise e, w') => (Raise e, w')
  end.
Proof. reflexivity. Qed.

Lemma try_run {A : Type} (body : M A) (handler : exn -> M A) env w :
  try_except body handler env w =
  match body env w with
  | (Ok a, w') => (Ok a, w')
  | (Raise e, w') => handler e env w'
  end.
Proof. reflexivity. Qed.

Lemma ret_run {A : Type} (a : A) env w : (mret a : M A) env w = (Ok a, w).
Proof. reflexivity. Qed.

Section Crawls.

Context (env : Env).

(** A bulk write always returns, leaves the collections alone and adds one
    bulk call unless the list is empty. *)
Lemma bulk_insert_run w index documents :
  exists r w',
    bulk_insert index documents env w = (Ok r, w') /\
    indices w' = indices w /\
    ticks w' = ticks w /\
    trace w' = (trace w ++ match documents with
                           | [] => []
                           | _ :: _ => [EsBulk index (bulk_actions index documents)]
                           end)%list.
Proof.
  destruct documents as [|doc documents].
  - exists ReturnNone, w. simpl. rewrite app_nil_r. auto.
  - unfold bulk_insert, try_except, mbind, M_bind, helpers_bulk, logger, mret, M_ret.
    destruct (bulk_reply env index (bulk_actions index (doc :: documents)))
      as [item_at|e];
      [destruct (tally (bulk_items item_at (bulk_actions index (doc :: documents))))|];
      eexists _, _; (split; [reflexivity|]); simpl; auto.
Qed.

(** ** The float reader *)

Lemma parse_float_run w value :
  _parse_float value env w = (Ok (parsed_float env value), w).
Proof.
  unfold _parse_float, py_float, parsed_float, try_except, mbind, M_bind, ask, raise, mret, M_ret.
  destruct (float_of_str env (strip_separators value)); reflexivity.
Qed.

Lemma remove_char_list c s :
  list_ascii_of_string (remove_char c s) =
  List.filter (fun a => negb (Ascii.eqb a c)) (list_ascii_of_string s).
Proof.
  induction s as [|a s IH]; simpl; [reflexivity|].
  destruct (Ascii.eqb a c); simpl; [assumption | by rewrite IH].
Qed.

Lemma strip_separators_list value :
  list_ascii_of_string (strip_separators value) =
  List.filter (fun a => negb (Ascii.eqb a ",") && negb (Ascii.eqb a "%"))
    (list_ascii_of_string value).
Proof.
  unfold strip_separators. rewrite !remove_char_list.
  induction (list_ascii_of_string value) as [|a l IH]; simpl; [reflexivity|].
  destruct (Ascii.eqb a ","); simpl; [assumption|].
  destruct (Ascii.eqb a "%"); simpl; [assumption | by rewrite IH].
Qed.

(** ** The three loops *)

Lemma sina_document_run w item :
  sina_document item env w =
  match sina_entry item with
  | Some content => (Ok (sina_doc env (ticks w) content), advance 2 w)
  | None => (Raise (AttributeError "'NoneType' object has no attribute 'get_text'"), w)
  end.
Proof.
  unfold sina_document, sina_entry, text_of, mbind, M_bind, raise, mret, M_ret,
    now_isoformat, advance.
  destruct (select_one item ".bd_i_txt_c"); [|reflexivity].
  destruct (select_one item ".bd_i_time"); reflexivity.
Qed.

Lemma sina_loop_run items : forall acc w,
  exists w',
    for_each items (fun data_list item =>
      try_except
        (data ← sina_document item; mret (data_list ++ [data])%list)
        (fun e => logger WARNING ("解析单条数据失败: " ++ exn_str e);; mret data_list))
      acc env w = (Ok (acc ++ sina_docs env (ticks w) items)%list, w') /\
    indices w' = indices w /\ trace w' = trace w.
Proof.
  induction items as [|item items IH]; intros acc w.
  - exists w. simpl. rewrite app_nil_r. auto.
  - cbn [for_each sina_docs]. rewrite bind_run, try_run, bind_run, sina_document_run.
    destruct (sina_entry item) as [content|].
    + rewrite ret_run.
      destruct (IH (acc ++ [sina_doc env (ticks w) content])%list (advance 2 w))
        as (w' & Hrun & Hi & Ht).
      exists w'. rewrite Hrun. rewrite <- app_assoc. auto.
    + unfold logger at 1. rewrite bind_run. simpl.
      match goal with |- context [for_each items _ acc env ?w1] =>
        destruct (IH acc w1) as (w' & Hrun & Hi & Ht) end.
      exists w'. rewrite Hrun. auto.
Qed.

Lemma newstock_document_run w row :
  newstock_document row env w =
  if (length (select row "td") <? 6)%nat then (Ok None, w)
  else (Ok (Some (newstock_doc env (ticks w) row)), advance 1 w).
Proof.
  unfold newstock_document, newstock_doc.
  destruct (length (select row "td") <? 6)%nat eqn:Hlen; [reflexivity|].
  apply Nat.ltb_ge in Hlen.
  destruct (select row "td") as [|c0 [|c1 [|c2 [|c3 [|c4 [|c5 cols]]]]]];
    simpl in Hlen; try lia.
  unfold item_at. cbn [lookup list_lookup].
  repeat (rewrite bind_run; first [rewrite ret_run | rewrite parse_float_run]).
  destruct cols as [|c6 cols]; reflexivity.
Qed.

Lemma newstock_loop_run rows : forall acc w,
  exists w',
    for_each rows (fun data_list row =>
      try_except
        (data ← newstock_document row;
         match data with
         | None => mret data_list
         | Some data => mret (data_list ++ [data])%list
         end)
        (fun e => logger WARNING ("解析新股数据失败: " ++ exn_str e);; mret data_list))
      acc env w = (Ok (acc ++ newstock_docs env (ticks w) rows)%list, w') /\
    indices w' = indices w /\ trace w' = trace w.
Proof.
  induction rows as [|row rows IH]; intros acc w.
  - exists w. simpl. rewrite app_nil_r. auto.
  - cbn [for_each newstock_docs]. rewrite bind_run, try_run, bind_run, newstock_document_run.
    destruct (length (select row "td") <? 6)%nat.
    + rewrite ret_run. destruct (IH acc w) as (w' & Hrun & Hi & Ht).
      exists w'. rewrite Hrun. auto.
    + rewrite ret_run.
      destruct (IH (acc ++ [newstock_doc env (ticks w) row])%list (advance 1 w))
        as (w' & Hrun & Hi & Ht).
      exists w'. rewrite Hrun, <- app_assoc. auto.
Qed.

Lemma industry_document_run w industry article :
  industry_document industry article env w =
  (Ok (industry_doc env (ticks w) industry article), advance 2 w).
Proof. reflexivity. Qed.

Lemma industry_loop_run industry articles : forall acc w,
  exists w',
    for_each articles (fun data_list article =>
      try_except
        (data ← industry_document industry article;
         mret (data_list ++ [data])%list)
        (fun e => logger WARNING ("解析产业板块数据失败: " ++ exn_str e);; mret data_list))
      acc env w = (Ok (acc ++ industry_docs env (ticks w) industry articles)%list, w') /\
    indices w' = indices w /\ trace w' = trace w.
Proof.
  induction articles as [|article articles IH]; intros acc w.
  - exists w. simpl. rewrite app_nil_r. auto.
  - cbn [for_each industry_docs].
    rewrite bind_run, try_run, bind_run, industry_document_run, ret_run.
    destruct (IH (acc ++ [industry_doc env (ticks w) industry article])%list (advance 2 w))
      as (w' & Hrun & Hi & Ht).
    exists w'. rewrite Hrun, <- app_assoc. auto.
Qed.

(** ** The three crawls *)

(** The tail shared by the three crawls: write the batch unless it is
    empty, log, return the list. *)
Lemma crawl_finish w index (docs : list dict) msg :
  exists w',
    (match docs with
     | [] => mret ()
     | _ :: _ => bulk_insert index docs;; mret ()
     end;; logger INFO msg;; mret docs) env w = (Ok docs, w') /\
    indices w' = indices w /\
    trace w' = (trace w ++ match docs with
                           | [] => []
                           | _ :: _ => [EsBulk index (bulk_actions index docs)]
                           end)%list.
Proof.
  destruct (bulk_insert_run w index docs) as (r & w2 & Hb & Hi2 & _ & Ht2).
  destruct docs as [|d docs'].
  - eexists. split; [reflexivity|]. simpl. rewrite app_nil_r. auto.
  - rewrite bind_run, bind_run, Hb, ret_run.
    eexists. split; [reflexivity|]. simpl. auto.
Qed.

Ltac crawl_by loop_run index :=
  unfold crawl_outcome;
  rewrite bind_run; unfold logger at 1; cbv iota beta;
  rewrite try_run, bind_run; unfold get_soup at 1;
  match goal with
  | |- context [fetch_page env ?url] =>
      destruct (fetch_page env url) as [soup|e];
      [| eexists _, _; split; [reflexivity | auto] ]
  end;
  cbn [indices trace logs ticks]; rewrite bind_run;
  match goal with
  | |- context [for_each ?items ?body [] env ?w0] =>
      let w1 := fresh "w1" in
      let Hloop := fresh "Hloop" in
      let Hi := fresh "Hi" in
      let Ht := fresh "Ht" in
      destruct (loop_run items [] w0) as (w1 & Hloop & Hi & Ht);
      rewrite Hloop; cbn [app ticks indices trace] in *;
      match goal with
      | |- context [(?tail env w1)] =>
          match tail with
          | (_ ;; logger INFO ?msg ;; mret ?docs) =>
              let w3 := fresh "w3" in
              let Hrun := fresh "Hrun" in
              let Hi3 := fresh "Hi3" in
              let Ht3 := fresh "Ht3" in
              destruct (crawl_finish w1 index docs msg) as (w3 & Hrun & Hi3 & Ht3);
              rewrite Hrun; eexists _, _; split; [reflexivity|];
              rewrite Hi3, Hi, Ht3, Ht; unfold crawl_trace;
              rewrite <- app_assoc; auto
          end
      end
  end.

Lemma crawl_sina_live_outcome w :
  crawl_outcome crawl_sina_live sina_url "sina_live_data"
    (fun env t soup => sina_docs env t (take 20 (select soup ".bd_i"))) env w.
Proof. unfold crawl_sina_live. crawl_by sina_loop_run "sina_live_data". Qed.

Lemma crawl_eastmoney_newstock_outcome w :
  crawl_outcome crawl_eastmoney_newstock newstock_url "eastmoney_newstock_data"
    (fun env t soup => newstock_docs env t (take 10 (select soup "table tbody tr"))) env w.
Proof. unfold crawl_eastmoney_newstock. crawl_by newstock_loop_run "eastmoney_newstock_data". Qed.

Lemma crawl_eastmoney_industry_outcome w industry :
  crawl_outcome (crawl_eastmoney_industry industry) (industry_url industry)
    "eastmoney_industry_data"
    (fun env t soup => industry_docs env t industry (take 10 (select soup ".news-item")))
    env w.
Proof.
  unfold crawl_eastmoney_industry. crawl_by (industry_loop_run industry) "eastmoney_industry_data".
Qed.

End Crawls.

(** ** Crawls *)

Lemma sina_docs_skip env t before bad after :
  sina_entry bad = None ->
  sina_docs env t (before ++ bad :: after) = sina_docs env t (before ++ after).
Proof.
  intros Hbad. revert t. induction before as [|item before IH]; intros t; simpl.
  - by rewrite Hbad.
  - destruct (sina_entry item); by rewrite IH.
Qed.

Lemma newstock_docs_skip env t before bad after :
  length (select bad "td") < 6 ->
  newstock_docs env t (before ++ bad :: after) = newstock_docs env t (before ++ after).
Proof.
  intros Hbad. apply Nat.ltb_lt in Hbad.
  revert t. induction before as [|row before IH]; intros t; simpl.
  - by rewrite Hbad.
  - destruct (length (select row "td") <? 6)%nat; by rewrite IH.
Qed.

(** C5: each of the three crawls returns normally in every world; when the
    page fetch raises it returns the empty list after the fetch alone; when
    the fetch succeeds it returns the documents of the well-formed items of
    the page, written to the store in one batch, and in no batch at all
    when there are none; a malformed item (a feed entry lacking a
    sub-element, a listings row of fewer than six columns) leaves the
    documents of the items around it as they would be without it. *)
Theorem crawls_isolate_failures (env : Env) (w : World) :
  crawl_outcome crawl_sina_live sina_url "sina_live_data"
    (fun env t soup => sina_docs env t (take 20 (select soup ".bd_i"))) env w /\
  crawl_outcome crawl_eastmoney_newstock newstock_url "eastmoney_newstock_data"
    (fun env t soup => newstock_docs env t (take 10 (select soup "table tbody tr")))
    env w /\
  (forall industry,
     crawl_outcome (crawl_eastmoney_industry industry) (industry_url industry)
       "eastmoney_industry_data"
       (fun env t soup => industry_docs env t industry (take 10 (select soup ".news-item")))
       env w) /\
  (forall t before bad after,
     sina_entry bad = None ->
     sina_docs env t (before ++ bad :: after) = sina_docs env t (before ++ after)) /\
  (forall t before bad after,
     length (select bad "td") < 6 ->
     newstock_docs env t (before ++ bad :: after) = newstock_docs env t (before ++ after)).
Proof.
  split; [apply crawl_sina_live_outcome|].
  split; [apply crawl_eastmoney_newstock_outcome|].
  split; [intros industry; apply crawl_eastmoney_industry_outcome|].
  split; [intros; by apply sina_docs_skip | intros; by apply newstock_docs_skip].
Qed.

Lemma crawls_isolate_failures_witness :
  (exists w',
     crawl_sina_live feed_env empty_world =
       (Ok [ sina_doc feed_env 0 "利好消息：某公司重组获批";
             sina_doc feed_env 2 "大盘下跌" ], w') /\
     trace w' =
       [ HttpGet sina_url;
         EsBulk "sina_live_data"
           (bulk_actions "sina_live_data"
              [ sina_doc feed_env 0 "利好消息：某公司重组获批";
                sina_doc feed_env 2 "大盘下跌" ]) ]) /\
  (exists w',
     crawl_sina_live healthy_env empty_world = (Ok [], w') /\
     trace w' = [HttpGet sina_url]) /\
  (exists w',
     crawl_eastmoney_newstock network_down_env empty_world = (Ok [], w') /\
     trace w' = [HttpGet newstock_url]) /\
  sina_entry broken_entry = None /\
  sina_docs healthy_env 0
    ([feed_entry "利好消息：某公司重组获批" "09:30"] ++
     broken_entry :: [feed_entry "大盘下跌" "09:32"]) =
  sina_docs healthy_env 0
    ([feed_entry "利好消息：某公司重组获批" "09:30"] ++ [feed_entry "大盘下跌" "09:32"]).
Proof.
  split; [|split; [|split; [|split; [reflexivity|]]]].
  - destruct (crawls_isolate_failures feed_env empty_world) as (Hsina & _).
    destruct Hsina as (docs & w' & Hrun & _ & Hpage).
    change (fetch_page feed_env sina_url) with (Ok feed_page) in Hpage.
    destruct Hpage as [-> Htrace].
    exists w'. split; [exact Hrun | exact Htrace].
  - destruct (crawls_isolate_failures healthy_env empty_world) as (Hsina & _).
    destruct Hsina as (docs & w' & Hrun & _ & Hpage).
    change (fetch_page healthy_env sina_url) with (Ok blank_page) in Hpage.
    destruct Hpage as [-> Htrace].
    exists w'. split; [exact Hrun | exact Htrace].
  - destruct (crawls_isolate_failures network_down_env empty_world) as (_ & Hnew & _).
    destruct Hnew as (docs & w' & Hrun & _ & Hpage).
    change (fetch_page network_down_env newstock_url)
      with (@Raise element (RequestException "connection timed out")) in Hpage.
    destruct Hpage as [-> Htrace].
    exists w'. split; [exact Hrun | exact Htrace].
  - destruct (crawls_isolate_failures healthy_env empty_world) as (_ & _ & _ & Hskip & _).
    apply Hskip. reflexivity.
Defined.

(** ** Listings rows and the float reader *)

(** C7: the float reader never raises: it returns what [float] makes of the
    text with every comma and percent sign removed, and 0.0 when [float]
    rejects it.  A listings row of fewer than six columns gives no
    document; a row of six or more gives exactly one, whose price and PE
    fields are read by the float reader (hence 0.0 when not numeric); the
    crawl returns the documents of the first ten rows of the page so
    built. *)
Theorem listings_rows_and_float_parsing (env : Env) (w : World) :
  (forall value,
     _parse_float value env w =
     (Ok (match float_of_str env (strip_separators value) with
          | Some f => f
          | None => float_zero
          end), w)) /\
  (forall value,
     list_ascii_of_string (strip_separators value) =
     List.filter (fun a => negb (Ascii.eqb a ",") && negb (Ascii.eqb a "%"))
       (list_ascii_of_string value)) /\
  (forall row,
     length (select row "td") < 6 ->
     newstock_document row env w = (Ok None, w)) /\
  (forall row,
     6 <= length (select row "td") ->
     exists doc,
       newstock_document row env w = (Ok (Some doc), advance 1 w) /\
       dict_get "issue_price" doc VNone =
         VFloat (parsed_float env (text_at (select row "td") 2)) /\
       dict_get "pe_ratio" doc VNone =
         VFloat (parsed_float env (text_at (select row "td") 5)) /\
       (float_of_str env (strip_separators (text_at (select row "td") 2)) = None ->
        dict_get "issue_price" doc VNone = VFloat float_zero) /\
       (float_of_str env (strip_separators (text_at (select row "td") 5)) = None ->
        dict_get "pe_ratio" doc VNone = VFloat float_zero)) /\
  (forall soup,
     fetch_page env newstock_url = Ok soup ->
     fst (crawl_eastmoney_newstock env w) =
     Ok (newstock_docs env (ticks w) (take 10 (select soup "table tbody tr")))) /\
  (forall t row rest,
     newstock_docs env t (row :: rest) =
     if (length (select row "td") <? 6)%nat then newstock_docs env t rest
     else newstock_doc env t row :: newstock_docs env (S t) rest).
Proof.
  split; [intros value; apply parse_float_run|].
  split; [apply strip_separators_list|].
  split.
  { intros row Hlen. rewrite newstock_document_run.
    apply Nat.ltb_lt in Hlen. by rewrite Hlen. }
  split.
  { intros row Hlen. exists (newstock_doc env (ticks w) row).
    rewrite newstock_document_run. apply Nat.ltb_ge in Hlen. rewrite Hlen.
    split; [reflexivity|]. split; [reflexivity|]. split; [reflexivity|].
    unfold newstock_doc, parsed_float. simpl.
    split; intros ->; reflexivity. }
  split; [|reflexivity].
  intros soup Hfetch.
  destruct (crawl_eastmoney_newstock_outcome env w) as (docs & w' & Hrun & _ & Hm).
  rewrite Hfetch in Hm. destruct Hm as [-> _]. by rewrite Hrun.
Qed.

Lemma listings_rows_and_float_parsing_witness :
  length (select short_row "td") < 6 /\
  newstock_document short_row healthy_env empty_world = (Ok None, empty_world) /\
  6 <= length (select odd_price_row "td") /\
  exists doc,
    fst (newstock_document odd_price_row healthy_env empty_world) = Ok (Some doc) /\
    dict_get "issue_price" doc VNone = VFloat float_zero /\
    dict_get "pe_ratio" doc VNone = VFloat (FRat (2159 # 2)).
Proof.
  destruct (listings_rows_and_float_parsing healthy_env empty_world)
    as (_ & _ & Hshort & Hlong & _).
  split; [simpl; lia|]. split; [apply Hshort; simpl; lia|].
  split; [simpl; lia|].
  destruct (Hlong odd_price_row) as (doc & Hrun & Hprice & Hpe & Hbad & _);
    [simpl; lia|].
  exists doc. split; [by rewrite Hrun|]. split; [apply Hbad; reflexivity|].
  rewrite Hpe. reflexivity.
Defined.

(** ** The API handlers *)

(** C10: the health handler answers 200 with status "healthy" whatever the
    store says; the [elasticsearch] field alone follows the ping. *)
Theorem health_check_always_healthy (env : Env) (w : World) :
  fst (health_check env w) =
  Ok (jsonify
        [ ("status", VStr "healthy");
          ("timestamp", VStr (clock env (ticks w)));
          ("elasticsearch",
           VStr (if ping_reply env then "connected" else "disconnected")) ]
        200).
Proof. reflexivity. Qed.

Lemma tasks_lookup_known :
  tasks !! "pre_market" = Some generate_pre_market_strategy /\
  tasks !! "opening_news" = Some analyze_opening_news /\
  tasks !! "dragon_tiger" = Some analyze_dragon_tiger_list /\
  tasks !! "northbound" = Some analyze_northbound_capital /\
  tasks !! "closing" = Some analyze_closing_summary.
Proof.
  unfold tasks.
  repeat split;
    repeat (rewrite lookup_insert_ne by discriminate); apply lookup_insert_eq.
Qed.

Lemma tasks_lookup_unknown task_name :
  ~ In task_name task_names -> tasks !! task_name = None.
Proof.
  intros Hn. unfold tasks.
  repeat (rewrite lookup_insert_ne by (intros <-; apply Hn; simpl; tauto)).
  apply lookup_empty.
Qed.

(** C6: a task name outside the table is answered 400 with [success: false]
    and nothing is run; for a name in the table, the handler answers 500
    with [success: false] when the routine raises, and 200 with
    [success: true] and the routine's artifact as [data] when it returns;
    the table binds the five names to the five analysis routines. *)
Theorem execute_task_responses (env : Env) (w : World) (task_name : string) :
  (~ In task_name task_names ->
   execute_task task_name env w =
   (Ok (jsonify [ ("success", VBool false);
                  ("error", VStr ("未知任务: " ++ task_name)) ] 400), w)) /\
  (forall task : M dict, tasks !! task_name = Some task ->
     (forall e w', task env w = (Raise e, w') ->
        exists w'', execute_task task_name env w =
          (Ok (jsonify [ ("success", VBool false);
                         ("error", VStr (exn_str e)) ] 500), w'')) /\
     (forall result w', task env w = (Ok result, w') ->
        execute_task task_name env w =
          (Ok (jsonify [ ("success", VBool true); ("data", VDict result) ] 200), w'))) /\
  (In task_name task_names <-> is_Some (tasks !! task_name)) /\
  tasks !! "pre_market" = Some generate_pre_market_strategy /\
  tasks !! "opening_news" = Some analyze_opening_news /\
  tasks !! "dragon_tiger" = Some analyze_dragon_tiger_list /\
  tasks !! "northbound" = Some analyze_northbound_capital /\
  tasks !! "closing" = Some analyze_closing_summary.
Proof.
  split.
  { intros Hn. unfold execute_task.
    by rewrite (tasks_lookup_unknown task_name Hn). }
  split.
  { intros task Htask. unfold execute_task. rewrite Htask.
    split.
    - intros e w' Hrun. rewrite try_run, bind_run, Hrun.
      eexists. reflexivity.
    - intros result w' Hrun. by rewrite try_run, bind_run, Hrun. }
  split; [|exact tasks_lookup_known].
  split.
  - destruct tasks_lookup_known as (H1 & H2 & H3 & H4 & H5).
    simpl. intros [<-|[<-|[<-|[<-|[<-|[]]]]]]; eauto.
  - intros Hs. destruct (In_dec string_dec task_name task_names) as [Hin|Hn];
      [assumption|].
    rewrite (tasks_lookup_unknown task_name Hn) in Hs. by destruct Hs.
Qed.

Lemma execute_task_responses_witness :
  (exists w', execute_task "no_such_task" healthy_env empty_world =
     (Ok (jsonify [ ("success", VBool false);
                    ("error", VStr "未知任务: no_such_task") ] 400), w')) /\
  (exists w', execute_task "pre_market" odd_hit_env empty_world =
     (Ok (jsonify [ ("success", VBool false);
                    ("error", VStr "argument of type 'int' is not iterable") ] 500), w')) /\
  (exists result w', execute_task "dragon_tiger" healthy_env empty_world =
     (Ok (jsonify [ ("success", VBool true); ("data", VDict result) ] 200), w') /\
     dict_get "analysis_type" result VNone = VStr "dragon_tiger_list").
Proof.
  split; [|split].
  - exists empty_world.
    apply (execute_task_responses healthy_env empty_world "no_such_task").
    simpl. intuition discriminate.
  - destruct (execute_task_responses odd_hit_env empty_world "pre_market")
      as (_ & Hknown & _ & Hpre & _).
    destruct (Hknown _ Hpre) as [Hraise _].
    assert (exists w', generate_pre_market_strategy odd_hit_env empty_world =
              (Raise (TypeError "argument of type 'int' is not iterable"), w'))
      as [w' Hrun] by (eexists; vm_compute; reflexivity).
    destruct (Hraise _ _ Hrun) as [w'' Hresp]. exists w''. exact Hresp.
  - destruct (execute_task_responses healthy_env empty_world "dragon_tiger")
      as (_ & Hknown & _ & _ & _ & Hdt & _).
    destruct (Hknown _ Hdt) as [_ Hok].
    assert (exists result w',
              analyze_dragon_tiger_list healthy_env empty_world = (Ok result, w') /\
              dict_get "analysis_type" result VNone = VStr "dragon_tiger_list")
      as (result & w' & Hrun & Htype)
      by (eexists _, _; split; [vm_compute; reflexivity | reflexivity]).
    exists result, w'. split; [exact (Hok _ _ Hrun) | exact Htype].
Defined.

(** ** The job registry *)

Lemma scheduled_job_ids_NoDup : List.NoDup (List.map job_id scheduled_jobs).
Proof.
  unfold scheduled_jobs; simpl.
  repeat (constructor; [simpl; intuition discriminate|]). constructor.
Qed.

(** With [replace_existing=True], which the source never passes, a running
    scheduler does replace the binding and keeps the number of jobs. *)
Lemma add_job_replace_existing (s : scheduler) (j old : job) :
  running s = true -> jobstore s !! job_id j = Some old ->
  exists s', add_job j true s = Ok s' /\
             jobstore s' !! job_id j = Some j /\
             size (jobstore s') = size (jobstore s).
Proof.
  intros Hrun Hold. unfold add_job, real_add_job. rewrite Hrun, Hold.
  eexists. split; [reflexivity|]. simpl. split; [apply lookup_insert_eq|].
  rewrite <- (insert_delete_id (jobstore s) (job_id j) old Hold) at 2.
  rewrite <- (insert_delete_eq (jobstore s)) at 1.
  rewrite !map_size_insert_None by apply lookup_delete_eq. reflexivity.
Qed.

(** C9 (as the code has it): the six jobs registered at startup have
    pairwise distinct ids, and once the scheduler runs the registry holds
    exactly these six, each under its id.  Jobs are registered without the
    replace option: registering a job under an id that the running registry
    already holds raises a conflicting-id error, so the registry, the prior
    binding and the cardinality stay as they were. *)
Theorem registry_ids_unique_without_replacement :
  List.NoDup (List.map job_id scheduled_jobs) /\
  (exists s0 s,
     _setup_scheduled_tasks new_scheduler = Ok s0 /\ start s0 = Ok s /\
     running s = true /\ pending s = [] /\ size (jobstore s) = 6 /\
     forall j, In j scheduled_jobs -> jobstore s !! job_id j = Some j) /\
  (forall (s : scheduler) (j old : job),
     running s = true -> jobstore s !! job_id j = Some old ->
     add_job j false s = Raise (ConflictingIdError (job_id j))).
Proof.
  split; [exact scheduled_job_ids_NoDup|]. split.
  - eexists _, _. split; [reflexivity|]. split; [vm_compute; reflexivity|].
    split; [reflexivity|]. split; [reflexivity|]. split; [vm_compute; reflexivity|].
    intros j Hin. simpl in Hin.
    destruct Hin as [<-|[<-|[<-|[<-|[<-|[<-|[]]]]]]]; vm_compute; reflexivity.
  - intros s j old Hrun Hold. unfold add_job, real_add_job. by rewrite Hrun, Hold.
Qed.

Lemma registry_ids_unique_without_replacement_witness :
  exists s,
    started = Ok s /\ running s = true /\
    jobstore s !! job_id duplicate_job = Some opening_news_job /\
    add_job duplicate_job false s = Raise (ConflictingIdError "opening_news").
Proof.
  destruct registry_ids_unique_without_replacement as (_ & _ & Hreject).
  assert (exists s, started = Ok s /\ running s = true /\
                    jobstore s !! job_id duplicate_job = Some opening_news_job)
    as (s & Hs & Hrun & Hold)
    by (eexists; split; [vm_compute; reflexivity | split; vm_compute; reflexivity]).
  exists s. split; [exact Hs|]. split; [exact Hrun|]. split; [exact Hold|].
  exact (Hreject s duplicate_job opening_news_job Hrun Hold).
Defined.

(** C9 (as stated) fails.  Once the scheduler runs, registering a job under
    the id of the opening-news job is refused and the old binding stays;
    before it runs, the same registration is queued next to the first one,
    which makes seven jobs, two of them with that id, and the scheduler then
    refuses to start. *)
Lemma reregistration_does_not_replace :
  (exists s,
     started = Ok s /\
     jobstore s !! "opening_news" = Some opening_news_job /\
     add_job duplicate_job false s = Raise (ConflictingIdError "opening_news") /\
     ~ exists s', add_job duplicate_job false s = Ok s' /\
                  jobstore s' !! "opening_news" = Some duplicate_job) /\
  (exists s s',
     configured = Ok s /\ job_count s = 6 /\
     add_job duplicate_job false s = Ok s' /\
     job_count s' = 7 /\
     jobs_with_id "opening_news" s' = [opening_news_job; duplicate_job] /\
     start s' = Raise (ConflictingIdError "opening_news")).
Proof.
  split.
  - eexists. split; [vm_compute; reflexivity|].
    split; [vm_compute; reflexivity|].
    split; [vm_compute; reflexivity|].
    intros (s' & Hadd & _). vm_compute in Hadd. discriminate Hadd.
  - eexists _, _. split; [reflexivity|].
    repeat (split; [vm_compute; reflexivity|]). vm_compute. reflexivity.
Qed.

(** ** Binary64 rounding *)

Lemma round_half_even_cases (num : Z) (den : positive) :
  let q := (num / Z.pos den)%Z in
  let r := (num mod Z.pos den)%Z in
  (round_half_even num den = q /\ (2 * r <= Z.pos den)%Z) \/
  (round_half_even num den = (q + 1)%Z /\ (Z.pos den <= 2 * r)%Z).
Proof.
  cbv zeta. unfold round_half_even.
  destruct (Z.compare_spec (2 * (num mod Z.pos den)) (Z.pos den)) as [H|H|H].
  - destruct (Z.even (num / Z.pos den)); [left | right]; split; lia.
  - left. split; lia.
  - right. split; lia.
Qed.

Lemma round_half_even_nearest (num : Z) (den : positive) :
  (2 * Z.abs (num - round_half_even num den * Z.pos den) <= Z.pos den)%Z.
Proof.
  pose proof (Z.div_mod num (Z.pos den) ltac:(lia)) as Hdm.
  pose proof (Z.mod_pos_bound num (Z.pos den) ltac:(lia)) as Hr.
  destruct (round_half_even_cases num den) as [[-> H]|[-> H]]; nia.
Qed.

Lemma round_half_even_bounds (num : Z) (den : positive) (lo hi : Z) :
  (lo * Z.pos den <= num <= hi * Z.pos den)%Z ->
  (lo <= round_half_even num den <= hi)%Z.
Proof.
  intros [Hlo Hhi].
  pose proof (Z.div_mod num (Z.pos den) ltac:(lia)) as Hdm.
  pose proof (Z.mod_pos_bound num (Z.pos den) ltac:(lia)) as Hr.
  destruct (round_half_even_cases num den) as [[-> H]|[-> H]]; nia.
Qed.

Lemma round_half_even_exact (k : Z) (den : positive) :
  round_half_even (k * Z.pos den) den = k.
Proof.
  unfold round_half_even.
  rewrite Z.div_mul, Z.mod_mul by lia. reflexivity.
Qed.

Lemma pow2_nonneg (z : Z) : (0 <= z)%Z -> pow2 z = (2 ^ z)%Z.
Proof. intros H. unfold pow2. by rewrite Z.max_r. Qed.

Lemma pow2_nonpos (z : Z) : (z <= 0)%Z -> pow2 z = 1%Z.
Proof. intros H. unfold pow2. by rewrite Z.max_l. Qed.

Lemma floor_log2_le (a b : positive) :
  (floor_log2 a b <= Z.log2 (Z.pos a) - Z.log2 (Z.pos b))%Z.
Proof. unfold floor_log2. destruct (_ <=? _)%Z; lia. Qed.

(** With a shift [s >= 0] the rounding is that of [a * 2^s / b] to an
    integer. *)
Lemma binary64_pos_shift (a b : positive) :
  let s := (52 - floor_log2 a b)%Z in
  (0 <= s)%Z ->
  binary64_pos a b =
  Qred (round_half_even (Z.pos a * 2 ^ s) b # Z.to_pos (2 ^ s)).
Proof.
  cbv zeta. intros Hs. unfold binary64_pos.
  rewrite (pow2_nonpos (- _)) by lia. rewrite pow2_nonneg by lia.
  rewrite Z.mul_1_r. change (Z.to_pos 1) with 1%positive.
  by rewrite Pos.mul_1_r.
Qed.

(** [floor_log2 a b] is the exponent [e] with [2^e <= a/b < 2^(e+1)]. *)
Lemma floor_log2_spec (a b : positive) :
  let e := floor_log2 a b in
  (Z.pos b * pow2 e <= Z.pos a * pow2 (- e) < 2 * (Z.pos b * pow2 e))%Z.
Proof.
  cbv zeta. unfold floor_log2.
  destruct (Z.log2_spec (Z.pos a) ltac:(lia)) as [Ha1 Ha2].
  destruct (Z.log2_spec (Z.pos b) ltac:(lia)) as [Hb1 Hb2].
  pose proof (Z.log2_nonneg (Z.pos a)) as Hla.
  pose proof (Z.log2_nonneg (Z.pos b)) as Hlb.
  set (la := Z.log2 (Z.pos a)) in *. set (lb := Z.log2 (Z.pos b)) in *.
  rewrite Z.pow_succ_r in Ha2, Hb2 by lia.
  assert (0 < 2 ^ la)%Z as Hpa by (apply Z.pow_pos_nonneg; lia).
  assert (0 < 2 ^ lb)%Z as Hpb by (apply Z.pow_pos_nonneg; lia).
  destruct (Z.leb_spec (Z.pos b * pow2 (la - lb)) (Z.pos a * pow2 (- (la - lb))))
    as [Htest|Htest].
  - split; [exact Htest|].
    destruct (Z.le_gt_cases 0 (la - lb)) as [Hd|Hd].
    + rewrite (pow2_nonpos (- (la - lb))), (pow2_nonneg (la - lb)) by lia.
      assert (2 ^ la = 2 ^ (la - lb) * 2 ^ lb)%Z as Hsplit
        by (rewrite <- Z.pow_add_r by lia; f_equal; lia).
      assert (0 < 2 ^ (la - lb))%Z by (apply Z.pow_pos_nonneg; lia). nia.
    + rewrite (pow2_nonneg (- (la - lb))), (pow2_nonpos (la - lb)) by lia.
      assert (2 ^ lb = 2 ^ (- (la - lb)) * 2 ^ la)%Z as Hsplit
        by (rewrite <- Z.pow_add_r by lia; f_equal; lia).
      assert (0 < 2 ^ (- (la - lb)))%Z by (apply Z.pow_pos_nonneg; lia). nia.
  - destruct (Z.le_gt_cases 1 (la - lb)) as [Hd|Hd].
    + rewrite (pow2_nonneg (la - lb)), (pow2_nonpos (- (la - lb))) in Htest by lia.
      rewrite (pow2_nonneg (la - lb - 1)), (pow2_nonpos (- (la - lb - 1))) by lia.
      assert (2 ^ (la - lb) = 2 * 2 ^ (la - lb - 1))%Z as Hhalf
        by (rewrite <- Z.pow_succ_r by lia; f_equal; lia).
      assert (2 ^ la = 2 ^ (la - lb) * 2 ^ lb)%Z as Hsplit
        by (rewrite <- Z.pow_add_r by lia; f_equal; lia).
      assert (0 < 2 ^ (la - lb - 1))%Z by (apply Z.pow_pos_nonneg; lia). nia.
    + rewrite (pow2_nonpos (la - lb)), (pow2_nonneg (- (la - lb))) in Htest by lia.
      rewrite (pow2_nonpos (la - lb - 1)), (pow2_nonneg (- (la - lb - 1))) by lia.
      assert (2 ^ (- (la - lb - 1)) = 2 * 2 ^ (- (la - lb)))%Z as Hhalf
        by (rewrite <- Z.pow_succ_r by lia; f_equal; lia).
      assert (2 ^ lb = 2 ^ (- (la - lb)) * 2 ^ la)%Z as Hsplit
        by (rewrite <- Z.pow_add_r by lia; f_equal; lia).
      assert (0 < 2 ^ (- (la - lb)))%Z by (apply Z.pow_pos_nonneg; lia). nia.
Qed.

(** Below [2^53] the result is [m / 2^s] for a significand
    [2^52 <= m <= 2^53] that is the integer nearest to [a * 2^s / b]. *)
Lemma binary64_pos_significand (a b : positive) :
  let s := (52 - floor_log2 a b)%Z in
  let m := round_half_even (Z.pos a * 2 ^ s) b in
  (0 <= s)%Z ->
  binary64_pos a b = Qred (m # Z.to_pos (2 ^ s)) /\
  (2 ^ 52 <= m <= 2 ^ 53)%Z /\
  (2 * Z.abs (Z.pos a * 2 ^ s - m * Z.pos b) <= Z.pos b)%Z.
Proof.
  cbv zeta. intros Hs.
  split; [by apply binary64_pos_shift|].
  split; [|apply round_half_even_nearest].
  pose proof (floor_log2_spec a b) as He. cbv zeta in He.
  set (e := floor_log2 a b) in *.
  apply round_half_even_bounds.
  destruct (Z.le_gt_cases 0 e) as [He0|He0].
  - rewrite (pow2_nonneg e), (pow2_nonpos (- e)) in He by lia.
    assert (2 ^ 52 = 2 ^ (52 - e) * 2 ^ e)%Z as Hsplit
      by (rewrite <- Z.pow_add_r by lia; f_equal; lia).
    assert (0 < 2 ^ (52 - e))%Z by (apply Z.pow_pos_nonneg; lia).
    change (2 ^ 53)%Z with (2 * 2 ^ 52)%Z. rewrite Hsplit. nia.
  - rewrite (pow2_nonpos e), (pow2_nonneg (- e)) in He by lia.
    assert (2 ^ (52 - e) = 2 ^ 52 * 2 ^ (- e))%Z as Hsplit
      by (rewrite <- Z.pow_add_r by lia; f_equal; lia).
    change (2 ^ 53)%Z with (2 * 2 ^ 52)%Z. rewrite Hsplit.
    assert (0 < 2 ^ 52)%Z by lia. generalize dependent (2 ^ 52)%Z. intros. nia.
Qed.

(** A quotient of at most one is rounded into [0, 1], with an error of at
    most [2^-53]. *)
Lemma binary64_pos_unit (a b : positive) :
  (a <= b)%positive ->
  (0 <= binary64_pos a b <= 1)%Q /\
  ((Z.pos a # b) - (1 # 2 ^ 53) <= binary64_pos a b <= (Z.pos a # b) + (1 # 2 ^ 53))%Q.
Proof.
  intros Hab.
  assert (0 <= 52 - floor_log2 a b - 52)%Z as Hs.
  { pose proof (floor_log2_le a b).
    pose proof (Z.log2_le_mono (Z.pos a) (Z.pos b) ltac:(lia)). lia. }
  rewrite binary64_pos_shift by lia.
  set (s := (52 - floor_log2 a b)%Z) in *.
  assert (2 ^ 52 <= 2 ^ s)%Z as Hpow by (apply Z.pow_le_mono_r; lia).
  pose proof (round_half_even_bounds (Z.pos a * 2 ^ s) b 0 (2 ^ s) ltac:(nia)) as Hm.
  pose proof (round_half_even_nearest (Z.pos a * 2 ^ s) b) as Hnear.
  set (m := round_half_even (Z.pos a * 2 ^ s) b) in *.
  rewrite !Qred_correct.
  unfold Qle, Qminus, Qplus, Qopp; cbn [Qnum Qden].
  rewrite !Pos2Z.inj_mul, !Z2Pos.id by lia.
  change (Z.pos (2 ^ 53)) with (2 * 2 ^ 52)%Z.
  assert (0 < 2 ^ 52)%Z as Hpos by lia.
  generalize dependent (2 ^ 52)%Z. intros T HT Hpos.
  clearbody m. generalize dependent (2 ^ s)%Z. intros S HS HmS Hnear.
  destruct (Z.abs_spec (Z.pos a * S - m * Z.pos b)) as [[? ?]|[? ?]];
    repeat split; nia.
Qed.

(** A number with at most 53 significant bits is left as it is. *)
Lemma binary64_pos_exact (a b : positive) (j : Z) :
  (0 <= j)%Z -> Z.pos b = (2 ^ j)%Z -> (Z.pos a < 2 ^ 53)%Z ->
  binary64_pos a b = Qred (Z.pos a # b).
Proof.
  intros Hj Hb Ha.
  assert (Z.log2 (Z.pos b) = j) as Hlb by (rewrite Hb; by apply Z.log2_pow2).
  assert (Z.log2 (Z.pos a) < 53)%Z as Hla by (apply Z.log2_lt_pow2; lia).
  pose proof (floor_log2_le a b) as He. rewrite Hlb in He.
  rewrite binary64_pos_shift by lia.
  set (s := (52 - floor_log2 a b)%Z) in *.
  assert (2 ^ s = 2 ^ (s - j) * Z.pos b)%Z as Hsplit.
  { rewrite Hb, <- Z.pow_add_r by lia. f_equal. lia. }
  replace (Z.pos a * 2 ^ s)%Z with (Z.pos a * 2 ^ (s - j) * Z.pos b)%Z
    by (rewrite Hsplit; ring).
  rewrite round_half_even_exact.
  apply Qred_complete. unfold Qeq; cbn [Qnum Qden].
  rewrite Z2Pos.id by (apply Z.pow_pos_nonneg; lia).
  rewrite Hsplit. ring.
Qed.

Lemma binary64_exact (q : Q) (a b : positive) (j : Z) :
  Qred q = (Z.pos a # b) ->
  (0 <= j)%Z -> Z.pos b = (2 ^ j)%Z -> (Z.pos a < 2 ^ 53)%Z ->
  binary64 q = Qred q.
Proof.
  intros Hq Hj Hb Ha. unfold binary64. rewrite Hq. cbn [Qnum Qden].
  rewrite (binary64_pos_exact a b j Hj Hb Ha), <- Hq.
  apply Qred_complete, Qred_correct.
Qed.

Lemma binary64_zero (q : Q) : (q == 0)%Q -> binary64 q = 0%Q.
Proof.
  intros Hq. unfold binary64.
  rewrite (Qred_complete q 0 Hq). reflexivity.
Qed.

(** The quotient of two counts [c <= n]: a float in [0, 1] within
    [2^-53] of [c / n]. *)
Lemma true_div_unit (c n : nat) :
  c <= n -> 0 < n ->
  (0 <= true_div c n <= 1)%Q /\
  ((Z.of_nat c # Pos.of_nat n) - (1 # 2 ^ 53) <= true_div c n
   <= (Z.of_nat c # Pos.of_nat n) + (1 # 2 ^ 53))%Q.
Proof.
  intros Hcn Hn. unfold true_div, binary64.
  set (q := Z.of_nat c # Pos.of_nat n).
  pose proof (Qred_correct q) as Hred.
  destruct (Qred q) as [num den] eqn:E. cbn [Qnum Qden].
  unfold Qeq in Hred; cbn [Qnum Qden] in Hred. subst q. cbn [Qnum Qden] in Hred.
  assert (Z.pos (Pos.of_nat n) = Z.of_nat n) as Hpn
    by (rewrite <- positive_nat_Z, Nat2Pos.id by lia; reflexivity).
  rewrite Hpn in Hred.
  destruct num as [|a|a]; [| |lia].
  - assert (c = 0) as -> by nia.
    split; [split; discriminate|].
    unfold Qle, Qminus, Qplus, Qopp; cbn [Qnum Qden]. split; lia.
  - destruct (binary64_pos_unit a den) as [Hunit Hnear]; [nia|].
    split; [exact Hunit|].
    assert ((Z.of_nat c # Pos.of_nat n) == (Z.pos a # den))%Q as ->
      by (unfold Qeq; cbn [Qnum Qden]; rewrite Hpn; lia).
    exact Hnear.
Qed.

Lemma round2_hundredths_unit (x : Q) :
  (0 <= x <= 1)%Q ->
  (0 <= round2_hundredths x <= 100)%Z /\
  (inject_Z (round2_hundredths x) - (1 # 2) <= 100 * x
   <= inject_Z (round2_hundredths x) + (1 # 2))%Q.
Proof.
  intros [H0 H1]. unfold round2_hundredths.
  pose proof (Qred_correct (100 * x)) as Hred.
  destruct (Qred (100 * x)) as [num den] eqn:E. cbn [Qnum Qden].
  assert (0 <= num # den <= 100)%Q as [Hlo Hhi].
  { rewrite Hred. destruct x as [xn xd].
    unfold Qle, Qmult in *; cbn [Qnum Qden] in *. lia. }
  unfold Qle in Hlo, Hhi; cbn [Qnum Qden] in Hlo, Hhi.
  split; [apply round_half_even_bounds; lia|].
  rewrite <- Hred.
  pose proof (round_half_even_nearest num den) as Hnear.
  set (h := round_half_even num den) in *.
  unfold Qle, Qminus, Qplus, Qopp, inject_Z; cbn [Qnum Qden].
  destruct (Z.abs_spec (num - h * Z.pos den)) as [[? ?]|[? ?]]; split; lia.
Qed.

Lemma Qred_coprime (num : Z) (den : positive) :
  Z.gcd num (Z.pos den) = 1%Z -> Qred (num # den) = (num # den).
Proof.
  intros Hg. unfold Qred.
  pose proof (Z.ggcd_gcd num (Z.pos den)) as Hgcd.
  pose proof (Z.ggcd_correct_divisors num (Z.pos den)) as Hdiv.
  destruct (Z.ggcd num (Z.pos den)) as [g [aa bb]].
  cbn [fst snd] in *. rewrite Hg in Hgcd. subst g.
  destruct Hdiv as [Hn Hd]. rewrite Z.mul_1_l in Hn, Hd. subst aa bb.
  reflexivity.
Qed.

(** [n * 1.5] is exact for every count below [2^51]. *)
Lemma times_1_5_exact (n : nat) :
  (Z.of_nat n < 2 ^ 51)%Z ->
  (times_1_5 n == (3 # 2) * inject_Z (Z.of_nat n))%Q.
Proof.
  intros Hn. unfold times_1_5.
  destruct (Z.of_nat n) as [|p|p] eqn:E; [reflexivity| |lia].
  assert (binary64 (inject_Z (Z.pos p)) = inject_Z (Z.pos p)) as ->.
  { assert (Qred (inject_Z (Z.pos p)) = inject_Z (Z.pos p)) as Hred
      by (apply Qred_coprime, Z.gcd_1_r).
    rewrite (binary64_exact _ p 1 0); [exact Hred | exact Hred | lia | reflexivity | lia]. }
  set (q := (inject_Z (Z.pos p) * (3 # 2))%Q).
  assert (exists a b j, Qred q = (Z.pos a # b) /\ (0 <= j)%Z /\
                        Z.pos b = (2 ^ j)%Z /\ (Z.pos a < 2 ^ 53)%Z)
    as (a & b & j & Hq & Hj & Hb & Ha).
  { destruct (Z.even (Z.pos p)) eqn:Hev.
    - apply Z.even_spec in Hev. destruct Hev as [k Hk].
      destruct k as [|k|k]; try lia.
      exists (k * 3)%positive, 1%positive, 0%Z.
      split; [|split; [lia | split; [reflexivity | lia]]].
      rewrite (Qred_complete q (Z.pos (k * 3) # 1)).
      + apply Qred_coprime, Z.gcd_1_r.
      + unfold q, Qeq, Qmult, inject_Z; cbn [Qnum Qden]. lia.
    - exists (p * 3)%positive, 2%positive, 1%Z.
      split; [|split; [lia | split; [reflexivity | lia]]].
      unfold q, Qmult, inject_Z; cbn [Qnum Qden].
      change (1 * 2)%positive with 2%positive.
      change (Z.pos p * 3)%Z with (Z.pos (p * 3)).
      apply Qred_coprime.
      rewrite <- Z.negb_odd in Hev. apply negb_false_iff, Z.odd_spec in Hev.
      destruct Hev as [k Hk].
      pose proof (Z.gcd_nonneg (Z.pos (p * 3)) 2) as Hg0.
      destruct (Z.gcd_divide_l (Z.pos (p * 3)) 2) as [u Hu].
      destruct (Z.gcd_divide_r (Z.pos (p * 3)) 2) as [v Hv].
      assert (Z.gcd (Z.pos (p * 3)) 2 <= 2)%Z as Hg2
        by (apply Z.divide_pos_le; [lia | apply Z.gcd_divide_r]).
      set (g := Z.gcd (Z.pos (p * 3)) 2) in *.
      assert (g <> 0)%Z as Hg1 by (intros H0; rewrite H0 in Hv; lia).
      rewrite Pos2Z.inj_mul in Hu.
      assert (g = 1 \/ g = 2)%Z as [Hg|Hg] by lia; [exact Hg | lia]. }
  rewrite (binary64_exact q a b j Hq Hj Hb Ha), Qred_correct.
  unfold q. apply Qmult_comm.
Qed.

Lemma int_gt_float_iff (n : nat) (x : Q) :
  int_gt_float n x = true <-> (x < inject_Z (Z.of_nat n))%Q.
Proof.
  unfold int_gt_float. rewrite negb_true_iff, <- not_true_iff_false, Qle_bool_iff.
  split; [apply Qnot_le_lt | apply Qlt_not_le].
Qed.

(** Known binary64 values: 0.1, 1/3, and three roundings to two decimals
    that depend on the binary expansion. *)
Example binary64_one_tenth :
  binary64 (1 # 10) = (3602879701896397 # 36028797018963968)%Q.
Proof. vm_compute. reflexivity. Qed.

Example binary64_one_third :
  binary64 (1 # 3) = (6004799503160661 # 18014398509481984)%Q.
Proof. vm_compute. reflexivity. Qed.

Example round2_ties :
  py_round2 (true_div 1 200) = FRat (1 # 100) /\
  py_round2 (true_div 3 200) = FRat (1 # 100) /\
  py_round2 (true_div 1 8) = FRat (3 # 25) /\
  py_round2 (true_div 3 8) = FRat (19 # 50).
Proof. repeat split; vm_compute; reflexivity. Qed.

(** ** Counting the items that mention a keyword *)

Lemma any_keyword_in_text (keywords : list string) (s : string) :
  any_keyword_in keywords (VStr s) = Ok (existsb (fun kw => str_in kw s) keywords).
Proof.
  induction keywords as [|kw keywords IH]; [reflexivity|].
  cbn [any_keyword_in contains existsb].
  destruct (str_in kw s); [reflexivity | exact IH].
Qed.

Lemma count_matching_news (keywords : list string) (data : list dict) :
  Forall news_item data ->
  count_matching keywords data = Ok (matching keywords data).
Proof.
  unfold matching. induction 1 as [|item data [s Hs] _ IH]; [reflexivity|].
  cbn [count_matching List.filter]. unfold mentions at 1, content_text.
  rewrite Hs, any_keyword_in_text, IH.
  destruct (existsb _ keywords); reflexivity.
Qed.

Lemma matching_le (keywords : list string) (data : list dict) :
  matching keywords data <= length data.
Proof. unfold matching. apply List.filter_length_le. Qed.

(** ** The pre-market sentiment label *)

Lemma int_gt_times_1_5 (p n : nat) :
  (Z.of_nat n < 2 ^ 51)%Z ->
  int_gt_float p (times_1_5 n) = true <->
  (one_and_a_half n < inject_Z (Z.of_nat p))%Q.
Proof.
  intros Hn. rewrite int_gt_float_iff. unfold one_and_a_half.
  apply Qlt_compat; [by apply times_1_5_exact | reflexivity].
Qed.

Lemma sentiment_label_spec (p n : nat) :
  (Z.of_nat p < 2 ^ 51)%Z -> (Z.of_nat n < 2 ^ 51)%Z ->
  (sentiment_label p n = bullish <-> (one_and_a_half n < inject_Z (Z.of_nat p))%Q) /\
  (sentiment_label p n = bearish <-> (one_and_a_half p < inject_Z (Z.of_nat n))%Q) /\
  (sentiment_label p n = neutral <->
     ~ (one_and_a_half n < inject_Z (Z.of_nat p))%Q /\
     ~ (one_and_a_half p < inject_Z (Z.of_nat n))%Q).
Proof.
  intros Hp Hn. unfold sentiment_label.
  pose proof (int_gt_times_1_5 p n Hn) as Hup.
  pose proof (int_gt_times_1_5 n p Hp) as Hdown.
  unfold one_and_a_half in *.
  assert (~ ((3 # 2) * inject_Z (Z.of_nat n) < inject_Z (Z.of_nat p) /\
             (3 # 2) * inject_Z (Z.of_nat p) < inject_Z (Z.of_nat n))%Q) as Hexcl.
  { unfold Qlt, Qmult, inject_Z; cbn [Qnum Qden]. lia. }
  destruct (int_gt_float p (times_1_5 n)) eqn:Eup;
    [|destruct (int_gt_float n (times_1_5 p)) eqn:Edown].
  - pose proof (proj1 Hup eq_refl). repeat split; try discriminate; tauto.
  - pose proof (proj1 Hdown eq_refl).
    assert (~ ((3 # 2) * inject_Z (Z.of_nat n) < inject_Z (Z.of_nat p))%Q)
      by (intros H1; apply Hup in H1; discriminate).
    repeat split; try discriminate; tauto.
  - assert (~ ((3 # 2) * inject_Z (Z.of_nat n) < inject_Z (Z.of_nat p))%Q)
      by (intros H1; apply Hup in H1; discriminate).
    assert (~ ((3 # 2) * inject_Z (Z.of_nat p) < inject_Z (Z.of_nat n))%Q)
      by (intros H1; apply Hdown in H1; discriminate).
    repeat split; try discriminate; tauto.
Qed.

(** C3: for a list of news items (shorter than [2^51], so that the float
    products are exact) the label is that of the two counts of items
    mentioning a positive, respectively a negative, keyword: bullish exactly
    when [positive > 1.5 * negative], bearish exactly when
    [negative > 1.5 * positive], neutral otherwise; the counts (10,4),
    (4,10) and (5,4) give bullish, bearish and neutral. *)
Theorem sentiment_label_thresholds (env : Env) (w : World) (data : list dict) :
  Forall news_item data -> (Z.of_nat (length data) < 2 ^ 51)%Z ->
  let p := matching positive_keywords data in
  let n := matching negative_keywords data in
  exists label,
    _analyze_market_sentiment data env w = (Ok label, w) /\
    (label = bullish <-> (one_and_a_half n < inject_Z (Z.of_nat p))%Q) /\
    (label = bearish <-> (one_and_a_half p < inject_Z (Z.of_nat n))%Q) /\
    (label = neutral <->
       ~ (one_and_a_half n < inject_Z (Z.of_nat p))%Q /\
       ~ (one_and_a_half p < inject_Z (Z.of_nat n))%Q) /\
    sentiment_label 10 4 = bullish /\
    sentiment_label 4 10 = bearish /\
    sentiment_label 5 4 = neutral.
Proof.
  intros Hnews Hlen p n.
  pose proof (matching_le positive_keywords data).
  pose proof (matching_le negative_keywords data).
  destruct (sentiment_label_spec p n ltac:(lia) ltac:(lia)) as (Hb & Hd & Hn).
  destruct data as [|item data].
  - exists neutral. split; [reflexivity|].
    assert (sentiment_label p n = neutral) as Heq by (vm_compute; reflexivity).
    rewrite Heq in Hb, Hd, Hn.
    split; [exact Hb|]. split; [exact Hd|]. split; [exact Hn|].
    repeat split; vm_compute; reflexivity.
  - exists (sentiment_label p n). split.
    + unfold _analyze_market_sentiment, lift.
      rewrite bind_run, (count_matching_news _ _ Hnews).
      rewrite bind_run, (count_matching_news _ _ Hnews). reflexivity.
    + split; [exact Hb|]. split; [exact Hd|]. split; [exact Hn|].
      repeat split; vm_compute; reflexivity.
Qed.

Lemma sentiment_label_thresholds_witness :
  _analyze_market_sentiment ten_up_four_down healthy_env empty_world =
    (Ok bullish, empty_world) /\
  matching positive_keywords ten_up_four_down = 10 /\
  matching negative_keywords ten_up_four_down = 4.
Proof.
  assert (Forall news_item ten_up_four_down) as Hnews
    by (repeat constructor; eexists; reflexivity).
  assert (Z.of_nat (length ten_up_four_down) < 2 ^ 51)%Z as Hlen by reflexivity.
  destruct (sentiment_label_thresholds healthy_env empty_world ten_up_four_down
              Hnews Hlen) as (label & Hrun & Hbull & _).
  assert (label = bullish) as -> by (apply Hbull; reflexivity).
  split; [exact Hrun | split; reflexivity].
Defined.

(** ** The opening-news ratio *)

(** C4: for a list of news items the ratio is 0.0 when the list is empty
    and otherwise the float quotient of the number of items mentioning a
    keyword of the chosen list by the number of items, rounded to two
    decimals: a number of hundredths between 0 and 100, nearest to the
    quotient, which itself is within [2^-53] of the exact fraction; seven
    matches out of twenty-three give 0.30. *)
Theorem sentiment_ratio_rounded (env : Env) (w : World) (data : list dict)
    (sentiment : string) :
  Forall news_item data ->
  let count := matching (ratio_keywords sentiment) data in
  let total := length data in
  exists hundredths : Z,
    _calculate_sentiment_ratio data sentiment env w =
      (Ok (FRat (Qred (hundredths # 100))), w) /\
    (0 <= hundredths <= 100)%Z /\
    (data = [] -> FRat (Qred (hundredths # 100)) = float_zero) /\
    (data <> [] ->
       hundredths = round2_hundredths (true_div count total) /\
       ((Z.of_nat count # Pos.of_nat total) - (1 # 2 ^ 53) <= true_div count total
        <= (Z.of_nat count # Pos.of_nat total) + (1 # 2 ^ 53))%Q /\
       (inject_Z hundredths - (1 # 2) <= 100 * true_div count total
        <= inject_Z hundredths + (1 # 2))%Q) /\
    round2_hundredths (true_div 7 23) = 30%Z.
Proof.
  intros Hnews count total.
  destruct data as [|item data].
  - exists 0%Z. split; [reflexivity|]. split; [lia|]. split; [reflexivity|].
    split; [congruence | vm_compute; reflexivity].
  - exists (round2_hundredths (true_div count total)).
    pose proof (matching_le (ratio_keywords sentiment) (item :: data)) as Hle.
    assert (0 < total) as Hpos by (unfold total; simpl; lia).
    destruct (true_div_unit count total Hle Hpos) as [Hunit Hnear].
    destruct (round2_hundredths_unit _ Hunit) as [Hbound Hround].
    split.
    { unfold _calculate_sentiment_ratio, lift.
      rewrite bind_run, (count_matching_news _ _ Hnews). reflexivity. }
    split; [exact Hbound|]. split; [discriminate|].
    split; [|vm_compute; reflexivity].
    intros _. split; [reflexivity|]. split; [exact Hnear | exact Hround].
Qed.

Lemma sentiment_ratio_rounded_witness :
  matching (ratio_keywords "positive") seven_of_twenty_three = 7 /\
  length seven_of_twenty_three = 23 /\
  _calculate_sentiment_ratio seven_of_twenty_three "positive" healthy_env empty_world =
    (Ok (FRat (3 # 10)), empty_world) /\
  _calculate_sentiment_ratio [] "positive" healthy_env empty_world =
    (Ok float_zero, empty_world).
Proof.
  assert (Forall news_item seven_of_twenty_three) as Hnews
    by (repeat constructor; eexists; reflexivity).
  destruct (sentiment_ratio_rounded healthy_env empty_world seven_of_twenty_three
              "positive" Hnews) as (h & Hrun & _ & _ & Hh & _).
  destruct (Hh ltac:(discriminate)) as [-> _].
  split; [reflexivity|]. split; [reflexivity|]. split; [exact Hrun | reflexivity].
Defined.

(** * Further properties *)

(** ** Tags *)

Lemma string_app_assoc (a b c : string) :
  ((a ++ b) ++ c)%string = (a ++ (b ++ c))%string.
Proof.
  induction a as [|x a IH]; [reflexivity|].
  rewrite !append_cons. by rewrite IH.
Qed.

(** Substring occurrence is transitive. *)
Lemma str_in_trans (a b c : string) :
  str_in a b = true -> str_in b c = true -> str_in a c = true.
Proof.
  rewrite !str_in_spec. intros (p1 & q1 & ->) (p2 & q2 & ->).
  exists (p2 ++ p1)%string, (q1 ++ q2)%string.
  by rewrite !string_app_assoc.
Qed.

Lemma str_in_app_l (kw a b : string) :
  str_in kw a = true -> str_in kw (a ++ b)%string = true.
Proof.
  rewrite !str_in_spec. intros (p & q & ->).
  exists p, (q ++ b)%string. by rewrite !string_app_assoc.
Qed.

Lemma str_in_app_r (kw a b : string) :
  str_in kw b = true -> str_in kw (a ++ b)%string = true.
Proof.
  rewrite !str_in_spec. intros (p & q & ->).
  exists (a ++ p)%string, q. by rewrite !string_app_assoc.
Qed.

(** X1: tags only grow with the text.  A text that contains another text
    has all of its tags; in particular the tags of a concatenation include
    the tags of both parts, and a text without any vocabulary keyword, such
    as the empty text, has no tag. *)
Theorem extract_tags_monotone :
  (forall inner outer kw,
     str_in inner outer = true ->
     In kw (_extract_tags inner) -> In kw (_extract_tags outer)) /\
  (forall a b kw,
     In kw (_extract_tags a) \/ In kw (_extract_tags b) ->
     In kw (_extract_tags (a ++ b)%string)) /\
  (forall content,
     (forall kw, In kw keywords -> str_in kw content = false) ->
     _extract_tags content = []) /\
  _extract_tags "" = [].
Proof.
  unfold _extract_tags. split; [|split; [|split]].
  - intros inner outer kw Hin. rewrite !filter_In. intros [Hk Hs].
    split; [exact Hk | by apply (str_in_trans kw inner outer)].
  - intros a b kw. rewrite !filter_In. intros [[Hk Hs]|[Hk Hs]].
    + split; [exact Hk | by apply str_in_app_l].
    + split; [exact Hk | by apply str_in_app_r].
  - intros content Hnone.
    induction keywords as [|kw kws IH]; [reflexivity|].
    cbn [List.filter]. rewrite Hnone by (by left).
    apply IH. intros kw' Hin. apply Hnone. by right.
  - reflexivity.
Qed.

Lemma extract_tags_monotone_witness :
  str_in "重组获批" "利好消息：某公司重组获批" = true /\
  In "重组" (_extract_tags "重组获批") /\
  In "重组" (_extract_tags "利好消息：某公司重组获批").
Proof.
  destruct extract_tags_monotone as (Hmono & _).
  assert (str_in "重组获批" "利好消息：某公司重组获批" = true) as Hin by reflexivity.
  assert (In "重组" (_extract_tags "重组获批")) as Htag by (vm_compute; tauto).
  split; [exact Hin|]. split; [exact Htag|].
  exact (Hmono _ _ _ Hin Htag).
Defined.

(** ** Separators in numeric fields *)

Lemma remove_char_app (c : ascii) (a b : string) :
  remove_char c (a ++ b)%string = (remove_char c a ++ remove_char c b)%string.
Proof.
  induction a as [|x a IH]; [reflexivity|].
  rewrite append_cons. cbn [remove_char].
  destruct (Ascii.eqb x c); [exact IH | by rewrite append_cons, IH].
Qed.

Lemma strip_separators_app (a b : string) :
  strip_separators (a ++ b)%string = (strip_separators a ++ strip_separators b)%string.
Proof. unfold strip_separators. by rewrite !remove_char_app. Qed.

Lemma remove_char_clean (c : ascii) (s : string) :
  ~ In c (list_ascii_of_string s) -> remove_char c s = s.
Proof.
  induction s as [|x s IH]; [reflexivity|].
  cbn [list_ascii_of_string remove_char]. intros Hn.
  destruct (Ascii.eqb_spec x c) as [->|_]; [exfalso; apply Hn; by left|].
  rewrite IH; [reflexivity|]. intros Hin. apply Hn. by right.
Qed.

(** X2: commas and percent signs do not matter to the float reader,
    wherever they stand: inserting one anywhere in the text leaves the
    result unchanged, reading is insensitive to a second stripping, and a
    text without them is handed to [float] as it is. *)
Theorem parse_float_ignores_separators (env : Env) (w : World) :
  (forall a b,
     _parse_float (a ++ "," ++ b) env w = _parse_float (a ++ b) env w /\
     _parse_float (a ++ "%" ++ b) env w = _parse_float (a ++ b) env w) /\
  (forall value,
     _parse_float (strip_separators value) env w = _parse_float value env w) /\
  (forall value,
     ~ In ","%char (list_ascii_of_string value) ->
     ~ In "%"%char (list_ascii_of_string value) ->
     _parse_float value env w =
     (Ok (default float_zero (float_of_str env value)), w)).
Proof.
  assert (forall u v, strip_separators u = strip_separators v ->
                      _parse_float u env w = _parse_float v env w) as Hsame.
  { intros u v Huv. rewrite !parse_float_run. unfold parsed_float. by rewrite Huv. }
  split; [|split].
  - intros a b. split; apply Hsame; by rewrite !strip_separators_app.
  - intros value. apply Hsame. unfold strip_separators.
    rewrite (remove_char_clean "," (remove_char "%" (remove_char "," value))).
    + rewrite (remove_char_clean "%" (remove_char "%" (remove_char "," value)));
        [reflexivity|].
      rewrite remove_char_list, filter_In. intros [_ H]. by rewrite Ascii.eqb_refl in H.
    + rewrite !remove_char_list, !filter_In. intros [[_ H] _].
      by rewrite Ascii.eqb_refl in H.
  - intros value Hc Hp. rewrite parse_float_run. unfold parsed_float, strip_separators.
    rewrite (remove_char_clean "," value Hc), (remove_char_clean "%" value Hp).
    by destruct (float_of_str env value).
Qed.

Lemma parse_float_ignores_separators_witness :
  _parse_float "1079.5" healthy_env empty_world = (Ok (FRat (2159 # 2)), empty_world) /\
  _parse_float "1,079.5" healthy_env empty_world = (Ok (FRat (2159 # 2)), empty_world).
Proof.
  destruct (parse_float_ignores_separators healthy_env empty_world) as (Hins & _ & Hclean).
  assert (_parse_float "1079.5" healthy_env empty_world =
          (Ok (FRat (2159 # 2)), empty_world)) as Hplain.
  { rewrite Hclean; [reflexivity | |]; simpl; intuition discriminate. }
  split; [exact Hplain|].
  destruct (Hins "1" "079.5") as [Hcomma _].
  etransitivity; [exact Hcomma | exact Hplain].
Defined.

(** ** Sentiment in whole numbers *)

Lemma one_and_a_half_lt (p n : nat) :
  (one_and_a_half n < inject_Z (Z.of_nat p))%Q <-> 3 * n < 2 * p.
Proof.
  unfold one_and_a_half, Qlt, Qmult, inject_Z; cbn [Qnum Qden]. lia.
Qed.

(** X3: for counts below [2^51] the label is decided in whole numbers:
    bullish exactly when [2 * positive > 3 * negative], bearish exactly when
    [2 * negative > 3 * positive].  Hence equal counts are always neutral,
    any positive count against no negative one is bullish, and exchanging
    the two counts exchanges bullish and bearish. *)
Theorem sentiment_label_integer_rule (p n : nat) :
  (Z.of_nat p < 2 ^ 51)%Z -> (Z.of_nat n < 2 ^ 51)%Z ->
  (sentiment_label p n = bullish <-> 3 * n < 2 * p) /\
  (sentiment_label p n = bearish <-> 3 * p < 2 * n) /\
  (sentiment_label p n = neutral <-> 2 * p <= 3 * n /\ 2 * n <= 3 * p) /\
  (p = n -> sentiment_label p n = neutral) /\
  (0 < p -> n = 0 -> sentiment_label p n = bullish) /\
  (sentiment_label p n = bullish <-> sentiment_label n p = bearish).
Proof.
  intros Hp Hn.
  destruct (sentiment_label_spec p n Hp Hn) as (Hb & Hd & Hz).
  destruct (sentiment_label_spec n p Hn Hp) as (_ & Hd' & _).
  rewrite one_and_a_half_lt in Hb, Hd. rewrite !one_and_a_half_lt in Hz.
  rewrite one_and_a_half_lt in Hd'.
  split; [exact Hb|]. split; [exact Hd|].
  split; [rewrite Hz; lia|].
  split; [intros ->; apply Hz; lia|].
  split; [intros H0 ->; apply Hb; lia|].
  rewrite Hb, Hd'. reflexivity.
Qed.

Lemma sentiment_label_integer_rule_witness :
  sentiment_label 3 2 = neutral /\ sentiment_label 7 7 = neutral /\
  sentiment_label 1 0 = bullish.
Proof.
  assert (Z.of_nat 3 < 2 ^ 51)%Z as H3 by reflexivity.
  assert (Z.of_nat 2 < 2 ^ 51)%Z as H2 by reflexivity.
  assert (Z.of_nat 7 < 2 ^ 51)%Z as H7 by reflexivity.
  assert (Z.of_nat 1 < 2 ^ 51)%Z as H1 by reflexivity.
  assert (Z.of_nat 0 < 2 ^ 51)%Z as H0 by reflexivity.
  destruct (sentiment_label_integer_rule 3 2 H3 H2) as (_ & _ & Hz & _).
  destruct (sentiment_label_integer_rule 7 7 H7 H7) as (_ & _ & _ & Heq & _).
  destruct (sentiment_label_integer_rule 1 0 H1 H0) as (_ & _ & _ & _ & Hup & _).
  split; [apply Hz; lia|]. split; [by apply Heq | apply Hup; lia].
Defined.

(** ** The ratio at its ends *)

Lemma binary64_proper (q q' : Q) : (q == q')%Q -> binary64 q = binary64 q'.
Proof. intros H. unfold binary64. by rewrite (Qred_complete q q' H). Qed.

Lemma pos_of_nat_Z (n : nat) : 0 < n -> Z.pos (Pos.of_nat n) = Z.of_nat n.
Proof. intros H. rewrite <- positive_nat_Z, Nat2Pos.id by lia. reflexivity. Qed.

Lemma true_div_zero (n : nat) : true_div 0 n = 0%Q.
Proof. unfold true_div. apply binary64_zero. reflexivity. Qed.

Lemma true_div_self (n : nat) : 0 < n -> true_div n n = 1%Q.
Proof.
  intros Hn. unfold true_div.
  rewrite (binary64_proper _ 1); [vm_compute; reflexivity|].
  unfold Qeq; cbn [Qnum Qden]. rewrite pos_of_nat_Z by exact Hn. lia.
Qed.

Lemma count_matching_no_keywords (data : list dict) :
  count_matching [] data = Ok 0.
Proof.
  induction data as [|item data IH]; [reflexivity|].
  cbn [count_matching any_keyword_in]. by rewrite IH.
Qed.

(** X4: the ends of the ratio.  For a sentiment name other than
    "positive" and "negative" the ratio is 0.0 for every list, whatever its
    items hold; for a list of news items it is 0.0 when no item mentions a
    keyword and 1.0 when every item does. *)
Theorem sentiment_ratio_extremes (env : Env) (w : World) (data : list dict)
    (sentiment : string) :
  (sentiment <> "positive" -> sentiment <> "negative" ->
   _calculate_sentiment_ratio data sentiment env w = (Ok float_zero, w)) /\
  (Forall news_item data ->
   matching (ratio_keywords sentiment) data = 0 ->
   _calculate_sentiment_ratio data sentiment env w = (Ok float_zero, w)) /\
  (Forall news_item data -> data <> [] ->
   matching (ratio_keywords sentiment) data = length data ->
   _calculate_sentiment_ratio data sentiment env w = (Ok (FRat 1), w)).
Proof.
  split; [|split].
  - intros Hp Hn. unfold _calculate_sentiment_ratio, ratio_keywords.
    destruct (String.eqb_spec sentiment "positive"); [contradiction|].
    destruct (String.eqb_spec sentiment "negative"); [contradiction|].
    destruct data as [|item data]; [reflexivity|].
    unfold lift. rewrite bind_run, count_matching_no_keywords.
    by rewrite true_div_zero.
  - intros Hnews Hzero. unfold _calculate_sentiment_ratio.
    destruct data as [|item data]; [reflexivity|].
    unfold lift. rewrite bind_run, (count_matching_news _ _ Hnews), Hzero.
    by rewrite true_div_zero.
  - intros Hnews Hne Hall. unfold _calculate_sentiment_ratio.
    destruct data as [|item data]; [contradiction|].
    unfold lift. rewrite bind_run, (count_matching_news _ _ Hnews), Hall.
    rewrite true_div_self by (simpl; lia). reflexivity.
Qed.

Lemma sentiment_ratio_extremes_witness :
  _calculate_sentiment_ratio [[("content", VInt 7)]] "mixed" healthy_env empty_world =
    (Ok float_zero, empty_world) /\
  _calculate_sentiment_ratio ten_up_four_down "neutral" healthy_env empty_world =
    (Ok float_zero, empty_world) /\
  _calculate_sentiment_ratio [news "指数突破前高"; news "上涨"] "positive"
    healthy_env empty_world = (Ok (FRat 1), empty_world) /\
  _calculate_sentiment_ratio [news "指数突破前高"; news "上涨"] "negative"
    healthy_env empty_world = (Ok float_zero, empty_world).
Proof.
  assert (Forall news_item [news "指数突破前高"; news "上涨"]) as Hnews
    by (repeat constructor; eexists; reflexivity).
  destruct (sentiment_ratio_extremes healthy_env empty_world
              [[("content", VInt 7)]] "mixed") as (Hother1 & _).
  destruct (sentiment_ratio_extremes healthy_env empty_world
              ten_up_four_down "neutral") as (Hother2 & _).
  destruct (sentiment_ratio_extremes healthy_env empty_world
              [news "指数突破前高"; news "上涨"] "positive") as (_ & _ & Hall).
  destruct (sentiment_ratio_extremes healthy_env empty_world
              [news "指数突破前高"; news "上涨"] "negative") as (_ & Hnone & _).
  split; [apply Hother1; discriminate|].
  split; [apply Hother2; discriminate|].
  split; [apply Hall; [exact Hnews | discriminate | reflexivity]|].
  apply Hnone; [exact Hnews | reflexivity].
Defined.

(** ** The store calls of the schema routine *)

Lemma create_index_calls env w name body :
  trace (snd (create_index name body env w)) =
  (trace w ++ schema_calls env w name)%list.
Proof.
  unfold_create_index. unfold schema_calls.
  destruct (exists_fault env name); simpl; [reflexivity|].
  destruct (bool_decide (is_Some (indices w !! name))) eqn:E; simpl; [reflexivity|].
  destruct (create_fault env name); simpl.
  - by rewrite <- app_assoc.
  - rewrite E. simpl. by rewrite <- app_assoc.
Qed.

Lemma schema_calls_ext env w1 w2 name :
  indices w1 !! name = indices w2 !! name ->
  schema_calls env w1 name = schema_calls env w2 name.
Proof. unfold schema_calls. by intros ->. Qed.

Lemma flat_map_ext_In {A B : Type} (f g : A -> list B) (l : list A) :
  (forall a, In a l -> f a = g a) -> flat_map f l = flat_map g l.
Proof.
  induction l as [|a l IH]; intros H; [reflexivity|].
  cbn [flat_map]. rewrite (H a) by (by left). rewrite IH; [reflexivity|].
  intros b Hb. apply H. by right.
Qed.

Lemma fold_create_calls env defs : forall w,
  List.NoDup (List.map fst defs) ->
  trace (fold_left (create_step env) defs w) =
  (trace w ++ flat_map (schema_calls env w) (List.map fst defs))%list.
Proof.
  induction defs as [|d defs IH]; intros w Hnd.
  - simpl. by rewrite app_nil_r.
  - inversion Hnd as [|? ? Hnotin Hnd']; subst.
    cbn [fold_left List.map flat_map]. rewrite IH by exact Hnd'.
    assert (trace (create_step env w d) = (trace w ++ schema_calls env w d.1)%list)
      as -> by apply create_index_calls.
    rewrite <- app_assoc.
    f_equal. f_equal. apply flat_map_ext_In. intros name Hin. symmetry.
    apply schema_calls_ext. unfold create_step.
    rewrite create_index_indices, lookup_union.
    assert (d.1 <> name) by (intros Heq; rewrite Heq in Hnotin; contradiction).
    destruct (creation_ok env d.1).
    + rewrite lookup_singleton_ne by assumption. by destruct (indices w !! name).
    + rewrite lookup_empty. by destruct (indices w !! name).
Qed.

Lemma create_indices_run env w :
  exists w',
    _create_indices env w = (Ok tt, w') /\
    indices w' = indices w ∪ created env index_definitions /\
    trace w' = (trace w ++ flat_map (schema_calls env w) index_names)%list /\
    ticks w' = ticks w.
Proof.
  unfold _create_indices. rewrite for_each_create. eexists. split; [reflexivity|].
  split; [apply fold_create_indices|].
  split; [apply fold_create_calls, index_names_NoDup|].
  generalize w. induction index_definitions as [|d defs IH]; intros w0; [reflexivity|].
  cbn [fold_left]. rewrite IH. unfold create_step.
  unfold_create_index.
  destruct (exists_fault env d.1); simpl; [reflexivity|].
  destruct (bool_decide (is_Some (indices w0 !! d.1))) eqn:E; simpl; [reflexivity|].
  destruct (create_fault env d.1); simpl; [reflexivity|].
  rewrite E. reflexivity.
Qed.

(** X5: the store calls of the schema routine are exactly, for each of the
    five collections in order, one existence check, followed by one
    creation call when the check answered and the collection was absent.
    So a collection that exists, or whose check raised, is never created
    again, and a run makes at most ten calls. *)
Theorem create_indices_store_calls (env : Env) (w : World) :
  let calls := flat_map (schema_calls env w) index_names in
  trace (snd (_create_indices env w)) = (trace w ++ calls)%list /\
  (forall name,
     In (EsIndicesCreate name) calls <->
     In name index_names /\ indices w !! name = None /\ exists_fault env name = None) /\
  (forall name, In (EsIndicesExists name) calls <-> In name index_names) /\
  length calls <= 10.
Proof.
  cbv zeta. split.
  { destruct (create_indices_run env w) as (w' & Hrun & _ & Ht & _). by rewrite Hrun. }
  assert (forall name n,
            In (EsIndicesCreate name) (schema_calls env w n) <->
            n = name /\ indices w !! name = None /\ exists_fault env name = None)
    as Hone.
  { intros name n. unfold schema_calls. cbn [In]. split.
    - intros [H|H]; [discriminate|].
      destruct (exists_fault env n) eqn:Ee; [destruct H|].
      destruct (bool_decide (is_Some (indices w !! n))) eqn:Ep; [destruct H|].
      destruct H as [H|[]]. injection H as ->.
      apply bool_decide_eq_false_1 in Ep.
      split; [reflexivity|]. split; [|exact Ee].
      destruct (indices w !! name); [exfalso; apply Ep; eauto | reflexivity].
    - intros (-> & Hp & He). right. rewrite He, Hp. simpl. by left. }
  split; [|split].
  - intros name. rewrite in_flat_map. split.
    + intros (n & Hin & Hc). apply Hone in Hc. destruct Hc as (-> & Hp & He). auto.
    + intros (Hin & Hp & He). exists name. split; [exact Hin|]. by apply Hone.
  - intros name. rewrite in_flat_map. split.
    + intros (n & Hin & Hc). unfold schema_calls in Hc. cbn [In] in Hc.
      destruct Hc as [Hc|Hc]; [by injection Hc as <-|].
      destruct (exists_fault env n); [destruct Hc|].
      destruct (bool_decide _); [destruct Hc|]. destruct Hc as [Hc|[]]. discriminate.
    + intros Hin. exists name. split; [exact Hin | by left].
  - unfold index_names, index_definitions. cbn [List.map fst flat_map].
    rewrite !length_app. unfold schema_calls.
    repeat match goal with
           | |- context [exists_fault env ?n] => destruct (exists_fault env n)
           | |- context [bool_decide ?P] => destruct (bool_decide P)
           end; simpl; lia.
Qed.

Lemma create_indices_store_calls_witness :
  let w := snd (_create_indices healthy_env empty_world) in
  indices w !! "sina_live_data" <> None /\
  ~ In (EsIndicesCreate "sina_live_data")
       (flat_map (schema_calls healthy_env w) index_names).
Proof.
  cbv zeta.
  assert (indices (snd (_create_indices healthy_env empty_world)) !! "sina_live_data"
          <> None) as Hex by (vm_compute; discriminate).
  split; [exact Hex|].
  remember (snd (_create_indices healthy_env empty_world)) as w1 eqn:Hw1.
  pose proof (create_indices_store_calls healthy_env w1) as H. cbv zeta in H.
  destruct H as (_ & Hcreate & _).
  intros Hin. apply Hcreate in Hin. destruct Hin as (_ & Hnone & _). contradiction.
Defined.

(** ** Construction and start-up *)

Lemma check_connection_run env w :
  _check_connection env w =
  if ping_reply env
  then (Ok tt, {| indices := indices w; trace := trace w ++ [EsPing];
                  logs := logs w ++ [(INFO, "成功连接到 Elasticsearch")];
                  ticks := ticks w |})
  else (Raise (ConnectionError "Elasticsearch 连接失败"),
        {| indices := indices w; trace := trace w ++ [EsPing];
           logs := (logs w ++ [(ERROR, "无法连接到 Elasticsearch")]) ++
                   [(ERROR, "Elasticsearch 连接错误: Elasticsearch 连接失败")];
           ticks := ticks w |}).
Proof.
  unfold _check_connection, try_except, es_ping, record_call, ask, logger, raise,
    mbind, M_bind, mret, M_ret.
  destruct (ping_reply env); reflexivity.
Qed.

Lemma client_init_run env w :
  if ping_reply env
  then exists w',
         ElasticsearchClient_init env w = (Ok tt, w') /\
         trace w' = (trace w ++ EsPing :: flat_map (schema_calls env w) index_names)%list /\
         indices w' = indices w ∪ created env index_definitions /\
         ticks w' = ticks w
  else exists w',
         ElasticsearchClient_init env w =
           (Raise (ConnectionError "Elasticsearch 连接失败"), w') /\
         trace w' = (trace w ++ [EsPing])%list /\
         indices w' = indices w /\
         logs w' = (logs w ++ two_connection_errors)%list.
Proof.
  unfold ElasticsearchClient_init. rewrite bind_run, check_connection_run.
  destruct (ping_reply env).
  - match goal with |- context [_create_indices env ?w0] =>
      destruct (create_indices_run env w0) as (w' & Hrun & Hi & Ht & Hk) end.
    exists w'. rewrite Hrun. split; [reflexivity|].
    cbn [indices trace ticks] in *. rewrite Ht, <- app_assoc.
    split; [reflexivity | split; [exact Hi | exact Hk]].
  - eexists. split; [reflexivity|]. cbn [indices trace logs].
    rewrite <- app_assoc. auto.
Qed.

(** X6: building the store client fails exactly when the ping answers
    false: it then raises [ConnectionError] after the ping alone, without
    any schema call and with two error records; when the ping answers true
    it returns, having made the ping and then the schema calls. *)
Theorem client_init_outcome (env : Env) (w : World) :
  if ping_reply env
  then exists w',
         ElasticsearchClient_init env w = (Ok tt, w') /\
         trace w' = (trace w ++ EsPing :: flat_map (schema_calls env w) index_names)%list /\
         indices w' = indices w ∪ created env index_definitions
  else exists w',
         ElasticsearchClient_init env w =
           (Raise (ConnectionError "Elasticsearch 连接失败"), w') /\
         trace w' = (trace w ++ [EsPing])%list /\
         indices w' = indices w /\
         logs w' = (logs w ++ two_connection_errors)%list.
Proof.
  pose proof (client_init_run env w) as H.
  destruct (ping_reply env).
  - destruct H as (w' & Hrun & Ht & Hi & _). eauto.
  - exact H.
Qed.

Lemma system_init_run env w :
  if ping_reply env
  then exists s w',
         FinanceDataSystem_init env w = (Ok s, w') /\
         _setup_scheduled_tasks new_scheduler = Ok s /\
         trace w' = (trace w ++ EsPing :: flat_map (schema_calls env w) index_names)%list
  else exists w',
         FinanceDataSystem_init env w =
           (Raise (ConnectionError "Elasticsearch 连接失败"), w') /\
         trace w' = (trace w ++ [EsPing])%list.
Proof.
  pose proof (client_init_run env w) as client_init_run_aux.
  unfold FinanceDataSystem_init. rewrite bind_run.
  destruct (ping_reply env).
  - destruct client_init_run_aux as (w' & -> & Ht & _).
    eexists _, _. split; [reflexivity|]. split; [reflexivity | exact Ht].
  - destruct client_init_run_aux as (w' & -> & Ht & _).
    exists w'. split; [reflexivity | exact Ht].
Qed.

(** X7: building the system fails exactly when the store ping answers
    false, again after the ping alone.  Otherwise the six jobs are only
    queued: the new scheduler is stopped and its job store is empty; it is
    [start] that brings them into the running registry, and it does so
    without any store call. *)
Theorem system_startup (env : Env) (w : World) :
  if ping_reply env
  then exists s w1,
         FinanceDataSystem_init env w = (Ok s, w1) /\
         running s = false /\ List.map fst (pending s) = scheduled_jobs /\
         jobstore s = ∅ /\
         exists s' w2,
           FinanceDataSystem_start s env w1 = (Ok s', w2) /\
           running s' = true /\ pending s' = [] /\ size (jobstore s') = 6 /\
           trace w2 = trace w1
  else exists w1,
         FinanceDataSystem_init env w =
           (Raise (ConnectionError "Elasticsearch 连接失败"), w1) /\
         trace w1 = (trace w ++ [EsPing])%list.
Proof.
  pose proof (system_init_run env w) as H.
  destruct (ping_reply env).
  - destruct H as (s & w1 & Hrun & Hs & _).
    exists s, w1. split; [exact Hrun|].
    injection Hs as <-.
    split; [reflexivity|]. split; [reflexivity|]. split; [reflexivity|].
    eexists _, _. split; [reflexivity|].
    split; [reflexivity|]. split; [reflexivity|]. split; [vm_compute|]; reflexivity.
  - exact H.
Qed.

(** ** The production entry point *)

Lemma console_bind_run {A B : Type} (m : Console A) (f : A -> Console B) out env w :
  (m ≫= f) out env w =
  match m out env w with
  | (Ok a, out', w') => f a out' env w'
  | (Raise e, out', w') => (Raise e, out', w')
  end.
Proof. reflexivity. Qed.

Lemma int_setting_run proc name dflt out env w :
  int_setting proc name dflt out env w =
  match setting proc name dflt with
  | Some z => (Ok z, out, w)
  | None =>
      (Raise (ValueError ("invalid literal for int() with base 10: '"
                          ++ default "" (environ proc name) ++ "'")), out, w)
  end.
Proof.
  unfold int_setting, setting.
  destruct (environ proc name) as [text|]; [|reflexivity].
  destruct (int_of_str proc text); reflexivity.
Qed.

(** X8: the production entry point.  A port or thread setting that is not
    an integer makes [main] raise [ValueError] before anything is printed
    or any store call is made.  With usable settings (5000 and 2 when
    unset, host 0.0.0.0 when unset) the three banner lines are printed;
    then an unreachable store makes [main] raise [ConnectionError] after
    the ping alone, and otherwise [serve] is called with these settings
    while the scheduler of the served system is still stopped, its six jobs
    queued and none in the job store. *)
Theorem production_main (proc : Process) (out : list string) (env : Env) (w : World) :
  let host := default "0.0.0.0" (environ proc "FLASK_HOST") in
  match setting proc "FLASK_PORT" 5000, setting proc "WAITRESS_THREADS" 2 with
  | Some port, Some threads =>
      if ping_reply env
      then exists s w',
             main proc out env w =
               (Ok ({| host := host; port := port; threads := threads;
                       connection_limit := 100; backlog := 2048;
                       outbuf_overflow := 16777216 |}, s),
                (out ++ banner host port threads)%list, w') /\
             running s = false /\ jobstore s = ∅ /\
             List.map fst (pending s) = scheduled_jobs
      else exists w',
             main proc out env w =
               (Raise (ConnectionError "Elasticsearch 连接失败"),
                (out ++ banner host port threads)%list, w') /\
             trace w' = (trace w ++ [EsPing])%list
  | _, _ => exists e, main proc out env w = (Raise (ValueError e), out, w)
  end.
Proof.
  cbv zeta. unfold main.
  rewrite console_bind_run, int_setting_run.
  destruct (setting proc "FLASK_PORT" 5000) as [port|]; [|eexists; reflexivity].
  rewrite console_bind_run, int_setting_run.
  destruct (setting proc "WAITRESS_THREADS" 2) as [threads|]; [|eexists; reflexivity].
  pose proof (system_init_run env w) as H.
  unfold print, quiet, mbind, Console_bind, mret, Console_ret.
  destruct (ping_reply env).
  - destruct H as (s & w' & -> & Hs & _). injection Hs as <-.
    eexists _, _.
    split; [unfold banner; rewrite <- !app_assoc; reflexivity|].
    split; [reflexivity | split; reflexivity].
  - destruct H as (w' & -> & Ht). exists w'. split; [|exact Ht].
    unfold banner. rewrite <- !app_assoc. reflexivity.
Qed.

(** ** Searches and analyses *)

Lemma search_run env w index query size :
  exists w',
    search index query size env w = (Ok (hits env index query size), w') /\
    indices w' = indices w /\ ticks w' = ticks w /\
    trace w' = (trace w ++ [EsSearch index query size])%list /\
    logs w' = (logs w ++ search_records env index query size)%list.
Proof.
  unfold search, hits, search_records, try_except, es_search, logger, mbind, M_bind,
    mret, M_ret.
  destruct (search_reply env index query size); eexists; (split; [reflexivity|]);
    cbn [indices ticks trace logs]; rewrite ?app_nil_r; auto.
Qed.



(** X10: the two analyses with fixed content never raise and do not read
    the store: each makes exactly one bulk call, which writes the very
    artifact it returns, stamped with one clock reading; this holds also
    when the store rejects the write, which the caller cannot notice. *)
Theorem fixed_analyses_write_once (env : Env) (w : World) :
  (exists artifact w',
     analyze_dragon_tiger_list env w = (Ok artifact, w') /\
     trace w' = (trace w ++ [write_of "analysis_results" artifact])%list /\
     ticks w' = S (ticks w) /\ indices w' = indices w /\
     dict_get "analysis_type" artifact VNone = VStr "dragon_tiger_list" /\
     dict_get "create_time" artifact VNone = VStr (clock env (ticks w))) /\
  (exists artifact w',
     analyze_northbound_capital env w = (Ok artifact, w') /\
     trace w' = (trace w ++ [write_of "analysis_results" artifact])%list /\
     ticks w' = S (ticks w) /\ indices w' = indices w /\
     dict_get "analysis_type" artifact VNone = VStr "northbound_capital" /\
     dict_get "create_time" artifact VNone = VStr (clock env (ticks w))).
Proof.
  split.
  - unfold analyze_dragon_tiger_list.
    rewrite bind_run. unfold logger at 1. cbv iota beta.
    rewrite bind_run. unfold now_isoformat at 1. cbv iota beta. rewrite bind_run.
    match goal with |- context [bulk_insert ?i ?d env ?w0] =>
      destruct (bulk_insert_run env w0 i d) as (r & w' & -> & Hi & Hk & Ht) end.
    eexists _, w'. split; [reflexivity|].
    cbn [indices trace ticks] in *. rewrite Ht, Hi, Hk. repeat split; reflexivity.
  - unfold analyze_northbound_capital.
    rewrite bind_run. unfold logger at 1. cbv iota beta.
    rewrite bind_run. unfold now_isoformat at 1. cbv iota beta. rewrite bind_run.
    match goal with |- context [bulk_insert ?i ?d env ?w0] =>
      destruct (bulk_insert_run env w0 i d) as (r & w' & -> & Hi & Hk & Ht) end.
    eexists _, w'. split; [reflexivity|].
    cbn [indices trace ticks] in *. rewrite Ht, Hi, Hk. repeat split; reflexivity.
Qed.

Lemma sentiment_run env w (data : list dict) :
  Forall news_item data ->
  _analyze_market_sentiment data env w = (Ok (news_label data), w).
Proof.
  intros Hnews. destruct data as [|item data]; [reflexivity|].
  unfold _analyze_market_sentiment, news_label, lift.
  rewrite bind_run, (count_matching_news _ _ Hnews).
  rewrite bind_run, (count_matching_news _ _ Hnews). reflexivity.
Qed.

Lemma ratio_run env w (data : list dict) (sentiment : string) :
  Forall news_item data ->
  _calculate_sentiment_ratio data sentiment env w = (Ok (news_ratio data sentiment), w).
Proof.
  intros Hnews. destruct data as [|item data]; [reflexivity|].
  unfold _calculate_sentiment_ratio, news_ratio, lift.
  rewrite bind_run, (count_matching_news _ _ Hnews). reflexivity.
Qed.

(** X11: the closing summary never raises, whatever the store holds or
    answers: it makes one search and one bulk call, which writes the
    artifact it returns; the artifact counts the hits (none when the search
    failed) in its text and in [total_news], and its [market_sentiment] is
    "positive" whatever the hits say. *)
Theorem closing_summary_always_returns (env : Env) (w : World) :
  let found := hits env "sina_live_data" [since "now-8h"] 500 in
  exists artifact w',
    analyze_closing_summary env w = (Ok artifact, w') /\
    trace w' = (trace w ++ [ EsSearch "sina_live_data" [since "now-8h"] 500;
                             write_of "analysis_results" artifact ])%list /\
    field_names artifact = declared_fields "analysis_results" /\
    dict_get "content" artifact VNone = VStr (_generate_daily_summary found) /\
    dict_get "metrics" artifact VNone =
      VDict [ ("total_news", int_value (length found));
              ("market_sentiment", VStr "positive");
              ("key_events", VList [VStr "重要事件1"; VStr "重要事件2"; VStr "重要事件3"]) ] /\
    dict_get "create_time" artifact VNone = VStr (clock env (ticks w)).
Proof.
  cbv zeta. unfold analyze_closing_summary.
  rewrite bind_run. unfold logger at 1. cbv iota beta. rewrite bind_run.
  match goal with |- context [search ?i ?q ?n env ?w0] =>
    destruct (search_run env w0 i q n) as (w1 & -> & Hi1 & Hk1 & Ht1 & _) end.
  rewrite bind_run. unfold now_isoformat at 1. cbv iota beta. rewrite bind_run.
  match goal with |- context [bulk_insert ?i ?d env ?w0] =>
    destruct (bulk_insert_run env w0 i d) as (r & w' & -> & Hi & Hk & Ht) end.
  eexists _, w'. split; [reflexivity|].
  cbn [indices trace ticks] in *. rewrite Ht, Ht1, Hk1, <- app_assoc.
  repeat split; reflexivity.
Qed.

(** ** The shared query of the pre-market routine *)

Lemma search_in_place_run env w index query size :
  exists w',
    search_in_place index query size env w =
      (Ok (hits_in_place env index query size, left_in env query size), w') /\
    indices w' = indices w /\ ticks w' = ticks w /\
    trace w' = (trace w ++ calls_in_place env index query size)%list /\
    logs w' = (logs w ++ records_in_place env index query size)%list.
Proof.
  unfold search_in_place, es_search_in_place, hits_in_place, left_in, calls_in_place,
    records_in_place, hits, search_records, es_search, logger, mbind, M_bind, mret, M_ret.
  destruct (prepare_body env query size) as [query'|e].
  - destruct (search_reply env index query size); eexists; (split; [reflexivity|]);
      cbn [indices ticks trace logs]; rewrite ?app_nil_r; auto.
  - eexists; (split; [reflexivity|]); cbn [indices ticks trace logs];
      rewrite ?app_nil_r; auto.
Qed.

(** When the client accepts the dictionary, the search on it is the plain
    search, and the dictionary is left as the client prepared it. *)
Lemma search_in_place_accepted env w index query size query' :
  prepare_body env query size = Ok query' ->
  search_in_place index query size env w =
    (let '(found, w') := search index query size env w in
     (match found with Ok found => Ok (found, query') | Raise e => Raise e end, w')).
Proof.
  intros Hok.
  unfold search_in_place, es_search_in_place, search, try_except, es_search, logger,
    mbind, M_bind, mret, M_ret.
  rewrite Hok. by destruct (search_reply env index query size).
Qed.

Lemma bulk_insert_keeps_logs env w index documents :
  exists more, logs (snd (bulk_insert index documents env w)) = (logs w ++ more)%list.
Proof.
  destruct documents as [|doc documents].
  - exists []. cbn. by rewrite app_nil_r.
  - unfold bulk_insert, try_except, mbind, M_bind, helpers_bulk, logger, mret, M_ret.
    destruct (bulk_reply env index (bulk_actions index (doc :: documents)))
      as [item_at|e];
      [destruct (tally (bulk_items item_at (bulk_actions index (doc :: documents))))|];
      eexists; reflexivity.
Qed.

(** X12: the pre-market routine hands one query dictionary to both of its
    searches, so the second search gets what the client left in it after
    the first.  On news items the routine returns a strategy whose text is
    the sentiment label of the hits of the first search, with both hit
    counts in [data_summary], and ends with one bulk call, which writes the
    strategy it returns; the strategy has the declared fields of its
    collection and, beyond them, [data_summary].  Behind a client that
    leaves the dictionary alone both searches are sent with the same query.
    Behind a client that wrote [size] into it and refuses it the second
    time, only the first search is sent: an error is logged, and the count
    of listings is 0 whatever the store holds. *)
Theorem pre_market_strategy_on_news (env : Env) (w : World) :
  let found := hits_in_place env "sina_live_data" day_query 50 in
  let kept := left_in env day_query 50 in
  let listed := hits_in_place env "eastmoney_newstock_data" kept 10 in
  Forall news_item found ->
  exists strategy w',
    generate_pre_market_strategy env w = (Ok strategy, w') /\
    trace w' = (trace w ++ calls_in_place env "sina_live_data" day_query 50
                        ++ calls_in_place env "eastmoney_newstock_data" kept 10
                        ++ [write_of "trading_strategies" strategy])%list /\
    dict_get "strategy" strategy VNone = VStr (news_label found) /\
    dict_get "data_summary" strategy VNone =
      VDict [ ("news_count", int_value (length found));
              ("newstock_count", int_value (length listed)) ] /\
    dict_get "confidence" strategy VNone = VFloat (FRat (3 # 4)) /\
    dict_get "create_time" strategy VNone = VStr (clock env (ticks w)) /\
    field_names strategy = (declared_fields "trading_strategies" ++ ["data_summary"])%list /\
    (prepare_body env day_query 50 = Ok day_query ->
     prepare_body env day_query 10 = Ok day_query ->
     found = hits env "sina_live_data" day_query 50 /\
     listed = hits env "eastmoney_newstock_data" day_query 10 /\
     trace w' = (trace w ++ [ EsSearch "sina_live_data" day_query 50;
                              EsSearch "eastmoney_newstock_data" day_query 10;
                              write_of "trading_strategies" strategy ])%list) /\
    (forall sized e,
       prepare_body env day_query 50 = Ok sized ->
       prepare_body env sized 10 = Raise e ->
       found = hits env "sina_live_data" day_query 50 /\
       listed = [] /\
       trace w' = (trace w ++ [ EsSearch "sina_live_data" day_query 50;
                                write_of "trading_strategies" strategy ])%list /\
       In (ERROR, "搜索失败: " ++ exn_str e) (logs w')).
Proof.
  cbv zeta. intros Hnews. unfold generate_pre_market_strategy.
  cbv zeta. fold day_query.
  rewrite bind_run. unfold logger at 1. cbv iota beta. rewrite bind_run.
  match goal with |- context [search_in_place "sina_live_data" ?q ?n env ?w0] =>
    destruct (search_in_place_run env w0 "sina_live_data" q n)
      as (w1 & -> & Hi1 & Hk1 & Ht1 & Hl1) end.
  cbv iota beta. rewrite bind_run.
  destruct (search_in_place_run env w1 "eastmoney_newstock_data"
              (left_in env day_query 50) 10) as (w2 & -> & Hi2 & Hk2 & Ht2 & Hl2).
  cbv iota beta.
  rewrite bind_run, (sentiment_run env w2 _ Hnews).
  rewrite bind_run. unfold now_isoformat at 1. cbv iota beta. rewrite bind_run.
  match goal with |- context [bulk_insert ?i ?d env ?w0] =>
    destruct (bulk_insert_keeps_logs env w0 i d) as [more Hl];
    destruct (bulk_insert_run env w0 i d) as (r & w' & Hrun & Hi & Hk & Ht);
    rewrite Hrun in Hl |- * end.
  eexists _, w'. split; [reflexivity|].
  cbn [indices trace ticks logs snd] in *.
  split; [rewrite Ht, Ht2, Ht1, <- !app_assoc; reflexivity|].
  split; [reflexivity|]. split; [reflexivity|]. split; [reflexivity|].
  split; [by rewrite Hk2, Hk1|]. split; [reflexivity|].
  split.
  - intros H50 H10. unfold hits_in_place, left_in, calls_in_place in *.
    rewrite H50 in *. rewrite H10 in *.
    split; [reflexivity|]. split; [reflexivity|].
    rewrite Ht, Ht2, Ht1, <- !app_assoc. reflexivity.
  - intros sized e H50 H10. unfold hits_in_place, left_in, calls_in_place, records_in_place in *.
    rewrite H50 in *. rewrite H10 in *.
    split; [reflexivity|]. split; [reflexivity|].
    split; [rewrite Ht, Ht2, Ht1, <- !app_assoc; reflexivity|].
    rewrite Hl, Hl2. apply in_or_app. left. apply in_or_app. right. by left.
Qed.

Lemma pre_market_strategy_on_news_witness :
  (exists strategy w',
     generate_pre_market_strategy (listing_env body_untouched) empty_world =
       (Ok strategy, w') /\
     dict_get "strategy" strategy VNone = VStr bullish /\
     dict_get "data_summary" strategy VNone =
       VDict [("news_count", VInt 14); ("newstock_count", VInt 2)] /\
     trace w' = [ EsSearch "sina_live_data" day_query 50;
                  EsSearch "eastmoney_newstock_data" day_query 10;
                  write_of "trading_strategies" strategy ]) /\
  (exists strategy w',
     generate_pre_market_strategy (listing_env size_into_body) empty_world =
       (Ok strategy, w') /\
     dict_get "strategy" strategy VNone = VStr bullish /\
     dict_get "data_summary" strategy VNone =
       VDict [("news_count", VInt 14); ("newstock_count", VInt 0)] /\
     trace w' = [ EsSearch "sina_live_data" day_query 50;
                  write_of "trading_strategies" strategy ]).
Proof.
  split.
  - assert (Forall news_item
              (hits_in_place (listing_env body_untouched) "sina_live_data" day_query 50))
      as Hnews by (repeat constructor; eexists; reflexivity).
    destruct (pre_market_strategy_on_news (listing_env body_untouched) empty_world Hnews)
      as (strategy & w' & Hrun & _ & Hlabel & Hsum & _ & _ & _ & Hsame & _).
    destruct (Hsame eq_refl eq_refl) as (_ & _ & Htrace).
    exists strategy, w'. split; [exact Hrun|]. split; [exact Hlabel|].
    split; [exact Hsum | exact Htrace].
  - assert (Forall news_item
              (hits_in_place (listing_env size_into_body) "sina_live_data" day_query 50))
      as Hnews by (repeat constructor; eexists; reflexivity).
    destruct (pre_market_strategy_on_news (listing_env size_into_body) empty_world Hnews)
      as (strategy & w' & Hrun & _ & Hlabel & Hsum & _ & _ & _ & _ & Hsized).
    destruct (Hsized _ _ eq_refl eq_refl) as (_ & _ & Htrace & _).
    exists strategy, w'. split; [exact Hrun|]. split; [exact Hlabel|].
    split; [exact Hsum | exact Htrace].
Defined.

(** X13: on news items the opening-news analysis returns an artifact with
    the number of hits of the last two hours, the two rounded ratios, and
    the text "暂无重要新闻" exactly when there is no hit (or the search
    failed), in which case both ratios are 0.0; it makes one search and one
    bulk call, which writes the artifact it returns. *)
Theorem opening_news_on_news (env : Env) (w : World) :
  let found := hits env "sina_live_data" [since "now-2h"] 100 in
  Forall news_item found ->
  exists artifact w',
    analyze_opening_news env w = (Ok artifact, w') /\
    trace w' = (trace w ++ [ EsSearch "sina_live_data" [since "now-2h"] 100;
                             write_of "analysis_results" artifact ])%list /\
    field_names artifact = declared_fields "analysis_results" /\
    dict_get "content" artifact VNone = VStr (_summarize_news found) /\
    dict_get "metrics" artifact VNone =
      VDict [ ("total_news", int_value (length found));
              ("positive_ratio", VFloat (news_ratio found "positive"));
              ("negative_ratio", VFloat (news_ratio found "negative")) ] /\
    (_summarize_news found = "暂无重要新闻" <-> found = []) /\
    (found = [] ->
     news_ratio found "positive" = float_zero /\
     news_ratio found "negative" = float_zero).
Proof.
  cbv zeta. intros Hnews. unfold analyze_opening_news. cbv zeta.
  rewrite bind_run. unfold logger at 1. cbv iota beta. rewrite bind_run.
  match goal with |- context [search ?i ?q ?n env ?w0] =>
    destruct (search_run env w0 i q n) as (w1 & -> & Hi1 & Hk1 & Ht1 & _) end.
  rewrite bind_run, (ratio_run env w1 _ _ Hnews).
  rewrite bind_run, (ratio_run env w1 _ _ Hnews).
  rewrite bind_run. unfold now_isoformat at 1. cbv iota beta. rewrite bind_run.
  match goal with |- context [bulk_insert ?i ?d env ?w0] =>
    destruct (bulk_insert_run env w0 i d) as (r & w' & -> & Hi & Hk & Ht) end.
  eexists _, w'. split; [reflexivity|].
  cbn [indices trace ticks] in *. rewrite Ht, Ht1, <- app_assoc.
  split; [reflexivity|]. split; [reflexivity|]. split; [reflexivity|].
  split; [reflexivity|]. split.
  - destruct (hits env "sina_live_data" [since "now-2h"] 100) as [|item rest].
    + split; reflexivity.
    + split; [|discriminate]. unfold _summarize_news.
      intros H. exfalso. revert H.
      generalize (str_of_nat (length (item :: rest))). intros t H.
      vm_compute in H. discriminate H.
  - intros ->. split; reflexivity.
Qed.

Lemma opening_news_on_news_witness :
  Forall news_item (hits lively_env "sina_live_data" [since "now-2h"] 100) /\
  exists artifact w',
    analyze_opening_news lively_env empty_world = (Ok artifact, w') /\
    dict_get "metrics" artifact VNone =
      VDict [ ("total_news", VInt 14);
              ("positive_ratio", VFloat (FRat (71 # 100)));
              ("negative_ratio", VFloat (FRat (29 # 100))) ].
Proof.
  assert (Forall news_item (hits lively_env "sina_live_data" [since "now-2h"] 100))
    as Hnews by (repeat constructor; eexists; reflexivity).
  split; [exact Hnews|].
  destruct (opening_news_on_news lively_env empty_world Hnews)
    as (artifact & w' & Hrun & _ & _ & _ & Hmetrics & _).
  exists artifact, w'. split; [exact Hrun | exact Hmetrics].
Defined.

(** ** Hits that are not news items *)

Lemma any_keyword_in_raises (keywords : list string) (v : value) (e : exn) :
  any_keyword_in keywords v = Raise e -> exists t, e = not_iterable t.
Proof.
  induction keywords as [|kw keywords IH]; [discriminate|].
  cbn [any_keyword_in]. destruct (contains kw v) as [[|]|e'] eqn:E.
  - discriminate.
  - exact IH.
  - intros H. injection H as <-. destruct v; try discriminate;
      cbn [contains] in E; injection E as <-; eauto.
Qed.

Lemma any_keyword_in_uniterable (kw : string) (keywords : list string) (v : value) :
  uniterable v = true ->
  exists t, any_keyword_in (kw :: keywords) v = Raise (not_iterable t).
Proof. destruct v; try discriminate; intros _; cbn; eauto. Qed.

Lemma count_matching_uniterable (kw : string) (keywords : list string)
    (data : list dict) :
  Exists (fun item => uniterable (dict_get "content" item (VStr "")) = true) data ->
  exists t, count_matching (kw :: keywords) data = Raise (not_iterable t).
Proof.
  induction 1 as [item data Hbad|item data _ [t IH]].
  - destruct (any_keyword_in_uniterable kw keywords _ Hbad) as [t Ht].
    exists t. cbn [count_matching]. by rewrite Ht.
  - cbn [count_matching].
    destruct (any_keyword_in (kw :: keywords) (dict_get "content" item (VStr "")))
      as [hit|e] eqn:E.
    + exists t. by rewrite IH.
    + destruct (any_keyword_in_raises _ _ _ E) as [t' ->]. eauto.
Qed.

Lemma calls_in_place_no_bulk env index query size :
  List.filter is_bulk (calls_in_place env index query size) = [].
Proof. unfold calls_in_place. by destruct (prepare_body env query size). Qed.

(** X14: a single hit whose [content] is a number, a boolean or null makes
    the pre-market routine and the opening-news analysis raise [TypeError]
    before they write anything: the searches are their only store calls.
    For the pre-market routine these are its first search and, unless the
    client refuses the query dictionary as the first search left it, the
    second one on that dictionary.  The pre-market route answers such a
    store with status 500, again without a write. *)
Theorem ill_typed_hit_aborts_before_write (env : Env) (w : World) :
  let ill_typed :=
    Exists (fun item => uniterable (dict_get "content" item (VStr "")) = true) in
  let searches :=
    EsSearch "sina_live_data" day_query 50 ::
    calls_in_place env "eastmoney_newstock_data" (left_in env day_query 50) 10 in
  (ill_typed (hits_in_place env "sina_live_data" day_query 50) ->
   exists t,
     (exists w',
        generate_pre_market_strategy env w = (Raise (not_iterable t), w') /\
        trace w' = (trace w ++ searches)%list /\
        List.filter is_bulk (trace w') = List.filter is_bulk (trace w)) /\
     (exists w',
        get_pre_market_strategy env w =
          (Ok (jsonify [ ("success", VBool false);
                         ("error", VStr (exn_str (not_iterable t))) ] 500), w') /\
        trace w' = (trace w ++ searches)%list /\
        List.filter is_bulk (trace w') = List.filter is_bulk (trace w))) /\
  (ill_typed (hits env "sina_live_data" [since "now-2h"] 100) ->
   exists t w',
     analyze_opening_news env w = (Raise (not_iterable t), w') /\
     trace w' = (trace w ++ [EsSearch "sina_live_data" [since "now-2h"] 100])%list).
Proof.
  cbv zeta. split.
  - intros Hbad.
    assert (calls_in_place env "sina_live_data" day_query 50 =
              [EsSearch "sina_live_data" day_query 50]) as Hsent.
    { unfold hits_in_place, calls_in_place in *.
      destruct (prepare_body env day_query 50); [reflexivity | inversion Hbad]. }
    assert (exists t w',
              generate_pre_market_strategy env w = (Raise (not_iterable t), w') /\
              trace w' =
                (trace w ++ EsSearch "sina_live_data" day_query 50 ::
                   calls_in_place env "eastmoney_newstock_data"
                     (left_in env day_query 50) 10)%list)
      as (t & w' & Hrun & Ht).
    { unfold generate_pre_market_strategy. cbv zeta. fold day_query.
      rewrite bind_run. unfold logger at 1. cbv iota beta. rewrite bind_run.
      match goal with |- context [search_in_place "sina_live_data" ?q ?n env ?w0] =>
        destruct (search_in_place_run env w0 "sina_live_data" q n)
          as (w1 & -> & Hi1 & Hk1 & Ht1 & _) end.
      cbv iota beta. rewrite bind_run.
      destruct (search_in_place_run env w1 "eastmoney_newstock_data"
                  (left_in env day_query 50) 10) as (w2 & -> & Hi2 & Hk2 & Ht2 & _).
      cbv iota beta.
      destruct (count_matching_uniterable "利好" ["上涨"; "突破"; "创新高"] _ Hbad)
        as [t Hcount].
      exists t, w2. split.
      - rewrite bind_run. unfold _analyze_market_sentiment, lift.
        destruct (hits_in_place env "sina_live_data" day_query 50) as [|item rest] eqn:Eh;
          [inversion Hbad|].
        rewrite bind_run. unfold positive_keywords. by rewrite Hcount.
      - cbn [trace] in *. by rewrite Ht2, Ht1, Hsent, <- app_assoc. }
    assert (List.filter is_bulk (trace w') = List.filter is_bulk (trace w)) as Hquiet.
    { rewrite Ht, List.filter_app. cbn [List.filter is_bulk].
      by rewrite calls_in_place_no_bulk, app_nil_r. }
    exists t. split; [eauto|].
    exists {| indices := indices w'; trace := trace w';
              logs := logs w' ++ [(ERROR, "获取盘前策略失败: " ++ exn_str (not_iterable t))];
              ticks := ticks w' |}.
    split; [|split; [exact Ht | exact Hquiet]].
    unfold get_pre_market_strategy. by rewrite try_run, bind_run, Hrun.
  - intros Hbad. unfold analyze_opening_news. cbv zeta.
    rewrite bind_run. unfold logger at 1. cbv iota beta. rewrite bind_run.
    match goal with |- context [search ?i ?q ?n env ?w0] =>
      destruct (search_run env w0 i q n) as (w1 & -> & Hi1 & Hk1 & Ht1 & _) end.
    destruct (count_matching_uniterable "利好" ["上涨"; "突破"] _ Hbad) as [t Hcount].
    exists t, w1. split; [|exact Ht1].
    rewrite bind_run. unfold _calculate_sentiment_ratio, lift.
    destruct (hits env "sina_live_data" [since "now-2h"] 100) as [|item rest] eqn:Eh;
      [inversion Hbad|].
    rewrite bind_run.
    change (ratio_keywords "positive") with ["利好"; "上涨"; "突破"]. by rewrite Hcount.
Qed.

Lemma ill_typed_hit_aborts_before_write_witness :
  exists t w',
    get_pre_market_strategy odd_hit_env empty_world =
      (Ok (jsonify [ ("success", VBool false);
                     ("error", VStr (exn_str (not_iterable t))) ] 500), w') /\
    trace w' = [EsSearch "sina_live_data" day_query 50].
Proof.
  assert (Exists (fun item => uniterable (dict_get "content" item (VStr "")) = true)
            (hits_in_place odd_hit_env "sina_live_data" day_query 50)) as Hbad
    by (left; reflexivity).
  pose proof (ill_typed_hit_aborts_before_write odd_hit_env empty_world) as H.
  cbv zeta in H. destruct H as [Hpre _].
  destruct (Hpre Hbad) as (t & _ & (w' & Hroute & Htrace & _)).
  exists t, w'. split; [exact Hroute | exact Htrace].
Defined.

(** ** The crawl route *)

Lemma filter_fetch_app (a b : list net_call) :
  List.filter is_fetch (a ++ b) = (List.filter is_fetch a ++ List.filter is_fetch b)%list.
Proof. apply List.filter_app. Qed.

(** What one crawl adds to the network trace: its page fetch, and at most
    one bulk call, none when the fetch raises. *)
Lemma crawl_outcome_calls crawl url index docs_of env w :
  crawl_outcome crawl url index docs_of env w ->
  exists docs w',
    crawl env w = (Ok docs, w') /\
    indices w' = indices w /\
    List.filter is_fetch (trace w') = (List.filter is_fetch (trace w) ++ [HttpGet url])%list /\
    length (List.filter is_bulk (trace w')) <= length (List.filter is_bulk (trace w)) + 1 /\
    ((exists e, fetch_page env url = Raise e) ->
     trace w' = (trace w ++ [HttpGet url])%list).
Proof.
  intros (docs & w' & Hrun & Hidx & Hpage). exists docs, w'.
  split; [exact Hrun|]. split; [exact Hidx|].
  destruct (fetch_page env url) as [soup|e].
  - destruct Hpage as [_ ->]. unfold crawl_trace.
    rewrite !List.filter_app, !length_app.
    destruct docs; cbn; (split; [reflexivity|]); (split; [lia|]);
      intros [e He]; discriminate.
  - destruct Hpage as [_ ->]. rewrite !List.filter_app, !length_app. cbn.
    split; [reflexivity|]. split; [lia|]. reflexivity.
Qed.

Lemma industry_loop_calls env (names : list string) : forall w,
  exists w',
    for_each names (fun _ industry => crawl_eastmoney_industry industry;; mret tt) tt env w
      = (Ok tt, w') /\
    indices w' = indices w /\
    List.filter is_fetch (trace w') =
      (List.filter is_fetch (trace w) ++ List.map HttpGet (List.map industry_url names))%list /\
    length (List.filter is_bulk (trace w')) <=
      length (List.filter is_bulk (trace w)) + length names /\
    ((forall name, In name names -> exists e, fetch_page env (industry_url name) = Raise e) ->
     trace w' = (trace w ++ List.map HttpGet (List.map industry_url names))%list).
Proof.
  induction names as [|name names IH]; intros w.
  - exists w. cbn. rewrite !app_nil_r. repeat split; lia.
  - destruct (crawl_outcome_calls _ _ _ _ env w (crawl_eastmoney_industry_outcome env w name))
      as (docs & w1 & Hrun & Hi1 & Hf1 & Hb1 & Hq1).
    destruct (IH w1) as (w2 & Hloop & Hi2 & Hf2 & Hb2 & Hq2).
    exists w2. split.
    { cbn [for_each]. rewrite !bind_run, Hrun, ret_run. exact Hloop. }
    split; [congruence|]. split.
    { rewrite Hf2, Hf1, <- app_assoc. reflexivity. }
    split; [cbn [length]; lia|].
    intros Hdown. rewrite Hq2, Hq1, <- ?app_assoc; [reflexivity| |].
    + apply Hdown. by left.
    + intros n Hn. apply Hdown. by right.
Qed.

(** X15: the crawl route never fails: whatever the pages and the store do,
    it answers 200 with [success: true], leaves the collections alone,
    fetches the eight pages (the feed, the listings, six industries) once
    each in that order and issues at most eight bulk calls; when every
    fetch raises it reports success all the same, having written
    nothing. *)
Theorem crawl_now_always_reports_success (env : Env) (w : World) :
  exists w',
    crawl_now env w =
      (Ok (jsonify [ ("success", VBool true); ("message", VStr "数据抓取完成") ] 200), w') /\
    indices w' = indices w /\
    List.filter is_fetch (trace w') =
      (List.filter is_fetch (trace w) ++ List.map HttpGet crawl_now_urls)%list /\
    length (List.filter is_bulk (trace w')) <= length (List.filter is_bulk (trace w)) + 8 /\
    ((forall url, In url crawl_now_urls -> exists e, fetch_page env url = Raise e) ->
     trace w' = (trace w ++ List.map HttpGet crawl_now_urls)%list).
Proof.
  destruct (crawl_outcome_calls _ _ _ _ env w (crawl_sina_live_outcome env w))
    as (d1 & w1 & Hrun1 & Hi1 & Hf1 & Hb1 & Hq1).
  destruct (crawl_outcome_calls _ _ _ _ env w1 (crawl_eastmoney_newstock_outcome env w1))
    as (d2 & w2 & Hrun2 & Hi2 & Hf2 & Hb2 & Hq2).
  destruct (industry_loop_calls env industries w2) as (w3 & Hrun3 & Hi3 & Hf3 & Hb3 & Hq3).
  exists w3. split.
  { unfold crawl_now. rewrite try_run, !bind_run, Hrun1, !bind_run, Hrun2, !bind_run, Hrun3.
    reflexivity. }
  split; [congruence|]. split.
  { rewrite Hf3, Hf2, Hf1, <- !app_assoc. reflexivity. }
  split; [change (length industries) with 6 in Hb3; lia|].
  intros Hdown. unfold crawl_now_urls in *.
  rewrite Hq3, Hq2, Hq1, <- ?app_assoc; [reflexivity| | |].
  - apply Hdown. by left.
  - apply Hdown. right. by left.
  - intros name Hname. apply Hdown. right. right. by apply List.in_map.
Qed.

Lemma crawl_now_always_reports_success_witness :
  exists w',
    crawl_now network_down_env empty_world =
      (Ok (jsonify [ ("success", VBool true); ("message", VStr "数据抓取完成") ] 200), w') /\
    trace w' = List.map HttpGet crawl_now_urls.
Proof.
  destruct (crawl_now_always_reports_success network_down_env empty_world)
    as (w' & Hrun & _ & _ & _ & Hdown).
  exists w'. split; [exact Hrun|].
  apply Hdown. intros url _. eexists. reflexivity.
Defined.

(** ** Crawled documents *)

Lemma sina_docs_shape env (items : list element) : forall t,
  length (sina_docs env t items) <= length items /\
  Forall (fun d => exists t' content, d = sina_doc env t' content) (sina_docs env t items).
Proof.
  induction items as [|item items IH]; intros t; cbn [sina_docs length].
  - split; [lia | constructor].
  - destruct (sina_entry item) as [content|].
    + destruct (IH (S (S t))) as [Hlen Hall]. split; [cbn [length]; lia|].
      constructor; [eauto | exact Hall].
    + destruct (IH t) as [Hlen Hall]. split; [lia | exact Hall].
Qed.

Lemma newstock_docs_shape env (rows : list element) : forall t,
  length (newstock_docs env t rows) <= length rows /\
  Forall (fun d => exists t' row, d = newstock_doc env t' row) (newstock_docs env t rows).
Proof.
  induction rows as [|row rows IH]; intros t; cbn [newstock_docs length].
  - split; [lia | constructor].
  - destruct (length (select row "td") <? 6)%nat.
    + destruct (IH t) as [Hlen Hall]. split; [lia | exact Hall].
    + destruct (IH (S t)) as [Hlen Hall]. split; [cbn [length]; lia|].
      constructor; [eauto | exact Hall].
Qed.

Lemma industry_docs_shape env industry (articles : list element) : forall t,
  length (industry_docs env t industry articles) = length articles /\
  Forall (fun d => exists t' article, d = industry_doc env t' industry article)
    (industry_docs env t industry articles).
Proof.
  induction articles as [|article articles IH]; intros t; cbn [industry_docs length].
  - split; [reflexivity | constructor].
  - destruct (IH (S (S t))) as [Hlen Hall]. split; [lia|].
    constructor; [eauto | exact Hall].
Qed.

Lemma take_bound {A : Type} (n : nat) (l : list A) : length (take n l) <= n.
Proof. rewrite length_take. lia. Qed.

(** What a crawl returns is the empty list or the documents of its page. *)
Lemma crawl_outcome_docs crawl url index docs_of env w :
  crawl_outcome crawl url index docs_of env w ->
  exists docs w',
    crawl env w = (Ok docs, w') /\
    (docs = [] \/ exists soup, docs = docs_of env (ticks w) soup).
Proof.
  intros (docs & w' & Hrun & _ & Hpage). exists docs, w'. split; [exact Hrun|].
  destruct (fetch_page env url) as [soup|e]; destruct Hpage as [-> _]; eauto.
Qed.

(** X16: whatever page comes back, the documents a crawl returns fit the
    collection they are written to: their fields are exactly the declared
    ones, in the declared order.  The feed crawl returns at most twenty of
    them, each with a text content (so the analyses can read it), the
    source [sina_finance] and the tags of that content; the listings crawl
    returns at most ten; an industry crawl returns at most ten, each
    carrying the industry asked for and an empty content. *)
Theorem crawled_documents_fit_schema (env : Env) (w : World) :
  (exists docs w',
     crawl_sina_live env w = (Ok docs, w') /\
     length docs <= 20 /\
     Forall (fun d =>
               field_names d = declared_fields "sina_live_data" /\
               news_item d /\
               dict_get "source" d VNone = VStr "sina_finance" /\
               dict_get "tags" d VNone = tags_value (content_text d)) docs) /\
  (exists docs w',
     crawl_eastmoney_newstock env w = (Ok docs, w') /\
     length docs <= 10 /\
     Forall (fun d => field_names d = declared_fields "eastmoney_newstock_data") docs) /\
  (forall industry,
     exists docs w',
       crawl_eastmoney_industry industry env w = (Ok docs, w') /\
       length docs <= 10 /\
       Forall (fun d =>
                 field_names d = declared_fields "eastmoney_industry_data" /\
                 dict_get "industry" d VNone = VStr industry /\
                 dict_get "content" d VNone = VStr "") docs).
Proof.
  split; [|split; [|intros industry]].
  - destruct (crawl_outcome_docs _ _ _ _ env w (crawl_sina_live_outcome env w))
      as (docs & w' & Hrun & Hdocs).
    exists docs, w'. split; [exact Hrun|].
    destruct Hdocs as [->|[soup ->]]; [split; [cbn; lia | constructor]|].
    destruct (sina_docs_shape env (take 20 (select soup ".bd_i")) (ticks w)) as [Hlen Hall].
    split; [pose proof (take_bound 20 (select soup ".bd_i")); lia|].
    eapply Forall_impl; [exact Hall|]. intros d (t' & content & ->).
    split; [reflexivity|]. split; [by exists content|]. split; reflexivity.
  - destruct (crawl_outcome_docs _ _ _ _ env w (crawl_eastmoney_newstock_outcome env w))
      as (docs & w' & Hrun & Hdocs).
    exists docs, w'. split; [exact Hrun|].
    destruct Hdocs as [->|[soup ->]]; [split; [cbn; lia | constructor]|].
    destruct (newstock_docs_shape env (take 10 (select soup "table tbody tr")) (ticks w))
      as [Hlen Hall].
    split; [pose proof (take_bound 10 (select soup "table tbody tr")); lia|].
    eapply Forall_impl; [exact Hall|]. by intros d (t' & row & ->).
  - destruct (crawl_outcome_docs _ _ _ _ env w (crawl_eastmoney_industry_outcome env w industry))
      as (docs & w' & Hrun & Hdocs).
    exists docs, w'. split; [exact Hrun|].
    destruct Hdocs as [->|[soup ->]]; [split; [cbn; lia | constructor]|].
    destruct (industry_docs_shape env industry (take 10 (select soup ".news-item")) (ticks w))
      as [Hlen Hall].
    split; [pose proof (take_bound 10 (select soup ".news-item")); lia|].
    eapply Forall_impl; [exact Hall|]. intros d (t' & article & ->).
    split; [reflexivity|]. split; reflexivity.
Qed.
